(** * Relay pipeline of the Claude entry path: a shallow embedding

  The development follows three Go source files:
  - [service/error.go]            (error normalizer, status-code remap),
  - [relay/channel/vertex/adaptor.go] (the Vertex adaptor),
  - [relay/claude_handler.go]     (the relay orchestrator [ClaudeHelper]).

  Go values are modelled as the code has them: [int] and [uint] as [Z]
  with the wrap-around of a 64-bit platform written out, [string] as a
  byte string, [float64] as an IEEE-754 binary64 number ([spec_float] with
  precision 53), [map[string]string] as a [gmap], a nilable pointer or
  interface as an [option]. *)

From Stdlib Require Import ZArith Lia Bool List Ascii String.
From Stdlib Require Import Floats.SpecFloat.
From stdpp Require Import base option strings gmap.
Import ListNotations.

Local Open Scope string_scope.
Local Open Scope Z_scope.

(** ** Go's [strings] package, on byte strings *)
Module GoStrings.

(** [strings.HasPrefix(s, p)]. *)
Definition HasPrefix (s p : string) : bool := String.prefix p s.

(** [s[i:]] for [i <= len(s)]. *)
Fixpoint drop (i : nat) (s : string) : string :=
  match i, s with
  | O, _ => s
  | S i', String _ s' => drop i' s'
  | S _, EmptyString => EmptyString
  end.

(** [s[:i]] for [i <= len(s)]. *)
Fixpoint take (i : nat) (s : string) : string :=
  match i, s with
  | O, _ => EmptyString
  | S i', String c s' => String c (take i' s')
  | S _, EmptyString => EmptyString
  end.

(** [strings.HasSuffix(s, suffix)]:
    [len(s) >= len(suffix) && s[len(s)-len(suffix):] == suffix]. *)
Definition HasSuffix (s suffix : string) : bool :=
  (String.length suffix <=? String.length s)%nat
  && String.eqb (drop (String.length s - String.length suffix) s) suffix.

(** [strings.TrimSuffix(s, suffix)]. *)
Definition TrimSuffix (s suffix : string) : string :=
  if HasSuffix s suffix
  then take (String.length s - String.length suffix) s
  else s.

(** The part of [s] before the first occurrence of [sep], when there is
    one: [strings.Split(s, sep)[0]] for a non-empty [sep] that occurs. *)
Fixpoint before_first (sep s : string) : option string :=
  if String.prefix sep s then Some EmptyString
  else match s with
       | EmptyString => None
       | String c s' =>
           match before_first sep s' with
           | Some r => Some (String c r)
           | None => None
           end
       end.

(** [strings.Contains(s, substr)]. *)
Definition Contains (s substr : string) : bool :=
  match before_first substr s with Some _ => true | None => false end.

(** [strings.Split(s, sep)[0]]: the whole of [s] when [sep] does not occur. *)
Definition Split_first (s sep : string) : string :=
  match before_first sep s with Some r => r | None => s end.

End GoStrings.

(** ** Go's [strconv] package: [Itoa] and [Atoi] on a 64-bit platform *)
Module GoStrconv.

Definition MaxInt64 : Z := 9223372036854775807.
Definition MinInt64 : Z := -9223372036854775808.
Definition MaxUint64 : Z := 18446744073709551615.

(** [*NumError.Err]: the two errors [Atoi] reports. *)
Inductive NumError := ErrSyntax | ErrRange.

(** One decimal digit, most significant first. *)
Definition digit_char (d : Z) : ascii := ascii_of_nat (Z.to_nat (48 + d)).

Fixpoint utoa_fuel (fuel : nat) (n : Z) (acc : string) : string :=
  match fuel with
  | O => acc
  | S fuel' =>
      let acc' := String (digit_char (n mod 10)) acc in
      if n <? 10 then acc' else utoa_fuel fuel' (n / 10) acc'
  end.

(** [strconv.Itoa(i)]: the decimal form, with a leading minus sign for
    a negative number.  Twenty digits cover every 64-bit value. *)
Definition Itoa (i : Z) : string :=
  if i <? 0 then String "-" (utoa_fuel 20 (- i) EmptyString)
  else utoa_fuel 20 i EmptyString.

(** The value of a decimal digit byte, [None] for any other byte. *)
Definition digit_of (c : ascii) : option Z :=
  let n := Z.of_nat (nat_of_ascii c) in
  if (48 <=? n) && (n <=? 57) then Some (n - 48) else None.

(** The loop of the fast path of [Atoi]: no overflow is possible on at
    most 18 digits. *)
Fixpoint atoi_fast_loop (s : string) (n : Z) : option Z :=
  match s with
  | EmptyString => Some n
  | String ch s' =>
      match digit_of ch with
      | None => None
      | Some d => atoi_fast_loop s' (n * 10 + d)
      end
  end.

(** The loop of [ParseUint(s, 10, 64)].  [cutoff] is the smallest number
    whose product with 10 exceeds [MaxUint64].  The range error is
    returned as soon as the accumulated value overflows, before the
    remaining bytes are looked at. *)
Definition cutoff10 : Z := MaxUint64 / 10 + 1.

Fixpoint parseUint_loop (s : string) (n : Z) : Z * option NumError :=
  match s with
  | EmptyString => (n, None)
  | String c s' =>
      match digit_of c with
      | None => (0, Some ErrSyntax)
      | Some d =>
          if cutoff10 <=? n then (MaxUint64, Some ErrRange)
          else
            let n1 := n * 10 + d in
            if MaxUint64 <? n1 then (MaxUint64, Some ErrRange)
            else parseUint_loop s' n1
      end
  end.

Definition ParseUint10 (s : string) : Z * option NumError :=
  match s with
  | EmptyString => (0, Some ErrSyntax)
  | _ => parseUint_loop s 0
  end.

(** [ParseInt(s, 10, 0)]. *)
Definition ParseInt10 (s : string) : Z * option NumError :=
  match s with
  | EmptyString => (0, Some ErrSyntax)
  | String c0 rest =>
      let neg := Ascii.eqb c0 "-" in
      let body := if Ascii.eqb c0 "+" || neg then rest else s in
      match ParseUint10 body with
      | (_, Some ErrSyntax) => (0, Some ErrSyntax)
      | (un, _) =>
          let cutoff := 9223372036854775808 in
          if negb neg && (cutoff <=? un) then (cutoff - 1, Some ErrRange)
          else if neg && (cutoff <? un) then (- cutoff, Some ErrRange)
          else (if neg then - un else un, None)
      end
  end.

(** [strconv.Atoi(s)]: the value and the error ([None] for [nil]). *)
Definition Atoi (s : string) : Z * option NumError :=
  let sLen := String.length s in
  if (0 <? sLen)%nat && (sLen <? 19)%nat then
    match s with
    | EmptyString => (0, Some ErrSyntax)
    | String c0 rest =>
        let signed := Ascii.eqb c0 "-" || Ascii.eqb c0 "+" in
        let body := if signed then rest else s in
        if signed && (String.length body <? 1)%nat then (0, Some ErrSyntax)
        else
          match atoi_fast_loop body 0 with
          | None => (0, Some ErrSyntax)
          | Some n => (if Ascii.eqb c0 "-" then - n else n, None)
          end
    end
  else ParseInt10 s.

End GoStrconv.


(** ** Go's [float64], as far as the handler uses it *)
Module GoFloat.

(** IEEE-754 binary64: precision 53, maximal exponent 1024. *)
Definition float64 : Type := spec_float.
Definition prec : Z := 53.
Definition emax : Z := 1024.

(** [float64(u)] for an unsigned integer: round to nearest, ties to even. *)
Definition of_uint (u : Z) : float64 := binary_normalize prec emax u 0 false.

(** [x * y] on [float64]. *)
Definition mul (x y : float64) : float64 := SFmul prec emax x y.

(** [int(f)]: the fraction is discarded (truncation toward zero).  The Go
    specification leaves a value outside [int] to the implementation; the
    amd64 conversion instruction yields the least [int64] there and on
    NaN and the infinities. *)
Definition to_int (f : float64) : Z :=
  match f with
  | S754_zero _ => 0
  | S754_finite s m e =>
      let mag := if 0 <=? e then Z.shiftl (Zpos m) e else Z.shiftr (Zpos m) (- e) in
      let v := if s then - mag else mag in
      if (GoStrconv.MinInt64 <=? v) && (v <=? GoStrconv.MaxInt64) then v
      else GoStrconv.MinInt64
  | _ => GoStrconv.MinInt64
  end.

(** The literals [0], [1.0] and [0.8]. *)
Definition zero : float64 := S754_zero false.
Definition one : float64 := S754_finite false 4503599627370496 (-52).
Definition point8 : float64 := S754_finite false 7205759403792794 (-53).

(** The integer nearest to the exact product [u * p] (halves away from
    zero, as [math.Round] does), for a finite non-negative [p]: what
    "round(max_tokens x p)" denotes. *)
Definition round_product (u : Z) (p : float64) : Z :=
  match p with
  | S754_finite false m e =>
      if 0 <=? e then u * Z.shiftl (Zpos m) e
      else (2 * u * Zpos m + 2 ^ (- e)) / 2 ^ (- e + 1)
  | _ => 0
  end.

End GoFloat.

(** Go's [int(u)] for [u : uint] and [uint(i)] for [i : int]: the same 64
    bits, read in the other type. *)
Definition int_of_uint (u : Z) : Z :=
  if u <=? GoStrconv.MaxInt64 then u else u - 2 ^ 64.
Definition uint_of_int (i : Z) : Z := i mod 2 ^ 64.

(** Go's [error] values are kept by their message ([err.Error()]). *)
Definition error : Type := string.

(** ** Package [types]: the relay's error value *)
Module types.

Inductive ErrorType := ErrorTypeNewAPIError | ErrorTypeOpenAIError.

Inductive ErrorCode :=
| ErrorCodeInvalidRequest
| ErrorCodeChannelModelMappedError
| ErrorCodeCountTokenFailed
| ErrorCodeModelPriceError
| ErrorCodeInvalidApiType
| ErrorCodeConvertRequestFailed
| ErrorCodeDoRequestFailed
| ErrorCodeBadResponseStatusCode
| ErrorCodeUpstream (code : string).

(** Modelled from the spec: [types.OpenAIError], declared outside the
    three files: the canonical error envelope [{ message, type, code }]. *)
Record OpenAIError := {
  Message : string;
  Type_ : string;
  Code : string
}.

(** Modelled from the spec: [types.NewAPIError], declared outside the three
    files: the tagged value [{ kind, status_code, cause }].  The fields
    [Err], [ErrorType] and [StatusCode] are the ones the source reads and
    writes; [RelayError] holds the parsed upstream envelope (the cause) and
    [errorCode] the stable kind. *)
Record NewAPIError := {
  Err : option error;
  RelayError : option OpenAIError;
  ErrorType_ : ErrorType;
  StatusCode : Z;
  errorCode : option ErrorCode
}.

Definition set_StatusCode (e : NewAPIError) (code : Z) : NewAPIError :=
  {| Err := Err e; RelayError := RelayError e; ErrorType_ := ErrorType_ e;
     StatusCode := code; errorCode := errorCode e |}.

Definition set_Err (e : NewAPIError) (err : error) : NewAPIError :=
  {| Err := Some err; RelayError := RelayError e; ErrorType_ := ErrorType_ e;
     StatusCode := StatusCode e; errorCode := errorCode e |}.

Definition set_ErrorType (e : NewAPIError) (t : ErrorType) : NewAPIError :=
  {| Err := Err e; RelayError := RelayError e; ErrorType_ := t;
     StatusCode := StatusCode e; errorCode := errorCode e |}.

(** Modelled from the spec: the constructors of package [types], which is
    not among the sources.  An error is a tagged value
    [{ kind, status_code, cause }]; a locally built error carries its kind
    and the status 500 (no statement below depends on that number). *)
Definition NewError (err : error) (code : ErrorCode) : NewAPIError :=
  {| Err := Some err; RelayError := None; ErrorType_ := ErrorTypeNewAPIError;
     StatusCode := 500; errorCode := Some code |}.

(** Modelled from the spec: [types.NewOpenAIError(err, code, status)], an
    error in the OpenAI envelope with the given status. *)
Definition NewOpenAIError (err : error) (code : ErrorCode) (statusCode : Z) : NewAPIError :=
  {| Err := Some err; RelayError := None; ErrorType_ := ErrorTypeOpenAIError;
     StatusCode := statusCode; errorCode := Some code |}.

(** Modelled from the spec: [types.NewErrorWithStatusCode(err, code, status)]. *)
Definition NewErrorWithStatusCode (err : error) (code : ErrorCode) (statusCode : Z) : NewAPIError :=
  {| Err := Some err; RelayError := None; ErrorType_ := ErrorTypeNewAPIError;
     StatusCode := statusCode; errorCode := Some code |}.

(** Modelled from the spec: [types.WithOpenAIError(e, status)], the
    structured upstream error
    [Error{ kind: UpstreamStructured, status_code: resp.status, cause: parsed }]. *)
Definition WithOpenAIError (openAIError : OpenAIError) (statusCode : Z) : NewAPIError :=
  {| Err := Some (Message openAIError); RelayError := Some openAIError;
     ErrorType_ := ErrorTypeOpenAIError; StatusCode := statusCode;
     errorCode := Some (ErrorCodeUpstream (Code openAIError)) |}.

End types.

(** ** Package [net/http]: what the relay reads of an upstream response *)
Module http.

Definition StatusOK : Z := 200.
Definition StatusInternalServerError : Z := 500.

(** [Body] is the outcome of [io.ReadAll(resp.Body)]: the bytes, or the
    read error. *)
Record Response := {
  StatusCode : Z;
  ContentType : string;
  Body : error + string
}.

End http.

(** ** Package [dto]: requests, usage, the error envelope *)
Module dto.

(** Modelled from the spec: [dto.GeneralErrorResponse], the canonical
    [{ error: { message, type, code } }] envelope; [Rest] stands for the
    other message-bearing members [ToMessage] may draw on. *)
Record GeneralErrorResponse := {
  Error : types.OpenAIError;
  Rest : list string
}.

(** Modelled from the spec: [dto.Thinking], the extended-thinking block. *)
Record Thinking := {
  Type_ : string;
  BudgetTokens : option Z
}.

(** Modelled from the spec: [dto.ClaudeRequest], declared outside the three
    files, with the members the handler reads or writes.  [MaxTokens] is a
    [uint]; [Temperature] and [Thinking] are pointers. *)
Record ClaudeRequest := {
  Model : string;
  Messages : list string;
  MaxTokens : Z;
  Stream : bool;
  Thinking_ : option Thinking;
  TopP : GoFloat.float64;
  Temperature : option GoFloat.float64
}.

(** Modelled from the spec: [dto.Usage],
    [{ prompt_tokens, completion_tokens, total_tokens }]. *)
Record Usage := {
  PromptTokens : Z;
  CompletionTokens : Z;
  TotalTokens : Z
}.

End dto.

(** ** Package [relay/common]: the per-request context *)
Module relaycommon.

(** Modelled from the spec: [relaycommon.RelayInfo], the per-request
    context, declared outside the three files; the members are those the
    three files use. *)
Record RelayInfo := {
  UserId : Z;
  ChannelId : Z;
  ApiType : Z;
  RelayMode : Z;
  OriginModelName : string;
  UpstreamModelName : string;
  BaseUrl : string;
  ApiKey : string;
  ApiVersion : string;
  IsStream : bool;
  PromptTokens : Z
}.

Definition set_UpstreamModelName (info : RelayInfo) (m : string) : RelayInfo :=
  {| UserId := UserId info; ChannelId := ChannelId info; ApiType := ApiType info;
     RelayMode := RelayMode info; OriginModelName := OriginModelName info;
     UpstreamModelName := m; BaseUrl := BaseUrl info; ApiKey := ApiKey info;
     ApiVersion := ApiVersion info; IsStream := IsStream info;
     PromptTokens := PromptTokens info |}.

Definition set_IsStream (info : RelayInfo) (b : bool) : RelayInfo :=
  {| UserId := UserId info; ChannelId := ChannelId info; ApiType := ApiType info;
     RelayMode := RelayMode info; OriginModelName := OriginModelName info;
     UpstreamModelName := UpstreamModelName info; BaseUrl := BaseUrl info;
     ApiKey := ApiKey info; ApiVersion := ApiVersion info; IsStream := b;
     PromptTokens := PromptTokens info |}.

Definition set_PromptTokens (info : RelayInfo) (n : Z) : RelayInfo :=
  {| UserId := UserId info; ChannelId := ChannelId info; ApiType := ApiType info;
     RelayMode := RelayMode info; OriginModelName := OriginModelName info;
     UpstreamModelName := UpstreamModelName info; BaseUrl := BaseUrl info;
     ApiKey := ApiKey info; ApiVersion := ApiVersion info;
     IsStream := IsStream info; PromptTokens := n |}.

End relaycommon.

(** ** The gin context: its key-value bag *)
Module gin.

Definition Context : Type := gmap string string.

(** [c.Set(key, value)]. *)
Definition Set_ (c : Context) (key value : string) : Context := <[key := value]> c.

(** [c.GetString(key)]: the empty string for a missing key. *)
Definition GetString (c : Context) (key : string) : string :=
  match c !! key with Some v => v | None => EmptyString end.

End gin.

(** ** Service-account credentials of the Vertex adaptor *)
Module credentials.

(** Modelled from the spec: the [Credentials] struct of package [vertex]
    (service-account JSON: project id, private key, token URI), declared
    in a file that is not among the sources. *)
Record Credentials := {
  ProjectID : string;
  PrivateKeyID : string;
  PrivateKey : string;
  ClientEmail : string;
  ClientID : string
}.

Definition empty : Credentials :=
  {| ProjectID := EmptyString; PrivateKeyID := EmptyString;
     PrivateKey := EmptyString; ClientEmail := EmptyString;
     ClientID := EmptyString |}.

End credentials.

(** ** What the three files call but do not define

    Decoders of the Go library ([encoding/json]) and functions and settings
    of this repository that live outside the three files.  The definitions
    below take them as an interface; every theorem holds for each
    implementation of it. *)
Class Externals := {
  (** [json.Unmarshal(s, &m)] for [m : map[string]string]. *)
  json_Unmarshal_map : string -> error + gmap string string;
  (** [json.Unmarshal(s, adc)] for [adc : *Credentials]. *)
  json_Unmarshal_credentials : string -> error + credentials.Credentials;
  (** [common.Unmarshal(body, &errResponse)]. *)
  common_Unmarshal_error : string -> error + dto.GeneralErrorResponse;
  (** [errResponse.ToMessage()]. *)
  ToMessage : dto.GeneralErrorResponse -> string;
  (** [GetModelRegion(info.ApiVersion, info.OriginModelName)]. *)
  GetModelRegion : string -> string -> string;
  (** [model_setting.GetGeminiSettings().ThinkingAdapterEnabled]. *)
  GeminiThinkingAdapterEnabled : bool;
  (** [model_setting.GetClaudeSettings().ThinkingAdapterEnabled]. *)
  ClaudeThinkingAdapterEnabled : bool;
  (** [model_setting.GetClaudeSettings().ThinkingAdapterBudgetTokensPercentage]. *)
  ThinkingAdapterBudgetTokensPercentage : GoFloat.float64;
  (** [model_setting.GetClaudeSettings().GetDefaultMaxTokens(model)], an [int]. *)
  GetDefaultMaxTokens : string -> Z
}.

(** ** [service/error.go] *)
Module service.

Import types.

(** [RelayErrorHandler(c, resp, showBodyWhenFail)].  The context is used
    for logging only. *)
Definition RelayErrorHandler `{Externals} (resp : http.Response)
    (showBodyWhenFail : bool) : NewAPIError :=
  let newApiErr :=
    {| Err := None; RelayError := None; ErrorType_ := ErrorTypeOpenAIError;
       StatusCode := http.StatusCode resp; errorCode := None |} in
  match http.Body resp with
  | inl _ => newApiErr
  | inr responseBody =>
      match common_Unmarshal_error responseBody with
      | inl _ =>
          if showBodyWhenFail then
            set_Err newApiErr
              ("bad response status code " ++ GoStrconv.Itoa (http.StatusCode resp)
               ++ ", body: " ++ responseBody)
          else
            set_Err newApiErr
              ("bad response status code " ++ GoStrconv.Itoa (http.StatusCode resp))
      | inr errResponse =>
          if negb (String.eqb (Message (dto.Error errResponse)) EmptyString) then
            WithOpenAIError (dto.Error errResponse) (http.StatusCode resp)
          else
            set_ErrorType
              (NewErrorWithStatusCode (ToMessage errResponse)
                 ErrorCodeBadResponseStatusCode (http.StatusCode resp))
              ErrorTypeOpenAIError
      end
  end.

(** [ResetStatusCode(newApiErr, statusCodeMappingStr)]: the error after the
    call (the Go function writes through the pointer). *)
Definition ResetStatusCode `{Externals} (newApiErr : NewAPIError)
    (statusCodeMappingStr : string) : NewAPIError :=
  if String.eqb statusCodeMappingStr EmptyString || String.eqb statusCodeMappingStr "{}"
  then newApiErr
  else
    match json_Unmarshal_map statusCodeMappingStr with
    | inl _ => newApiErr
    | inr statusCodeMapping =>
        if StatusCode newApiErr =? http.StatusOK then newApiErr
        else
          let codeStr := GoStrconv.Itoa (StatusCode newApiErr) in
          match statusCodeMapping !! codeStr with
          | Some v =>
              let intCode := fst (GoStrconv.Atoi v) in
              set_StatusCode newApiErr intCode
          | None => newApiErr
          end
    end.

End service.

(** ** Package [relay/channel]: the adaptor interface *)
Module channel.

(** A value of Go's [any] that is expected to hold a [*dto.Usage]: the nil
    interface, a [*dto.Usage] (itself nil or not), or a value of another
    dynamic type. *)
Inductive any_usage :=
| nil_interface
| usage_pointer (p : option dto.Usage)
| other_dynamic_type.

(** Modelled from the spec: the interface [channel.Adaptor], declared
    outside the three files: the methods [ClaudeHelper] calls, with the
    signatures the Vertex adaptor gives them.  [A] is the adaptor's own
    state, [P] the converted request it produces.  A method that receives
    [info] by pointer returns the context as it leaves it. *)
Class Adaptor (A P : Type) := {
  Init : A -> relaycommon.RelayInfo -> A * relaycommon.RelayInfo;
  ConvertClaudeRequest :
    A -> gin.Context -> relaycommon.RelayInfo -> dto.ClaudeRequest ->
    (error + P) * A * gin.Context * relaycommon.RelayInfo;
  DoRequest :
    A -> gin.Context -> relaycommon.RelayInfo -> string ->
    (error + option http.Response) * A * relaycommon.RelayInfo;
  DoResponse :
    A -> gin.Context -> option http.Response -> relaycommon.RelayInfo ->
    (any_usage * option types.NewAPIError) * A * relaycommon.RelayInfo
}.

End channel.

(** ** [relay/channel/vertex/adaptor.go] *)
Module vertex.

Import relaycommon credentials.

Definition RequestModeClaude : Z := 1.
Definition RequestModeGemini : Z := 2.
Definition RequestModeLlama : Z := 3.

Definition claudeModelMap : list (string * string) :=
  [ ("claude-3-sonnet-20240229", "claude-3-sonnet@20240229");
    ("claude-3-opus-20240229", "claude-3-opus@20240229");
    ("claude-3-haiku-20240307", "claude-3-haiku@20240307");
    ("claude-3-5-sonnet-20240620", "claude-3-5-sonnet@20240620");
    ("claude-3-5-sonnet-20241022", "claude-3-5-sonnet-v2@20241022");
    ("claude-3-7-sonnet-20250219", "claude-3-7-sonnet@20250219");
    ("claude-sonnet-4-20250514", "claude-sonnet-4@20250514");
    ("claude-opus-4-20250514", "claude-opus-4@20250514") ].

(** [v, ok := claudeModelMap[key]]; the keys of the literal are distinct. *)
Fixpoint lookup_model (m : list (string * string)) (key : string) : option string :=
  match m with
  | [] => None
  | (k, v) :: m' => if String.eqb k key then Some v else lookup_model m' key
  end.

Definition anthropicVersion : string := "vertex-2023-10-16".

Record Adaptor := {
  RequestMode : Z;
  AccountCredentials : Credentials
}.

Definition set_RequestMode (a : Adaptor) (mode : Z) : Adaptor :=
  {| RequestMode := mode; AccountCredentials := AccountCredentials a |}.

Definition set_AccountCredentials (a : Adaptor) (adc : Credentials) : Adaptor :=
  {| RequestMode := RequestMode a; AccountCredentials := adc |}.

(** The request modes [GetRequestURL] has a branch for. *)
Definition supported_mode (mode : Z) : Prop :=
  mode = RequestModeClaude \/ mode = RequestModeGemini \/ mode = RequestModeLlama.

(** [(a *Adaptor) Init(info)]. *)
Definition Init (a : Adaptor) (info : RelayInfo) : Adaptor :=
  if GoStrings.HasPrefix (UpstreamModelName info) "claude" then
    set_RequestMode a RequestModeClaude
  else if GoStrings.HasPrefix (UpstreamModelName info) "gemini" then
    set_RequestMode a RequestModeGemini
  else if GoStrings.Contains (UpstreamModelName info) "llama" then
    set_RequestMode a RequestModeLlama
  else a.

(** The rewriting of [info.UpstreamModelName] in Gemini mode when the
    thinking adapter is on (the three branches of the source). *)
Definition strip_gemini_thinking (name : string) : string :=
  if GoStrings.Contains name "-thinking-" then
    GoStrings.Split_first name "-thinking-"
  else if GoStrings.HasSuffix name "-thinking" then
    GoStrings.TrimSuffix name "-thinking"
  else if GoStrings.HasSuffix name "-nothinking" then
    GoStrings.TrimSuffix name "-nothinking"
  else name.

(** [(a *Adaptor) GetRequestURL(info)]: the result, the adaptor and the
    context after the call. *)
Definition GetRequestURL `{Externals} (a : Adaptor) (info : RelayInfo)
    : (error + string) * Adaptor * RelayInfo :=
  match json_Unmarshal_credentials (ApiKey info) with
  | inl err => (inl ("failed to decode credentials file: " ++ err), a, info)
  | inr adc =>
      let region := GetModelRegion (ApiVersion info) (OriginModelName info) in
      let a := set_AccountCredentials a adc in
      if RequestMode a =? RequestModeGemini then
        let info :=
          if GeminiThinkingAdapterEnabled
          then set_UpstreamModelName info (strip_gemini_thinking (UpstreamModelName info))
          else info in
        let suffix :=
          if IsStream info then "streamGenerateContent?alt=sse" else "generateContent" in
        if String.eqb region "global" then
          (inr ("https://aiplatform.googleapis.com/v1/projects/" ++ ProjectID adc
                ++ "/locations/global/publishers/google/models/"
                ++ UpstreamModelName info ++ ":" ++ suffix), a, info)
        else
          (inr ("https://" ++ region ++ "-aiplatform.googleapis.com/v1/projects/"
                ++ ProjectID adc ++ "/locations/" ++ region
                ++ "/publishers/google/models/" ++ UpstreamModelName info
                ++ ":" ++ suffix), a, info)
      else if RequestMode a =? RequestModeClaude then
        let suffix :=
          if IsStream info then "streamRawPredict?alt=sse" else "rawPredict" in
        let model :=
          match lookup_model claudeModelMap (UpstreamModelName info) with
          | Some v => v
          | None => UpstreamModelName info
          end in
        if String.eqb region "global" then
          (inr ("https://aiplatform.googleapis.com/v1/projects/" ++ ProjectID adc
                ++ "/locations/global/publishers/anthropic/models/"
                ++ model ++ ":" ++ suffix), a, info)
        else
          (inr ("https://" ++ region ++ "-aiplatform.googleapis.com/v1/projects/"
                ++ ProjectID adc ++ "/locations/" ++ region
                ++ "/publishers/anthropic/models/" ++ model ++ ":" ++ suffix), a, info)
      else if RequestMode a =? RequestModeLlama then
        (inr ("https://" ++ region ++ "-aiplatform.googleapis.com/v1beta1/projects/"
              ++ ProjectID adc ++ "/locations/" ++ region
              ++ "/endpoints/openapi/chat/completions"), a, info)
      else (inl "unsupported request mode", a, info)
  end.

(** Modelled from the spec: [copyRequest(request, anthropicVersion)], not
    among the sources.  The converted request is "an opaque payload the
    adapter alone interprets"; it is kept as the request together with the
    version string. *)
Definition copyRequest (request : dto.ClaudeRequest) (version : string)
    : dto.ClaudeRequest * string := (request, version).

(** [(a *Adaptor) ConvertClaudeRequest(c, info, request)]: the payload and
    the gin context after [c.Set]. *)
Definition ConvertClaudeRequest (a : Adaptor) (c : gin.Context) (info : RelayInfo)
    (request : dto.ClaudeRequest) : (dto.ClaudeRequest * string) * gin.Context :=
  let c :=
    match lookup_model claudeModelMap (UpstreamModelName info) with
    | Some v => gin.Set_ c "request_model" v
    | None => gin.Set_ c "request_model" (dto.Model request)
    end in
  (copyRequest request anthropicVersion, c).

(** A response handler of the packages [claude], [gemini] and [openai]:
    it receives the response and [info] and returns [(usage, err)]. *)
Definition Handler : Type :=
  option http.Response -> RelayInfo ->
  (channel.any_usage * option types.NewAPIError) * RelayInfo.

(** The handlers [DoResponse] delegates to and the constant
    [constant.RelayModeGemini]; none is among the sources. *)
Record Handlers := {
  ClaudeStreamHandler : Handler;
  ClaudeHandler : Handler;
  GeminiTextGenerationStreamHandler : Handler;
  GeminiChatStreamHandler : Handler;
  OaiStreamHandler : Handler;
  GeminiTextGenerationHandler : Handler;
  GeminiChatHandler : Handler;
  OpenaiHandler : Handler;
  RelayModeGemini : Z
}.

(** [(a *Adaptor) DoResponse(c, resp, info)].  When no case of the switch
    applies, the named results keep their zero values: a nil [usage] and a
    nil [err]. *)
Definition DoResponse (h : Handlers) (a : Adaptor) (resp : option http.Response)
    (info : RelayInfo) : (channel.any_usage * option types.NewAPIError) * RelayInfo :=
  if IsStream info then
    if RequestMode a =? RequestModeClaude then ClaudeStreamHandler h resp info
    else if RequestMode a =? RequestModeGemini then
      if RelayMode info =? RelayModeGemini h
      then GeminiTextGenerationStreamHandler h resp info
      else GeminiChatStreamHandler h resp info
    else if RequestMode a =? RequestModeLlama then OaiStreamHandler h resp info
    else ((channel.nil_interface, None), info)
  else
    if RequestMode a =? RequestModeClaude then ClaudeHandler h resp info
    else if RequestMode a =? RequestModeGemini then
      if RelayMode info =? RelayModeGemini h
      then GeminiTextGenerationHandler h resp info
      else GeminiChatHandler h resp info
    else if RequestMode a =? RequestModeLlama then OpenaiHandler h resp info
    else ((channel.nil_interface, None), info).

End vertex.

(** ** Package [relay/helper]: pricing data *)
Module helper.

(** Modelled from the spec: [helper.PriceData], not among the sources:
    [{ should_pre_consume_quota, model_ratio, completion_ratio, group_ratio,
    cache_ratio }]. *)
Record PriceData := {
  ShouldPreConsumedQuota : Z;
  ModelRatio : GoFloat.float64;
  CompletionRatio : GoFloat.float64;
  GroupRatio : GoFloat.float64;
  CacheRatio : GoFloat.float64
}.

End helper.

(** ** [relay/claude_handler.go] *)
Module relay.

Import types relaycommon.

Definition set_MaxTokens (r : dto.ClaudeRequest) (n : Z) : dto.ClaudeRequest :=
  {| dto.Model := dto.Model r; dto.Messages := dto.Messages r; dto.MaxTokens := n;
     dto.Stream := dto.Stream r; dto.Thinking_ := dto.Thinking_ r;
     dto.TopP := dto.TopP r; dto.Temperature := dto.Temperature r |}.

Definition set_Model (r : dto.ClaudeRequest) (m : string) : dto.ClaudeRequest :=
  {| dto.Model := m; dto.Messages := dto.Messages r; dto.MaxTokens := dto.MaxTokens r;
     dto.Stream := dto.Stream r; dto.Thinking_ := dto.Thinking_ r;
     dto.TopP := dto.TopP r; dto.Temperature := dto.Temperature r |}.

(** The three writes of the branch [textRequest.Thinking == nil]:
    [Thinking], [TopP], [Temperature]. *)
Definition set_thinking (r : dto.ClaudeRequest) (budget : Z) : dto.ClaudeRequest :=
  {| dto.Model := dto.Model r; dto.Messages := dto.Messages r;
     dto.MaxTokens := dto.MaxTokens r; dto.Stream := dto.Stream r;
     dto.Thinking_ :=
       Some {| dto.Type_ := "enabled"; dto.BudgetTokens := Some budget |};
     dto.TopP := GoFloat.zero; dto.Temperature := Some GoFloat.one |}.

(** What the handler calls outside the three files, for one request.  A
    callee that receives [relayInfo] (or the request) by pointer returns it
    as it leaves it. *)
Record World (A P : Type) := {
  (** [relaycommon.GenRelayInfoClaude(c)] *)
  GenRelayInfoClaude : RelayInfo;
  (** the key-value bag of [c] when the handler starts *)
  context : gin.Context;
  (** [c.ShouldBindJSON(textRequest)] *)
  ShouldBindJSON : error + dto.ClaudeRequest;
  (** [helper.ModelMappedHelper(c, relayInfo, textRequest)] *)
  ModelMappedHelper :
    RelayInfo -> dto.ClaudeRequest -> option error * RelayInfo * dto.ClaudeRequest;
  (** [service.CountTokenClaudeRequest] on the request as it is at the call *)
  CountTokenClaudeRequest : dto.ClaudeRequest -> string -> Z * option error;
  (** [helper.ModelPriceHelper(c, relayInfo, promptTokens, maxTokens)] *)
  ModelPriceHelper :
    RelayInfo -> Z -> Z -> (error + helper.PriceData) * RelayInfo;
  (** [preConsumeQuota(c, quota, relayInfo)]:
      [(preConsumedQuota, userQuota, newAPIError)] *)
  preConsumeQuota : Z -> RelayInfo -> (Z * Z * option NewAPIError) * RelayInfo;
  (** [GetAdaptor(relayInfo.ApiType)], [None] for nil *)
  GetAdaptor : Z -> option A;
  (** [common.Marshal(convertedRequest)] *)
  Marshal : P -> error + string
}.

Arguments GenRelayInfoClaude {A P} _.
Arguments context {A P} _.
Arguments ShouldBindJSON {A P} _.
Arguments ModelMappedHelper {A P} _ _ _.
Arguments CountTokenClaudeRequest {A P} _ _ _.
Arguments ModelPriceHelper {A P} _ _ _ _.
Arguments preConsumeQuota {A P} _ _ _.
Arguments GetAdaptor {A P} _ _.
Arguments Marshal {A P} _ _.

(** The calls of the handler that the properties below speak about, with
    their arguments. *)
Inductive Event :=
| EvCountTokens (request : dto.ClaudeRequest) (model : string)
| EvModelPrice (promptTokens maxTokens : Z)
| EvPreConsumeQuota (quota : Z) (result : Z * Z * option NewAPIError)
| EvConvertRequest (request : dto.ClaudeRequest)
| EvDoRequest (requestBody : string)
| EvDoResponse (isStream : bool)
| EvReturnPreConsumedQuota (userQuota preConsumedQuota : Z)
| EvPostClaudeConsumeQuota (usage : dto.Usage) (preConsumedQuota userQuota : Z)
    (priceData : helper.PriceData).

(** The state of one run: the shared [relayInfo], the gin context, the
    calls made so far (latest first) and the value of [relayInfo.IsStream]
    after each step that received [relayInfo] by pointer or stored into it
    (latest first). *)
Record State := {
  info : RelayInfo;
  ctx : gin.Context;
  events : list Event;
  stream_history : list bool
}.

Definition put_info (st : State) (i : RelayInfo) : State :=
  {| info := i; ctx := ctx st; events := events st;
     stream_history := IsStream i :: stream_history st |}.

Definition put_ctx (st : State) (c : gin.Context) : State :=
  {| info := info st; ctx := c; events := events st;
     stream_history := stream_history st |}.

Definition emit (st : State) (e : Event) : State :=
  {| info := info st; ctx := ctx st; events := e :: events st;
     stream_history := stream_history st |}.

(** How the function body is left: by a [return] that has set the named
    result [newAPIError], or by a panic, with the value [newAPIError] holds
    at that moment. *)
Inductive Exit :=
| ExitReturn (newAPIError : option NewAPIError)
| ExitPanic (newAPIError : option NewAPIError).

Definition named_result (x : Exit) : option NewAPIError :=
  match x with ExitReturn e => e | ExitPanic e => e end.

(** What the caller of [ClaudeHelper] observes. *)
Inductive Outcome :=
| Returned (newAPIError : option NewAPIError)
| Panicked.

Definition outcome_of (x : Exit) : Outcome :=
  match x with ExitReturn e => Returned e | ExitPanic _ => Panicked end.

(** [getAndValidateClaudeRequest(c)], on the outcome of [ShouldBindJSON]. *)
Definition getAndValidateClaudeRequest (bound : error + dto.ClaudeRequest)
    : error + dto.ClaudeRequest :=
  match bound with
  | inl err => inl err
  | inr textRequest =>
      if (length (dto.Messages textRequest) =? 0)%nat then
        inl "field messages is required"
      else if String.eqb (dto.Model textRequest) EmptyString then
        inl "field model is required"
      else inr textRequest
  end.

(** Lines 56-58: [if textRequest.Stream { relayInfo.IsStream = true }]. *)
Definition stream_from_request (i : RelayInfo) (r : dto.ClaudeRequest) : RelayInfo :=
  if dto.Stream r then set_IsStream i true else i.

(** Line 158: [relayInfo.IsStream = relayInfo.IsStream ||
    strings.HasPrefix(httpResp.Header.Get("Content-Type"), "text/event-stream")]. *)
Definition promote_stream (i : RelayInfo) (httpResp : http.Response) : RelayInfo :=
  set_IsStream i
    (IsStream i || GoStrings.HasPrefix (http.ContentType httpResp) "text/event-stream").

(** Lines 101-103: the default for a zero [MaxTokens]. *)
Definition default_max_tokens `{Externals} (r : dto.ClaudeRequest) : dto.ClaudeRequest :=
  if dto.MaxTokens r =? 0 then
    set_MaxTokens r (uint_of_int (GetDefaultMaxTokens (dto.Model r)))
  else r.

(** Lines 105-125: the thinking adapter. *)
Definition thinking_adapter `{Externals} (i : RelayInfo) (r : dto.ClaudeRequest)
    : RelayInfo * dto.ClaudeRequest :=
  if ClaudeThinkingAdapterEnabled && GoStrings.HasSuffix (dto.Model r) "-thinking" then
    let r :=
      match dto.Thinking_ r with
      | None =>
          let r := if dto.MaxTokens r <? 1280 then set_MaxTokens r 1280 else r in
          set_thinking r
            (GoFloat.to_int
               (GoFloat.mul (GoFloat.of_uint (dto.MaxTokens r))
                  ThinkingAdapterBudgetTokensPercentage))
      | Some _ => r
      end in
    let r := set_Model r (GoStrings.TrimSuffix (dto.Model r) "-thinking") in
    (set_UpstreamModelName i (dto.Model r), r)
  else (i, r).

(** Lines 101-125: the request and the context handed to
    [ConvertClaudeRequest]. *)
Definition prepare_request `{Externals} (i : RelayInfo) (r : dto.ClaudeRequest)
    : RelayInfo * dto.ClaudeRequest :=
  thinking_adapter i (default_max_tokens r).

(** Lines 189-200, reached when [DoResponse] returned a nil error: the
    usage is logged, then handed to [service.PostClaudeConsumeQuota].
    The named result [newAPIError] is nil throughout. *)
Definition settle (st : State) (usage : channel.any_usage)
    (preConsumedQuota userQuota : Z) (priceData : helper.PriceData) : Exit * State :=
  match usage with
  | channel.usage_pointer (Some u) =>
      (ExitReturn None,
       emit st (EvPostClaudeConsumeQuota u preConsumedQuota userQuota priceData))
  | channel.usage_pointer None =>
      (* line 193: a field is read through the nil pointer *)
      (ExitPanic None, st)
  | channel.other_dynamic_type =>
      (* line 192: the type assertion fails *)
      (ExitPanic None, st)
  | channel.nil_interface =>
      (* line 196 logs "Usage:nil"; on line 199 the type assertion on the
         nil interface fails while the arguments of the call are evaluated *)
      (ExitPanic None, st)
  end.

(** The handler from the registration of the deferred refund (line 88) to
    the end of the body. *)
Definition ClaudeHelper_guarded {A P : Type} `{Externals} `{channel.Adaptor A P}
    (w : World A P) (st : State) (textRequest : dto.ClaudeRequest)
    (priceData : helper.PriceData) (preConsumedQuota userQuota : Z) : Exit * State :=
  match GetAdaptor w (ApiType (info st)) with
  | None =>
      (ExitReturn (Some (NewError
         ("invalid api type: " ++ GoStrconv.Itoa (ApiType (info st)))
         ErrorCodeInvalidApiType)), st)
  | Some adaptor =>
      let '(adaptor, i) := channel.Init adaptor (info st) in
      let st := put_info st i in
      let '(i, textRequest) := prepare_request (info st) textRequest in
      let st := put_info st i in
      let st := emit st (EvConvertRequest textRequest) in
      let '(converted, adaptor, c, i) :=
        channel.ConvertClaudeRequest adaptor (ctx st) (info st) textRequest in
      let st := put_ctx (put_info st i) c in
      match converted with
      | inl err => (ExitReturn (Some (NewError err ErrorCodeConvertRequestFailed)), st)
      | inr convertedRequest =>
          match Marshal w convertedRequest with
          | inl err =>
              (ExitReturn (Some (NewError err ErrorCodeConvertRequestFailed)), st)
          | inr jsonData =>
              let statusCodeMappingStr := gin.GetString (ctx st) "status_code_mapping" in
              let st := emit st (EvDoRequest jsonData) in
              let '(resp, adaptor, i) :=
                channel.DoRequest adaptor (ctx st) (info st) jsonData in
              let st := put_info st i in
              match resp with
              | inl err =>
                  (ExitReturn (Some (NewOpenAIError err ErrorCodeDoRequestFailed
                     http.StatusInternalServerError)), st)
              | inr resp =>
                  let st :=
                    match resp with
                    | Some httpResp => put_info st (promote_stream (info st) httpResp)
                    | None => st
                    end in
                  let bad :=
                    match resp with
                    | Some httpResp =>
                        if negb (http.StatusCode httpResp =? http.StatusOK)
                        then Some httpResp else None
                    | None => None
                    end in
                  match bad with
                  | Some httpResp =>
                      (ExitReturn (Some (service.ResetStatusCode
                         (service.RelayErrorHandler httpResp false)
                         statusCodeMappingStr)), st)
                  | None =>
                      let st := emit st (EvDoResponse (IsStream (info st))) in
                      let '(usage, newAPIError, adaptor, i) :=
                        channel.DoResponse adaptor (ctx st) resp (info st) in
                      let st := put_info st i in
                      match newAPIError with
                      | Some e =>
                          (ExitReturn (Some (service.ResetStatusCode e
                             statusCodeMappingStr)), st)
                      | None =>
                          settle st usage preConsumedQuota userQuota priceData
                      end
                  end
              end
          end
      end
  end.

(** The deferred closure of lines 88-92: it runs when the body is left,
    by [return] or by panic, and refunds when the named result is set. *)
Definition run_deferred (x : Exit) (st : State) (userQuota preConsumedQuota : Z) : State :=
  match named_result x with
  | Some _ => emit st (EvReturnPreConsumedQuota userQuota preConsumedQuota)
  | None => st
  end.

(** [ClaudeHelper(c)]: what the caller observes and the final state. *)
Definition ClaudeHelper {A P : Type} `{Externals} `{channel.Adaptor A P}
    (w : World A P) : Outcome * State :=
  let relayInfo := GenRelayInfoClaude w in
  let st := {| info := relayInfo; ctx := context w; events := [];
               stream_history := [IsStream relayInfo] |} in
  match getAndValidateClaudeRequest (ShouldBindJSON w) with
  | inl err => (Returned (Some (NewError err ErrorCodeInvalidRequest)), st)
  | inr textRequest =>
      let st := put_info st (stream_from_request (info st) textRequest) in
      let '(err, i, textRequest) := ModelMappedHelper w (info st) textRequest in
      let st := put_info st i in
      match err with
      | Some err => (Returned (Some (NewError err ErrorCodeChannelModelMappedError)), st)
      | None =>
          (* getClaudePromptTokens *)
          let st := emit st (EvCountTokens textRequest (UpstreamModelName (info st))) in
          let '(promptTokens, err) :=
            CountTokenClaudeRequest w textRequest (UpstreamModelName (info st)) in
          let st := put_info st (set_PromptTokens (info st) promptTokens) in
          match err with
          | Some err => (Returned (Some (NewError err ErrorCodeCountTokenFailed)), st)
          | None =>
              let maxTokens := int_of_uint (dto.MaxTokens textRequest) in
              let st := emit st (EvModelPrice promptTokens maxTokens) in
              let '(priceData, i) := ModelPriceHelper w (info st) promptTokens maxTokens in
              let st := put_info st i in
              match priceData with
              | inl err => (Returned (Some (NewError err ErrorCodeModelPriceError)), st)
              | inr priceData =>
                  let '(preConsumedQuota, userQuota, newAPIError, i) :=
                    preConsumeQuota w (helper.ShouldPreConsumedQuota priceData) (info st) in
                  let st := emit st
                    (EvPreConsumeQuota (helper.ShouldPreConsumedQuota priceData)
                       (preConsumedQuota, userQuota, newAPIError)) in
                  let st := put_info st i in
                  match newAPIError with
                  | Some e => (Returned (Some e), st)
                  | None =>
                      let '(x, st) :=
                        ClaudeHelper_guarded w st textRequest priceData
                          preConsumedQuota userQuota in
                      (outcome_of x, run_deferred x st userQuota preConsumedQuota)
                  end
              end
          end
      end
  end.

(** *** Reading a run *)

Definition is_refund (e : Event) : bool :=
  match e with EvReturnPreConsumedQuota _ _ => true | _ => false end.

Definition is_settlement (e : Event) : bool :=
  match e with EvPostClaudeConsumeQuota _ _ _ _ => true | _ => false end.

(** A call of [preConsumeQuota] that returned a nil error. *)
Definition is_reservation (e : Event) : bool :=
  match e with EvPreConsumeQuota _ (_, _, None) => true | _ => false end.

Definition is_count_tokens (e : Event) : bool :=
  match e with EvCountTokens _ _ => true | _ => false end.

Definition is_model_price (e : Event) : bool :=
  match e with EvModelPrice _ _ => true | _ => false end.

Definition is_convert_request (e : Event) : bool :=
  match e with EvConvertRequest _ => true | _ => false end.

Definition count (p : Event -> bool) (l : list Event) : nat :=
  List.length (List.filter p l).

(** [i'] does not have [IsStream] false where [i] has it true. *)
Definition never_lowers (i i' : RelayInfo) : Prop :=
  IsStream i = true -> IsStream i' = true.

(** A history (latest first) in which no value is false after a true one. *)
Fixpoint never_falls (h : list bool) : bool :=
  match h with
  | later :: ((earlier :: _) as rest) => implb earlier later && never_falls rest
  | _ => true
  end.

(** The history of a state is in order and its latest value is the
    current one. *)
Definition history_in_order (st : State) : Prop :=
  never_falls (stream_history st) = true
  /\ exists earlier, stream_history st = IsStream (info st) :: earlier.

(** The callees outside the three files that receive [relayInfo] by
    pointer never lower [IsStream]. *)
Definition collaborators_keep_stream {A P : Type} `{channel.Adaptor A P}
    (w : World A P) : Prop :=
  (forall i r, never_lowers i (snd (fst (ModelMappedHelper w i r))))
  /\ (forall i p m, never_lowers i (snd (ModelPriceHelper w i p m)))
  /\ (forall q i, never_lowers i (snd (preConsumeQuota w q i)))
  /\ (forall a i, never_lowers i (snd (channel.Init a i)))
  /\ (forall a c i r, never_lowers i (snd (channel.ConvertClaudeRequest a c i r)))
  /\ (forall a c i b, never_lowers i (snd (channel.DoRequest a c i b)))
  /\ (forall a c resp i, never_lowers i (snd (channel.DoResponse a c resp i))).

End relay.

(** ** A decoder for the JSON texts of the scenarios

    A reader of JSON objects whose members are strings, numbers, literals
    or objects, and the three decoders built on it.  It serves the
    concrete scenarios; it rejects arrays and [\u] escapes, which
    [encoding/json] accepts, and the theorems do not depend on it. *)
Module Json.

Local Unset Elimination Schemes.
Inductive value :=
| JString (s : string)
| JNumber (raw : string)
| JBool (b : bool)
| JNull
| JObject (members : list (string * value)).
Local Set Elimination Schemes.

Definition dq : ascii := ascii_of_nat 34.

Definition is_space (c : ascii) : bool :=
  Ascii.eqb c " " || Ascii.eqb c (ascii_of_nat 9)
  || Ascii.eqb c (ascii_of_nat 10) || Ascii.eqb c (ascii_of_nat 13).

Fixpoint skip_ws (s : string) : string :=
  match s with
  | String c s' => if is_space c then skip_ws s' else s
  | EmptyString => s
  end.

Definition unescape (e : ascii) : option ascii :=
  if Ascii.eqb e dq then Some dq
  else if Ascii.eqb e "\" then Some "\"%char
  else if Ascii.eqb e "/" then Some "/"%char
  else if Ascii.eqb e "n" then Some (ascii_of_nat 10)
  else if Ascii.eqb e "t" then Some (ascii_of_nat 9)
  else if Ascii.eqb e "r" then Some (ascii_of_nat 13)
  else if Ascii.eqb e "b" then Some (ascii_of_nat 8)
  else if Ascii.eqb e "f" then Some (ascii_of_nat 12)
  else None.

(** The text of a string literal after its opening quote, and what
    follows the closing quote. *)
Fixpoint parse_string_body (s : string) : option (string * string) :=
  match s with
  | EmptyString => None
  | String c s' =>
      if Ascii.eqb c dq then Some (EmptyString, s')
      else if Ascii.eqb c "\" then
        match s' with
        | String e s'' =>
            match unescape e, parse_string_body s'' with
            | Some ch, Some (t, r) => Some (String ch t, r)
            | _, _ => None
            end
        | EmptyString => None
        end
      else
        match parse_string_body s' with
        | Some (t, r) => Some (String c t, r)
        | None => None
        end
  end.

Definition is_number_char (c : ascii) : bool :=
  match GoStrconv.digit_of c with
  | Some _ => true
  | None =>
      Ascii.eqb c "-" || Ascii.eqb c "+" || Ascii.eqb c "."
      || Ascii.eqb c "e" || Ascii.eqb c "E"
  end.

Fixpoint span_number (s : string) : string * string :=
  match s with
  | String c s' =>
      if is_number_char c then
        let '(t, r) := span_number s' in (String c t, r)
      else (EmptyString, s)
  | EmptyString => (EmptyString, EmptyString)
  end.

Fixpoint parse_value (fuel : nat) (s : string) {struct fuel}
    : option (value * string) :=
  match fuel with
  | O => None
  | S fuel' =>
      match skip_ws s with
      | EmptyString => None
      | String c rest =>
          if Ascii.eqb c dq then
            match parse_string_body rest with
            | Some (t, r) => Some (JString t, r)
            | None => None
            end
          else if Ascii.eqb c "{" then
            match skip_ws rest with
            | String c' r =>
                if Ascii.eqb c' "}" then Some (JObject [], r)
                else
                  match parse_members fuel' rest with
                  | Some (ms, r') => Some (JObject ms, r')
                  | None => None
                  end
            | EmptyString => None
            end
          else if String.prefix "null" (String c rest) then
            Some (JNull, GoStrings.drop 4 (String c rest))
          else if String.prefix "true" (String c rest) then
            Some (JBool true, GoStrings.drop 4 (String c rest))
          else if String.prefix "false" (String c rest) then
            Some (JBool false, GoStrings.drop 5 (String c rest))
          else if is_number_char c then
            let '(t, r) := span_number (String c rest) in Some (JNumber t, r)
          else None
      end
  end
with parse_members (fuel : nat) (s : string) {struct fuel}
    : option (list (string * value) * string) :=
  match fuel with
  | O => None
  | S fuel' =>
      match skip_ws s with
      | String c rest =>
          if Ascii.eqb c dq then
            match parse_string_body rest with
            | Some (k, r) =>
                match skip_ws r with
                | String colon r2 =>
                    if Ascii.eqb colon ":" then
                      match parse_value fuel' r2 with
                      | Some (v, r3) =>
                          match skip_ws r3 with
                          | String sep r4 =>
                              if Ascii.eqb sep "," then
                                match parse_members fuel' r4 with
                                | Some (ms, r5) => Some ((k, v) :: ms, r5)
                                | None => None
                                end
                              else if Ascii.eqb sep "}" then Some ([(k, v)], r4)
                              else None
                          | EmptyString => None
                          end
                      | None => None
                      end
                    else None
                | EmptyString => None
                end
            | None => None
            end
          else None
      | EmptyString => None
      end
  end.

(** A whole text: one value, then white space only. *)
Definition parse (s : string) : option value :=
  match parse_value (S (String.length s)) s with
  | Some (v, r) => match skip_ws r with EmptyString => Some v | _ => None end
  | None => None
  end.

(** The member named [key], the last one when the name is repeated. *)
Fixpoint member (key : string) (ms : list (string * value)) : option value :=
  match ms with
  | [] => None
  | (k, v) :: ms' =>
      match member key ms' with
      | Some v' => Some v'
      | None => if String.eqb k key then Some v else None
      end
  end.

(** A member decoded into a Go [string]: absent and [null] leave the zero
    value, any other kind of value is a type error. *)
Definition string_member (key : string) (ms : list (string * value))
    : error + string :=
  match member key ms with
  | None | Some JNull => inr EmptyString
  | Some (JString s) => inr s
  | Some _ => inl ("json: cannot unmarshal into Go struct field " ++ key)
  end.

Fixpoint string_members (ms : list (string * value)) : error + gmap string string :=
  match ms with
  | [] => inr ∅
  | (k, v) :: ms' =>
      match v, string_members ms' with
      | _, inl e => inl e
      | JString s, inr m =>
          inr (match m !! k with Some _ => m | None => <[k := s]> m end)
      | JNull, inr m =>
          inr (match m !! k with Some _ => m | None => <[k := EmptyString]> m end)
      | _, inr _ => inl "json: cannot unmarshal into Go value of type string"
      end
  end.

Definition unmarshal_map (s : string) : error + gmap string string :=
  match parse s with
  | Some (JObject ms) => string_members ms
  | Some JNull => inr ∅
  | Some _ => inl "json: cannot unmarshal into Go value of type map[string]string"
  | None => inl "invalid character"
  end.

Definition unmarshal_credentials (s : string) : error + credentials.Credentials :=
  match parse s with
  | Some (JObject ms) =>
      match string_member "project_id" ms, string_member "private_key_id" ms,
            string_member "private_key" ms, string_member "client_email" ms,
            string_member "client_id" ms with
      | inr a, inr b, inr c, inr d, inr e =>
          inr {| credentials.ProjectID := a; credentials.PrivateKeyID := b;
                 credentials.PrivateKey := c; credentials.ClientEmail := d;
                 credentials.ClientID := e |}
      | inl err, _, _, _, _ | _, inl err, _, _, _ | _, _, inl err, _, _
      | _, _, _, inl err, _ | _, _, _, _, inl err => inl err
      end
  | Some JNull => inr credentials.empty
  | Some _ => inl "json: cannot unmarshal into Go value of type vertex.Credentials"
  | None => inl "invalid character"
  end.

Definition unmarshal_error (s : string) : error + dto.GeneralErrorResponse :=
  match parse s with
  | Some (JObject ms) =>
      let rest :=
        map (fun k => match string_member k ms with inr v => v | inl _ => EmptyString end)
          ["message"; "msg"; "err"; "error_msg"] in
      match member "error" ms with
      | Some (JObject es) =>
          match string_member "message" es, string_member "type" es,
                string_member "code" es with
          | inr m, inr t, inr c =>
              inr {| dto.Error := {| types.Message := m; types.Type_ := t; types.Code := c |};
                     dto.Rest := rest |}
          | inl err, _, _ | _, inl err, _ | _, _, inl err => inl err
          end
      | None | Some JNull =>
          inr {| dto.Error := {| types.Message := EmptyString; types.Type_ := EmptyString;
                                 types.Code := EmptyString |};
                 dto.Rest := rest |}
      | Some _ => inl "json: cannot unmarshal into Go struct field error"
      end
  | Some _ => inl "json: cannot unmarshal into Go value of type dto.GeneralErrorResponse"
  | None => inl "invalid character"
  end.

(** The first non-empty message of the envelope. *)
Definition first_message (e : dto.GeneralErrorResponse) : string :=
  match filter (fun m => negb (String.eqb m EmptyString))
          (types.Message (dto.Error e) :: dto.Rest e) with
  | m :: _ => m
  | [] => EmptyString
  end.

(** The text of a flat object, members in order: [{"k":"v",...}]. *)
Definition quoted (s : string) : string :=
  String dq s ++ String dq EmptyString.

Fixpoint render_members (ms : list (string * string)) : string :=
  match ms with
  | [] => EmptyString
  | [(k, v)] => quoted k ++ ":" ++ quoted v
  | (k, v) :: ms' => quoted k ++ ":" ++ quoted v ++ "," ++ render_members ms'
  end.

Definition render_object (ms : list (string * string)) : string :=
  "{" ++ render_members ms ++ "}".

End Json.

(** ** Concrete settings, adaptor and worlds for the scenarios *)
Module scenario.

Import relaycommon.

(** Modelled from the spec: [GetModelRegion], not among the sources; the
    channel's API version is either the region itself or an object that
    maps a model to its region, with a [default] member. *)
Definition model_region (other localModelName : string) : string :=
  match Json.unmarshal_map other with
  | inr m =>
      match m !! localModelName with
      | Some region => region
      | None => match m !! "default" with Some region => region | None => other end
      end
  | inl _ => other
  end.

(** Settings: both thinking adapters as given, the budget percentage and
    one default for every model. *)
Definition externals (geminiThinking claudeThinking : bool)
    (percentage : GoFloat.float64) (defaultMaxTokens : Z) : Externals :=
  {| json_Unmarshal_map := Json.unmarshal_map;
     json_Unmarshal_credentials := Json.unmarshal_credentials;
     common_Unmarshal_error := Json.unmarshal_error;
     ToMessage := Json.first_message;
     GetModelRegion := model_region;
     GeminiThinkingAdapterEnabled := geminiThinking;
     ClaudeThinkingAdapterEnabled := claudeThinking;
     ThinkingAdapterBudgetTokensPercentage := percentage;
     GetDefaultMaxTokens := fun _ => defaultMaxTokens |}.

(** The settings of the end-to-end scenarios of the specification:
    thinking adapters on, 80 percent, default 4096. *)
Definition default_externals : Externals := externals true true GoFloat.point8 4096.

(** What stands behind the Vertex adaptor: the HTTP exchange, by URL and
    body, and the response handlers. *)
Record Upstream := {
  send : string -> string -> error + option http.Response;
  handlers : vertex.Handlers
}.

(** Handlers that all report the same usage and error and leave [info]
    alone. *)
Definition uniform_handlers (usage : channel.any_usage)
    (err : option types.NewAPIError) : vertex.Handlers :=
  let h : vertex.Handler := fun _ info => ((usage, err), info) in
  {| vertex.ClaudeStreamHandler := h; vertex.ClaudeHandler := h;
     vertex.GeminiTextGenerationStreamHandler := h;
     vertex.GeminiChatStreamHandler := h; vertex.OaiStreamHandler := h;
     vertex.GeminiTextGenerationHandler := h; vertex.GeminiChatHandler := h;
     vertex.OpenaiHandler := h; vertex.RelayModeGemini := 9 |}.

(** Modelled from the spec: [channel.DoApiRequest], not among the sources:
    it "issues the HTTP call using URL from GetRequestURL". *)
Definition DoApiRequest `{Externals} (up : Upstream) (a : vertex.Adaptor)
    (info : RelayInfo) (requestBody : string)
    : (error + option http.Response) * vertex.Adaptor * RelayInfo :=
  let '(url, a, info) := vertex.GetRequestURL a info in
  match url with
  | inl err => (inl ("get request url failed: " ++ err), a, info)
  | inr url => (send up url requestBody, a, info)
  end.

(** The Vertex adaptor as a [channel.Adaptor]. *)
Definition vertex_adaptor `{Externals} (up : Upstream)
    : channel.Adaptor vertex.Adaptor (dto.ClaudeRequest * string) :=
  {| channel.Init := fun a info => (vertex.Init a info, info);
     channel.ConvertClaudeRequest := fun a c info request =>
       let '(payload, c) := vertex.ConvertClaudeRequest a c info request in
       (inr payload, a, c, info);
     channel.DoRequest := fun a c info body => DoApiRequest up a info body;
     channel.DoResponse := fun a c resp info =>
       let '(r, info) := vertex.DoResponse (handlers up) a resp info in (r, a, info) |}.

Definition base_info : RelayInfo :=
  {| UserId := 1; ChannelId := 7; ApiType := 0; RelayMode := 0;
     OriginModelName := "claude-3-5-sonnet-20241022";
     UpstreamModelName := "claude-3-5-sonnet-20241022";
     BaseUrl := EmptyString; ApiKey := Json.render_object [("project_id", "p1")];
     ApiVersion := "us-east5"; IsStream := false; PromptTokens := 0 |}.

Definition base_request : dto.ClaudeRequest :=
  {| dto.Model := "claude-3-5-sonnet-20241022"; dto.Messages := ["hi"];
     dto.MaxTokens := 0; dto.Stream := false; dto.Thinking_ := None;
     dto.TopP := GoFloat.zero; dto.Temperature := None |}.

Definition unit_price (quota : Z) : helper.PriceData :=
  {| helper.ShouldPreConsumedQuota := quota; helper.ModelRatio := GoFloat.one;
     helper.CompletionRatio := GoFloat.one; helper.GroupRatio := GoFloat.one;
     helper.CacheRatio := GoFloat.one |}.

(** A world in the shape of scenario 1: the counter returns 7, every ratio
    is 1, the balance is 1,000,000, the channel carries [mapping]; the
    collaborators leave [relayInfo] alone, except that the model mapping
    copies the upstream model into the request. *)
Definition world (request : dto.ClaudeRequest) (mapping : string)
    : relay.World vertex.Adaptor (dto.ClaudeRequest * string) :=
  {| relay.GenRelayInfoClaude := base_info;
     relay.context := {[ "status_code_mapping" := mapping ]};
     relay.ShouldBindJSON := inr request;
     relay.ModelMappedHelper := fun info r => (None, info, r);
     relay.CountTokenClaudeRequest := fun _ _ => (7, None);
     relay.ModelPriceHelper := fun info promptTokens maxTokens =>
       (inr (unit_price (promptTokens + maxTokens)), info);
     relay.preConsumeQuota := fun quota info => ((quota, 1000000, None), info);
     relay.GetAdaptor := fun _ =>
       Some {| vertex.RequestMode := 0; vertex.AccountCredentials := credentials.empty |};
     relay.Marshal := fun _ => inr "{}" |}.

Definition response (status : Z) (contentType body : string) : http.Response :=
  {| http.StatusCode := status; http.ContentType := contentType; http.Body := inr body |}.

Definition usage_7_3 : dto.Usage :=
  {| dto.PromptTokens := 7; dto.CompletionTokens := 3; dto.TotalTokens := 10 |}.

(** An upstream that answers 200 and whose handler reports [usage]. *)
Definition upstream_ok (contentType : string) (usage : channel.any_usage) : Upstream :=
  {| send := fun _ _ => inr (Some (response 200 contentType "{}"));
     handlers := uniform_handlers usage None |}.

(** An upstream that answers with an error status and body. *)
Definition upstream_status (status : Z) (body : string) : Upstream :=
  {| send := fun _ _ => inr (Some (response status "application/json" body));
     handlers := uniform_handlers channel.nil_interface None |}.

(** An upstream error with status 429 and the channel mappings of the
    examples. *)
Definition error_429 : types.NewAPIError :=
  types.NewOpenAIError "rate limited" types.ErrorCodeBadResponseStatusCode 429.

Definition mapping_429_503 : string := Json.render_object [("429", "503")].
Definition mapping_429_word : string := Json.render_object [("429", "abc")].
Definition mapping_429_huge : string :=
  Json.render_object [("429", "99999999999999999999")].
Definition mapping_429_overlong : string :=
  Json.render_object [("429", "99999999999999999999x")].

(** A 429 answer with the canonical envelope, one whose body is not JSON
    and one whose body cannot be read. *)
Definition envelope_body : string :=
  "{" ++ Json.quoted "error" ++ ":"
  ++ Json.render_object [("message", "slow down"); ("type", "rate_limit_error")]
  ++ "}".

Definition response_structured : http.Response :=
  response 429 "application/json" envelope_body.

Definition response_unparsable : http.Response :=
  response 502 "text/html" "<html>Bad Gateway</html>".

Definition response_unreadable : http.Response :=
  {| http.StatusCode := 503; http.ContentType := EmptyString;
     http.Body := inl "unexpected EOF" |}.

(** Service-account JSON without the [project_id] member. *)
Definition key_without_project : string :=
  Json.render_object [("private_key_id", "k1"); ("private_key", "secret");
                      ("client_email", "sa@example.iam.gserviceaccount.com")].

Definition info_without_project : RelayInfo :=
  {| UserId := 1; ChannelId := 7; ApiType := 0; RelayMode := 0;
     OriginModelName := "claude-3-5-sonnet-20241022";
     UpstreamModelName := "claude-3-5-sonnet-20241022";
     BaseUrl := EmptyString; ApiKey := key_without_project;
     ApiVersion := "us-east5"; IsStream := false; PromptTokens := 0 |}.

Definition claude_mode : vertex.Adaptor :=
  {| vertex.RequestMode := vertex.RequestModeClaude;
     vertex.AccountCredentials := credentials.empty |}.

Definition gemini_mode : vertex.Adaptor :=
  {| vertex.RequestMode := vertex.RequestModeGemini;
     vertex.AccountCredentials := credentials.empty |}.

Definition info_gemini_thinking : RelayInfo :=
  {| UserId := 1; ChannelId := 7; ApiType := 0; RelayMode := 0;
     OriginModelName := "gemini-2.5-flash-thinking";
     UpstreamModelName := "gemini-2.5-flash-thinking";
     BaseUrl := EmptyString; ApiKey := Json.render_object [("project_id", "p1")];
     ApiVersion := "global"; IsStream := true; PromptTokens := 0 |}.

(** Requests for a thinking model: no [max_tokens], 500 (scenario 6) and
    1281. *)
Definition thinking_request (maxTokens : Z) : dto.ClaudeRequest :=
  {| dto.Model := "claude-sonnet-4-20250514-thinking"; dto.Messages := ["hi"];
     dto.MaxTokens := maxTokens; dto.Stream := false; dto.Thinking_ := None;
     dto.TopP := GoFloat.point8; dto.Temperature := None |}.

(** The adaptors of the runs below: a 200 answer with usage 7+3, a 200
    answer as an event stream whose handler returns a nil usage, and a 429
    answer with the canonical envelope. *)
Definition adaptor_ok : channel.Adaptor vertex.Adaptor (dto.ClaudeRequest * string) :=
  vertex_adaptor (H := default_externals)
    (upstream_ok "application/json" (channel.usage_pointer (Some usage_7_3))).

Definition adaptor_nil_usage
    : channel.Adaptor vertex.Adaptor (dto.ClaudeRequest * string) :=
  vertex_adaptor (H := default_externals)
    (upstream_ok "text/event-stream" channel.nil_interface).

Definition adaptor_429 : channel.Adaptor vertex.Adaptor (dto.ClaudeRequest * string) :=
  vertex_adaptor (H := default_externals) (upstream_status 429 envelope_body).

(** The three runs on scenario 1's request. *)
Definition run_ok : relay.Outcome * relay.State :=
  relay.ClaudeHelper (H := default_externals) (H0 := adaptor_ok)
    (world base_request EmptyString).

Definition run_nil_usage : relay.Outcome * relay.State :=
  relay.ClaudeHelper (H := default_externals) (H0 := adaptor_nil_usage)
    (world base_request EmptyString).

Definition run_429 : relay.Outcome * relay.State :=
  relay.ClaudeHelper (H := default_externals) (H0 := adaptor_429)
    (world base_request mapping_429_503).

End scenario.

(** ** The rest of [service/error.go]: the older entry point and the
    error wrappers *)
Module service_wrappers.

Import types.

(** [RelayErrorHandlerLegacy(resp, showBodyWhenFail)], lines 137-167: the
    entry point without context. *)
Definition RelayErrorHandlerLegacy `{Externals} (resp : http.Response)
    (showBodyWhenFail : bool) : NewAPIError :=
  let newApiErr :=
    {| Err := None; RelayError := None; ErrorType_ := ErrorTypeOpenAIError;
       StatusCode := http.StatusCode resp; errorCode := None |} in
  match http.Body resp with
  | inl _ => newApiErr
  | inr responseBody =>
      match common_Unmarshal_error responseBody with
      | inl _ =>
          if showBodyWhenFail then
            set_Err newApiErr
              ("bad response status code " ++ GoStrconv.Itoa (http.StatusCode resp)
               ++ ", body: " ++ responseBody)
          else
            set_Err newApiErr
              ("bad response status code " ++ GoStrconv.Itoa (http.StatusCode resp))
      | inr errResponse =>
          if negb (String.eqb (Message (dto.Error errResponse)) EmptyString) then
            WithOpenAIError (dto.Error errResponse) (http.StatusCode resp)
          else
            set_ErrorType
              (NewErrorWithStatusCode (ToMessage errResponse)
                 ErrorCodeBadResponseStatusCode (http.StatusCode resp))
              ErrorTypeOpenAIError
      end
  end.

(** Go's [strings.Map(unicode.ToLower, s)], which [strings.ToLower] falls
    back to on a string with a byte outside ASCII; it needs the Unicode
    tables and is taken as given. *)
Class GoUnicode := {
  unicode_ToLower_map : string -> string
}.

Definition is_upper (c : ascii) : bool :=
  (65 <=? nat_of_ascii c)%nat && (nat_of_ascii c <=? 90)%nat.

Definition lower_byte (c : ascii) : ascii :=
  if is_upper c then ascii_of_nat (nat_of_ascii c + 32) else c.

Fixpoint all_ascii (s : string) : bool :=
  match s with
  | EmptyString => true
  | String c s' => (nat_of_ascii c <? 128)%nat && all_ascii s'
  end.

Fixpoint has_upper (s : string) : bool :=
  match s with
  | EmptyString => false
  | String c s' => is_upper c || has_upper s'
  end.

Fixpoint lower_bytes (s : string) : string :=
  match s with
  | EmptyString => EmptyString
  | String c s' => String (lower_byte c) (lower_bytes s')
  end.

(** [strings.ToLower(s)]: an ASCII string without upper-case letter is
    returned as it is, another ASCII string has its letters lowered byte
    by byte, any other string goes through the Unicode mapping. *)
Definition ToLower `{GoUnicode} (s : string) : string :=
  if all_ascii s then
    if has_upper s then lower_bytes s else s
  else unicode_ToLower_map s.

(** The message that replaces a transport error ("the request to the
    upstream address failed"), as the bytes of the source. *)
Definition upstream_failed : string := "请求上游地址失败".

(** Modelled from the spec: [dto.ClaudeError] and
    [dto.ClaudeErrorWithStatusCode], declared outside the three files, with
    the members the struct literals of the source set. *)
Record ClaudeError := {
  ce_Message : string;
  ce_Type : string
}.

Record ClaudeErrorWithStatusCode := {
  cw_Error : ClaudeError;
  cw_StatusCode : Z;
  cw_LocalError : bool
}.

(** Modelled from the spec: [dto.TaskError], declared outside the three
    files, with the members the struct literal of the source sets; [Error]
    holds the Go error that was wrapped. *)
Record TaskError := {
  te_Code : string;
  te_Message : string;
  te_StatusCode : Z;
  te_LocalError : bool;
  te_Error : error
}.

(** The test both wrappers make on the lowered text. *)
Definition mentions_transport (lowerText : string) : bool :=
  GoStrings.Contains lowerText "post" || GoStrings.Contains lowerText "dial"
  || GoStrings.Contains lowerText "http".

(** [ClaudeErrorWrapper(err, code, statusCode)], lines 59-76.  The system
    log is not modelled. *)
Definition ClaudeErrorWrapper `{GoUnicode} (err : error) (code : string)
    (statusCode : Z) : ClaudeErrorWithStatusCode :=
  let text := err in
  let lowerText := ToLower text in
  let text :=
    if negb (GoStrings.HasPrefix lowerText "get file base64 from url") then
      if mentions_transport lowerText then upstream_failed else text
    else text in
  {| cw_Error := {| ce_Message := text; ce_Type := "new_api_error" |};
     cw_StatusCode := statusCode; cw_LocalError := false |}.

(** [ClaudeErrorWrapperLocal(err, code, statusCode)], lines 78-82. *)
Definition ClaudeErrorWrapperLocal `{GoUnicode} (err : error) (code : string)
    (statusCode : Z) : ClaudeErrorWithStatusCode :=
  let claudeErr := ClaudeErrorWrapper err code statusCode in
  {| cw_Error := cw_Error claudeErr; cw_StatusCode := cw_StatusCode claudeErr;
     cw_LocalError := true |}.

(** [TaskErrorWrapper(err, code, statusCode)], lines 194-210. *)
Definition TaskErrorWrapper `{GoUnicode} (err : error) (code : string)
    (statusCode : Z) : TaskError :=
  let text := err in
  let lowerText := ToLower text in
  let text := if mentions_transport lowerText then upstream_failed else text in
  {| te_Code := code; te_Message := text; te_StatusCode := statusCode;
     te_LocalError := false; te_Error := err |}.

(** [TaskErrorWrapperLocal(err, code, statusCode)], lines 188-192. *)
Definition TaskErrorWrapperLocal `{GoUnicode} (err : error) (code : string)
    (statusCode : Z) : TaskError :=
  let openaiErr := TaskErrorWrapper err code statusCode in
  {| te_Code := te_Code openaiErr; te_Message := te_Message openaiErr;
     te_StatusCode := te_StatusCode openaiErr; te_LocalError := true;
     te_Error := te_Error openaiErr |}.

(** A Unicode mapping for the examples: the identity, which is what
    [unicode.ToLower] is on text without cased letters. *)
Definition caseless_unicode : GoUnicode := {| unicode_ToLower_map := fun s => s |}.

End service_wrappers.

(** ** The rest of [relay/channel/vertex/adaptor.go] *)
Module vertex_methods.

(** One [for i, s := range models] loop of [GetModelList], from index
    [i] for [n] rounds: the element at [i] is appended to [modelList] and
    stored back at [i]. *)
Fixpoint copy_loop (n i : nat) (models modelList : list string)
    : list string * list string :=
  match n with
  | O => (modelList, models)
  | S n' =>
      match models !! i with
      | Some s => copy_loop n' (S i) (<[i := s]> models) (modelList ++ [s])
      | None => (modelList, models)
      end
  end.

(** [(a *Adaptor) GetModelList()]: the result and the three package-level
    lists ([ModelList], [claude.ModelList], [gemini.ModelList]) after the
    call.  The lists are declared outside the three files. *)
Definition GetModelList (ModelList claudeModelList geminiModelList : list string)
    : list string * (list string * list string * list string) :=
  let '(modelList, ModelList) :=
    copy_loop (length ModelList) 0 ModelList [] in
  let '(modelList, claudeModelList) :=
    copy_loop (length claudeModelList) 0 claudeModelList modelList in
  let '(modelList, geminiModelList) :=
    copy_loop (length geminiModelList) 0 geminiModelList modelList in
  (modelList, (ModelList, claudeModelList, geminiModelList)).

(** The model name [GetRequestURL] puts in a Claude URL. *)
Definition claude_url_model (info : relaycommon.RelayInfo) : string :=
  match vertex.lookup_model vertex.claudeModelMap (relaycommon.UpstreamModelName info) with
  | Some v => v
  | None => relaycommon.UpstreamModelName info
  end.

(** The last byte of a string. *)
Fixpoint last_byte (s : string) : option ascii :=
  match s with
  | EmptyString => None
  | String c EmptyString => Some c
  | String _ s' => last_byte s'
  end.

End vertex_methods.

(** ** Reading the order of the calls of a run *)
Module relay_order.

Import relay.

(** The place of a call in the pipeline: count, price, reserve, convert,
    request, response, and the terminal ledger action. *)
Definition stage (e : Event) : nat :=
  match e with
  | EvCountTokens _ _ => 0
  | EvModelPrice _ _ => 1
  | EvPreConsumeQuota _ _ => 2
  | EvConvertRequest _ => 3
  | EvDoRequest _ => 4
  | EvDoResponse _ => 5
  | EvReturnPreConsumedQuota _ _ => 6
  | EvPostClaudeConsumeQuota _ _ _ _ => 6
  end%nat.

(** The stages of a run, earliest first. *)
Definition stages (st : State) : list nat := List.map stage (List.rev (events st)).

Definition is_do_request (e : Event) : bool :=
  match e with EvDoRequest _ => true | _ => false end.

Definition is_do_response (e : Event) : bool :=
  match e with EvDoResponse _ => true | _ => false end.

(** Whenever the adaptor's [DoRequest] returns without error, it returns
    a response that satisfies [ok]; it never returns a nil response. *)
Definition responses_satisfy {A P : Type} `{channel.Adaptor A P}
    (ok : http.Response -> Prop) : Prop :=
  forall a c i b,
    match fst (fst (channel.DoRequest a c i b)) with
    | inr (Some resp) => ok resp
    | inr None => False
    | inl _ => True
    end.

End relay_order.

(** ** Decimal digits written in front of a string *)
Module decimal.

(** [s] is [acc] with the [S m] decimal digits of [n] in front, the first
    of them a digit byte, without a superfluous leading zero; read by
    either loop of [Atoi], the digits add [n] to the value read so far. *)
Definition writes (s acc : string) (n : Z) (m : nat) : Prop :=
  String.length s = (S m + String.length acc)%nat
  /\ n < 10 ^ Z.of_nat (S m)
  /\ (m = O \/ 10 ^ Z.of_nat m <= n)
  /\ (forall k, GoStrconv.atoi_fast_loop s k
                = GoStrconv.atoi_fast_loop acc (k * 10 ^ Z.of_nat (S m) + n))
  /\ (forall k, 0 <= k -> k * 10 ^ Z.of_nat (S m) + n <= GoStrconv.MaxUint64 ->
                GoStrconv.parseUint_loop s k
                = GoStrconv.parseUint_loop acc (k * 10 ^ Z.of_nat (S m) + n))
  /\ (exists c rest d, s = String c rest /\ GoStrconv.digit_of c = Some d).

End decimal.

(** ** Further inputs for the examples *)
Module examples.

Import relaycommon.

(** Scenario 1's request, asking for a stream. *)
Definition stream_request : dto.ClaudeRequest :=
  {| dto.Model := "claude-3-5-sonnet-20241022"; dto.Messages := ["hi"];
     dto.MaxTokens := 0; dto.Stream := true; dto.Thinking_ := None;
     dto.TopP := GoFloat.zero; dto.Temperature := None |}.

Definition run_stream : relay.Outcome * relay.State :=
  relay.ClaudeHelper (H := scenario.default_externals) (H0 := scenario.adaptor_ok)
    (scenario.world stream_request EmptyString).

(** A request for a thinking model that brings its own thinking block, a
    budget of 2048 out of 500 [max_tokens]. *)
Definition client_thinking : dto.Thinking :=
  {| dto.Type_ := "enabled"; dto.BudgetTokens := Some 2048 |}.

Definition thinking_request_with_block : dto.ClaudeRequest :=
  {| dto.Model := "claude-sonnet-4-20250514-thinking"; dto.Messages := ["hi"];
     dto.MaxTokens := 500; dto.Stream := false; dto.Thinking_ := Some client_thinking;
     dto.TopP := GoFloat.point8; dto.Temperature := None |}.

(** A Gemini model name with two suffixes. *)
Definition info_gemini_two_suffixes : RelayInfo :=
  {| UserId := 1; ChannelId := 7; ApiType := 0; RelayMode := 0;
     OriginModelName := "gemini-2.5-flash-nothinking-thinking";
     UpstreamModelName := "gemini-2.5-flash-nothinking-thinking";
     BaseUrl := EmptyString; ApiKey := Json.render_object [("project_id", "p1")];
     ApiVersion := "global"; IsStream := false; PromptTokens := 0 |}.

End examples.

(** * Part II: properties *)

(** ** [strconv.Atoi]: the value that comes with an error *)

Example Itoa_429 : GoStrconv.Itoa 429 = "429".
Proof. reflexivity. Qed.

Example Itoa_negative : GoStrconv.Itoa (-17) = "-17".
Proof. reflexivity. Qed.

Example Atoi_503 : GoStrconv.Atoi "503" = (503, None).
Proof. reflexivity. Qed.

Example Atoi_word : GoStrconv.Atoi "abc" = (0, Some GoStrconv.ErrSyntax).
Proof. reflexivity. Qed.

Example Atoi_signed : GoStrconv.Atoi "-404" = (-404, None).
Proof. reflexivity. Qed.

Example Atoi_out_of_range :
  GoStrconv.Atoi "99999999999999999999"
  = (GoStrconv.MaxInt64, Some GoStrconv.ErrRange).
Proof. vm_compute. reflexivity. Qed.

Example Atoi_out_of_range_negative :
  GoStrconv.Atoi "-99999999999999999999"
  = (GoStrconv.MinInt64, Some GoStrconv.ErrRange).
Proof. vm_compute. reflexivity. Qed.

Lemma parseUint_loop_error (s : string) (n : Z) :
  (snd (GoStrconv.parseUint_loop s n) = Some GoStrconv.ErrSyntax ->
   fst (GoStrconv.parseUint_loop s n) = 0)
  /\ (snd (GoStrconv.parseUint_loop s n) = Some GoStrconv.ErrRange ->
      fst (GoStrconv.parseUint_loop s n) = GoStrconv.MaxUint64).
Proof.
  revert n. induction s as [|c s IH]; intros n; simpl.
  - split; discriminate.
  - destruct (GoStrconv.digit_of c) as [d|]; simpl.
    + destruct (GoStrconv.cutoff10 <=? n); simpl.
      * split; [discriminate | reflexivity].
      * destruct (GoStrconv.MaxUint64 <? n * 10 + d); simpl.
        -- split; [discriminate | reflexivity].
        -- apply IH.
    + split; [reflexivity | discriminate].
Qed.

Lemma ParseUint10_error (s : string) :
  (snd (GoStrconv.ParseUint10 s) = Some GoStrconv.ErrSyntax ->
   fst (GoStrconv.ParseUint10 s) = 0)
  /\ (snd (GoStrconv.ParseUint10 s) = Some GoStrconv.ErrRange ->
      fst (GoStrconv.ParseUint10 s) = GoStrconv.MaxUint64).
Proof.
  destruct s as [|c s].
  - simpl. split; [reflexivity | discriminate].
  - apply (parseUint_loop_error (String c s) 0).
Qed.

Lemma ParseInt10_error (s : string) :
  (snd (GoStrconv.ParseInt10 s) = Some GoStrconv.ErrSyntax ->
   fst (GoStrconv.ParseInt10 s) = 0)
  /\ (snd (GoStrconv.ParseInt10 s) = Some GoStrconv.ErrRange ->
      fst (GoStrconv.ParseInt10 s) = GoStrconv.MaxInt64
      \/ fst (GoStrconv.ParseInt10 s) = GoStrconv.MinInt64).
Proof.
  unfold GoStrconv.ParseInt10.
  destruct s as [|c0 rest].
  - simpl. split; [reflexivity | discriminate].
  - cbv zeta.
    destruct (GoStrconv.ParseUint10 _) as [un [[|]|]].
    + simpl. split; [reflexivity | discriminate].
    + destruct (negb (Ascii.eqb c0 "-") && _); simpl.
      * split; [discriminate | intros _; left; reflexivity].
      * destruct (Ascii.eqb c0 "-" && _); simpl.
        -- split; [discriminate | intros _; right; reflexivity].
        -- split; discriminate.
    + destruct (negb (Ascii.eqb c0 "-") && _); simpl.
      * split; [discriminate | intros _; left; reflexivity].
      * destruct (Ascii.eqb c0 "-" && _); simpl.
        -- split; [discriminate | intros _; right; reflexivity].
        -- split; discriminate.
Qed.

(** On a syntax error [Atoi] returns 0; on a range error it returns the
    bound of [int] on the side of the sign. *)
Lemma Atoi_error (s : string) :
  (snd (GoStrconv.Atoi s) = Some GoStrconv.ErrSyntax -> fst (GoStrconv.Atoi s) = 0)
  /\ (snd (GoStrconv.Atoi s) = Some GoStrconv.ErrRange ->
      fst (GoStrconv.Atoi s) = GoStrconv.MaxInt64
      \/ fst (GoStrconv.Atoi s) = GoStrconv.MinInt64).
Proof.
  unfold GoStrconv.Atoi. cbv zeta.
  destruct ((0 <? String.length s)%nat && (String.length s <? 19)%nat).
  - destruct s as [|c0 rest].
    + simpl. split; [reflexivity | discriminate].
    + destruct ((Ascii.eqb c0 "-" || Ascii.eqb c0 "+") && _).
      * simpl. split; [reflexivity | discriminate].
      * destruct (GoStrconv.atoi_fast_loop _ 0); simpl.
        -- split; discriminate.
        -- split; [reflexivity | discriminate].
  - apply ParseInt10_error.
Qed.

(** A string of fewer than 19 bytes is never out of range: when [Atoi]
    rejects it, the error is a syntax error and the value is 0. *)
Lemma Atoi_short_error (s : string) :
  (String.length s < 19)%nat ->
  snd (GoStrconv.Atoi s) <> None ->
  GoStrconv.Atoi s = (0, Some GoStrconv.ErrSyntax).
Proof.
  intros Hlen Herr. unfold GoStrconv.Atoi in *. cbv zeta in *.
  destruct s as [|c0 rest].
  - reflexivity.
  - replace ((0 <? String.length (String c0 rest))%nat
             && (String.length (String c0 rest) <? 19)%nat) with true in *.
    + destruct ((Ascii.eqb c0 "-" || Ascii.eqb c0 "+") && _); [reflexivity|].
      destruct (GoStrconv.atoi_fast_loop _ 0); [|reflexivity].
      simpl in Herr. congruence.
    + symmetry. apply andb_true_iff. split.
      * reflexivity.
      * apply Nat.ltb_lt. exact Hlen.
Qed.

(** ** [ResetStatusCode] *)
Section ResetStatusCode_properties.

Context {E : Externals}.

Lemma ResetStatusCode_no_entry (err : types.NewAPIError) (s : string) :
  (forall m, json_Unmarshal_map s = inr m ->
             m !! GoStrconv.Itoa (types.StatusCode err) = None) ->
  service.ResetStatusCode err s = err.
Proof.
  intros Hnone. unfold service.ResetStatusCode.
  destruct (String.eqb s EmptyString || String.eqb s "{}"); [reflexivity|].
  destruct (json_Unmarshal_map s) as [e|m] eqn:Hm; [reflexivity|].
  destruct (types.StatusCode err =? http.StatusOK); [reflexivity|].
  rewrite (Hnone m eq_refl). reflexivity.
Qed.

Lemma ResetStatusCode_200 (err : types.NewAPIError) (s : string) :
  types.StatusCode err = 200 -> service.ResetStatusCode err s = err.
Proof.
  intros H200. unfold service.ResetStatusCode.
  destruct (String.eqb s EmptyString || String.eqb s "{}"); [reflexivity|].
  destruct (json_Unmarshal_map s) as [e|m]; [reflexivity|].
  rewrite H200. reflexivity.
Qed.

(** The remap writes the status code and nothing else. *)
Lemma ResetStatusCode_frame (err : types.NewAPIError) (s : string) :
  service.ResetStatusCode err s
  = types.set_StatusCode err (types.StatusCode (service.ResetStatusCode err s)).
Proof.
  unfold service.ResetStatusCode.
  destruct (String.eqb s EmptyString || String.eqb s "{}");
    [destruct err; reflexivity|].
  destruct (json_Unmarshal_map s) as [e|m]; [destruct err; reflexivity|].
  destruct (types.StatusCode err =? http.StatusOK); [destruct err; reflexivity|].
  destruct (m !! GoStrconv.Itoa (types.StatusCode err));
    destruct err; reflexivity.
Qed.

(** C6.  The status-code remap leaves an error whose status code is 200
    untouched, for every mapping text; and remapping an already remapped
    error changes nothing whenever the status code the first remap left has
    no entry in the mapping. *)
Theorem ResetStatusCode_idempotent (err : types.NewAPIError) (s : string) :
  (types.StatusCode err = 200 -> service.ResetStatusCode err s = err)
  /\ ((forall m, json_Unmarshal_map s = inr m ->
         m !! GoStrconv.Itoa (types.StatusCode (service.ResetStatusCode err s)) = None) ->
      service.ResetStatusCode (service.ResetStatusCode err s) s
      = service.ResetStatusCode err s).
Proof.
  split.
  - apply ResetStatusCode_200.
  - intros Hnone. apply ResetStatusCode_no_entry. exact Hnone.
Qed.

(** C10, as amended.  When the mapping sends the current (non-200) status
    code to a string that [Atoi] rejects, the status code becomes the value
    [Atoi] returns with its error: 0 on a syntax error, which is the only
    error a string of fewer than 19 bytes can give, and the bound of [int]
    on a range error. *)
Theorem ResetStatusCode_rejected_target (err : types.NewAPIError) (s : string)
    (m : gmap string string) (v : string) :
  types.StatusCode err <> 200 ->
  s <> EmptyString -> s <> "{}" ->
  json_Unmarshal_map s = inr m ->
  m !! GoStrconv.Itoa (types.StatusCode err) = Some v ->
  (snd (GoStrconv.Atoi v) = Some GoStrconv.ErrSyntax ->
   types.StatusCode (service.ResetStatusCode err s) = 0)
  /\ ((String.length v < 19)%nat -> snd (GoStrconv.Atoi v) <> None ->
      types.StatusCode (service.ResetStatusCode err s) = 0)
  /\ (snd (GoStrconv.Atoi v) = Some GoStrconv.ErrRange ->
      types.StatusCode (service.ResetStatusCode err s) = GoStrconv.MaxInt64
      \/ types.StatusCode (service.ResetStatusCode err s) = GoStrconv.MinInt64).
Proof.
  intros H200 Hs1 Hs2 Hm Hv.
  assert (Hreset : service.ResetStatusCode err s
                   = types.set_StatusCode err (fst (GoStrconv.Atoi v))).
  { unfold service.ResetStatusCode.
    apply String.eqb_neq in Hs1. apply String.eqb_neq in Hs2.
    rewrite Hs1, Hs2. simpl. rewrite Hm.
    destruct (Z.eqb_spec (types.StatusCode err) http.StatusOK) as [Heq|_].
    - contradiction.
    - rewrite Hv. reflexivity. }
  rewrite Hreset. simpl.
  split; [|split].
  - apply (proj1 (Atoi_error v)).
  - intros Hlen Herr. rewrite (Atoi_short_error v Hlen Herr). reflexivity.
  - apply (proj2 (Atoi_error v)).
Qed.

End ResetStatusCode_properties.

(** Scenario 3: with the mapping [{"429":"503"}] an upstream 429 becomes
    503. *)
Example ResetStatusCode_429_503 :
  types.StatusCode
    (service.ResetStatusCode (H := scenario.default_externals)
       scenario.error_429 scenario.mapping_429_503) = 503.
Proof. vm_compute. reflexivity. Qed.

Lemma ResetStatusCode_idempotent_witness :
  service.ResetStatusCode (H := scenario.default_externals)
    (service.ResetStatusCode (H := scenario.default_externals)
       scenario.error_429 scenario.mapping_429_503)
    scenario.mapping_429_503
  = service.ResetStatusCode (H := scenario.default_externals)
      scenario.error_429 scenario.mapping_429_503.
Proof.
  apply (proj2 (@ResetStatusCode_idempotent scenario.default_externals
                  scenario.error_429 scenario.mapping_429_503)).
  intros m Hm. vm_compute in Hm. injection Hm as <-. vm_compute. reflexivity.
Defined.

Lemma ResetStatusCode_rejected_target_witness :
  types.StatusCode scenario.error_429 <> 200
  /\ types.StatusCode
       (service.ResetStatusCode (H := scenario.default_externals)
          scenario.error_429 scenario.mapping_429_word) = 0.
Proof.
  split; [vm_compute; discriminate|].
  apply (proj1 (@ResetStatusCode_rejected_target scenario.default_externals
                  scenario.error_429 scenario.mapping_429_word
                  {[ "429" := "abc" ]} "abc"
                  ltac:(vm_compute; discriminate)
                  ltac:(vm_compute; discriminate)
                  ltac:(vm_compute; discriminate)
                  ltac:(vm_compute; reflexivity)
                  ltac:(vm_compute; reflexivity))).
  vm_compute. reflexivity.
Defined.

(** C10 as stated fails.  The mapping [{"429":"99999999999999999999"}]
    sends 429 to a string that [Atoi] rejects as out of range, and the
    status code becomes the greatest [int], not 0.  The same happens with
    ["99999999999999999999x"], which is no numeral at all: the overflow is
    met before the letter. *)
Lemma ResetStatusCode_rejected_target_not_zero :
  types.StatusCode scenario.error_429 <> 200
  /\ (match json_Unmarshal_map (Externals := scenario.default_externals)
              scenario.mapping_429_huge with
      | inr m => m !! GoStrconv.Itoa (types.StatusCode scenario.error_429)
      | inl _ => None
      end = Some "99999999999999999999"
      /\ GoStrconv.Atoi "99999999999999999999"
         = (9223372036854775807, Some GoStrconv.ErrRange)
      /\ types.StatusCode
           (service.ResetStatusCode (H := scenario.default_externals)
              scenario.error_429 scenario.mapping_429_huge) = 9223372036854775807)
  /\ (match json_Unmarshal_map (Externals := scenario.default_externals)
              scenario.mapping_429_overlong with
      | inr m => m !! GoStrconv.Itoa (types.StatusCode scenario.error_429)
      | inl _ => None
      end = Some "99999999999999999999x"
      /\ GoStrconv.Atoi "99999999999999999999x"
         = (9223372036854775807, Some GoStrconv.ErrRange)
      /\ types.StatusCode
           (service.ResetStatusCode (H := scenario.default_externals)
              scenario.error_429 scenario.mapping_429_overlong) = 9223372036854775807).
Proof.
  repeat split; vm_compute; try reflexivity; discriminate.
Qed.

(** ** [RelayErrorHandler] *)
Section RelayErrorHandler_properties.

Context {E : Externals}.

(** C7.  The error [RelayErrorHandler] returns carries the status code of
    the upstream response in every branch.  A body that parses to the
    envelope with a non-empty message gives the structured error built from
    that envelope; a body that cannot be read gives the bare error with the
    upstream status code; a body that cannot be parsed gives an error
    without envelope, with the upstream status code. *)
Theorem RelayErrorHandler_status_code (resp : http.Response) (showBodyWhenFail : bool) :
  types.StatusCode (service.RelayErrorHandler resp showBodyWhenFail)
  = http.StatusCode resp
  /\ (forall body env,
        http.Body resp = inr body ->
        common_Unmarshal_error body = inr env ->
        types.Message (dto.Error env) <> EmptyString ->
        service.RelayErrorHandler resp showBodyWhenFail
        = types.WithOpenAIError (dto.Error env) (http.StatusCode resp))
  /\ (forall e,
        http.Body resp = inl e ->
        service.RelayErrorHandler resp showBodyWhenFail
        = {| types.Err := None; types.RelayError := None;
             types.ErrorType_ := types.ErrorTypeOpenAIError;
             types.StatusCode := http.StatusCode resp;
             types.errorCode := None |})
  /\ (forall body e,
        http.Body resp = inr body ->
        common_Unmarshal_error body = inl e ->
        service.RelayErrorHandler resp showBodyWhenFail
        = {| types.Err :=
               Some (if showBodyWhenFail
                     then "bad response status code "
                          ++ GoStrconv.Itoa (http.StatusCode resp)
                          ++ ", body: " ++ body
                     else "bad response status code "
                          ++ GoStrconv.Itoa (http.StatusCode resp));
             types.RelayError := None;
             types.ErrorType_ := types.ErrorTypeOpenAIError;
             types.StatusCode := http.StatusCode resp;
             types.errorCode := None |}).
Proof.
  unfold service.RelayErrorHandler.
  repeat split.
  - destruct (http.Body resp) as [e|body]; [reflexivity|].
    destruct (common_Unmarshal_error body) as [e|env].
    + destruct showBodyWhenFail; reflexivity.
    + destruct (negb (String.eqb _ _)); reflexivity.
  - intros body env Hbody Henv Hmsg. rewrite Hbody, Henv.
    apply String.eqb_neq in Hmsg. rewrite Hmsg. reflexivity.
  - intros e Hbody. rewrite Hbody. reflexivity.
  - intros body e Hbody Herr. rewrite Hbody, Herr.
    destruct showBodyWhenFail; reflexivity.
Qed.

End RelayErrorHandler_properties.

Lemma RelayErrorHandler_status_code_witness :
  service.RelayErrorHandler (H := scenario.default_externals)
    scenario.response_structured false
  = types.WithOpenAIError
      {| types.Message := "slow down"; types.Type_ := "rate_limit_error";
         types.Code := EmptyString |} 429.
Proof.
  apply (proj1 (proj2 (@RelayErrorHandler_status_code scenario.default_externals
                         scenario.response_structured false))
           scenario.envelope_body
           {| dto.Error := {| types.Message := "slow down";
                              types.Type_ := "rate_limit_error";
                              types.Code := EmptyString |};
              dto.Rest := [EmptyString; EmptyString; EmptyString; EmptyString] |}).
  - reflexivity.
  - vm_compute. reflexivity.
  - simpl. discriminate.
Defined.

Example RelayErrorHandler_unparsable :
  service.RelayErrorHandler (H := scenario.default_externals)
    scenario.response_unparsable false
  = {| types.Err := Some "bad response status code 502"; types.RelayError := None;
       types.ErrorType_ := types.ErrorTypeOpenAIError; types.StatusCode := 502;
       types.errorCode := None |}.
Proof. vm_compute. reflexivity. Qed.

Example RelayErrorHandler_unreadable :
  types.StatusCode
    (service.RelayErrorHandler (H := scenario.default_externals)
       scenario.response_unreadable false) = 503.
Proof. reflexivity. Qed.

(** ** The Vertex adaptor's [GetRequestURL] *)
Section GetRequestURL_properties.

Context {E : Externals}.

Lemma set_UpstreamModelName_same (info : relaycommon.RelayInfo) :
  relaycommon.set_UpstreamModelName info (relaycommon.UpstreamModelName info) = info.
Proof. destruct info; reflexivity. Qed.

(** C8, as amended.  [GetRequestURL] returns an error exactly when the API
    key does not decode or the request mode is none of the three; a key
    that decodes with an empty project id (what a missing [project_id]
    member gives) yields a URL in each of the three modes. *)
Theorem GetRequestURL_error_iff (a : vertex.Adaptor) (info : relaycommon.RelayInfo) :
  ((exists err, fst (fst (vertex.GetRequestURL a info)) = inl err) <->
   ((exists err, json_Unmarshal_credentials (relaycommon.ApiKey info) = inl err)
    \/ ~ vertex.supported_mode (vertex.RequestMode a)))
  /\ (forall adc,
        json_Unmarshal_credentials (relaycommon.ApiKey info) = inr adc ->
        credentials.ProjectID adc = EmptyString ->
        vertex.supported_mode (vertex.RequestMode a) ->
        exists url, fst (fst (vertex.GetRequestURL a info)) = inr url).
Proof.
  assert (Hok : forall adc,
             json_Unmarshal_credentials (relaycommon.ApiKey info) = inr adc ->
             vertex.supported_mode (vertex.RequestMode a) ->
             exists url, fst (fst (vertex.GetRequestURL a info)) = inr url).
  { intros adc Hadc Hmode. unfold vertex.GetRequestURL. rewrite Hadc. simpl.
    destruct Hmode as [Hm|[Hm|Hm]]; rewrite Hm; simpl;
      try destruct GeminiThinkingAdapterEnabled;
      try destruct (String.eqb _ "global"); simpl; eexists; reflexivity. }
  split; [split|].
  - intros [err Herr].
    destruct (json_Unmarshal_credentials (relaycommon.ApiKey info)) as [e|adc] eqn:Hadc.
    + left. exists e. reflexivity.
    + right. intros Hmode.
      destruct (Hok adc eq_refl Hmode) as [url Hurl]. congruence.
  - intros [[err Herr]|Hmode].
    + unfold vertex.GetRequestURL. rewrite Herr. simpl. eexists; reflexivity.
    + unfold vertex.GetRequestURL.
      destruct (json_Unmarshal_credentials (relaycommon.ApiKey info)) as [e|adc];
        [simpl; eexists; reflexivity|].
      simpl.
      destruct (Z.eqb_spec (vertex.RequestMode a) vertex.RequestModeGemini) as [Hg|Hg].
      { exfalso. apply Hmode. right; left. exact Hg. }
      destruct (Z.eqb_spec (vertex.RequestMode a) vertex.RequestModeClaude) as [Hc|Hc].
      { exfalso. apply Hmode. left. exact Hc. }
      destruct (Z.eqb_spec (vertex.RequestMode a) vertex.RequestModeLlama) as [Hl|Hl].
      { exfalso. apply Hmode. right; right. exact Hl. }
      simpl. eexists; reflexivity.
  - intros adc Hadc _ Hmode. exact (Hok adc Hadc Hmode).
Qed.

(** [GetRequestURL] does not touch [IsStream]. *)
Lemma GetRequestURL_IsStream (a : vertex.Adaptor) (info : relaycommon.RelayInfo) :
  relaycommon.IsStream (snd (vertex.GetRequestURL a info))
  = relaycommon.IsStream info.
Proof.
  unfold vertex.GetRequestURL.
  destruct (json_Unmarshal_credentials (relaycommon.ApiKey info)) as [e|adc];
    [reflexivity|].
  simpl.
  repeat match goal with
         | |- context [if ?b then _ else _] => destruct b; simpl
         end; reflexivity.
Qed.

(** C9, as amended.  [GetRequestURL] leaves every field of [info] other
    than [UpstreamModelName] unchanged; it rewrites [UpstreamModelName]
    only in Gemini mode with the thinking adapter on, after a successful
    decoding; it keeps the adaptor's request mode and stores the decoded
    credentials in the adaptor; and its result depends on the adaptor only
    through the request mode. *)
Theorem GetRequestURL_effects (a : vertex.Adaptor) (info : relaycommon.RelayInfo) :
  snd (vertex.GetRequestURL a info)
  = relaycommon.set_UpstreamModelName info
      (match json_Unmarshal_credentials (relaycommon.ApiKey info) with
       | inr _ =>
           if (vertex.RequestMode a =? vertex.RequestModeGemini)
              && GeminiThinkingAdapterEnabled
           then vertex.strip_gemini_thinking (relaycommon.UpstreamModelName info)
           else relaycommon.UpstreamModelName info
       | inl _ => relaycommon.UpstreamModelName info
       end)
  /\ snd (fst (vertex.GetRequestURL a info))
     = {| vertex.RequestMode := vertex.RequestMode a;
          vertex.AccountCredentials :=
            match json_Unmarshal_credentials (relaycommon.ApiKey info) with
            | inr adc => adc
            | inl _ => vertex.AccountCredentials a
            end |}
  /\ (forall a2, vertex.RequestMode a2 = vertex.RequestMode a ->
                 fst (fst (vertex.GetRequestURL a2 info))
                 = fst (fst (vertex.GetRequestURL a info))).
Proof.
  unfold vertex.GetRequestURL.
  destruct (json_Unmarshal_credentials (relaycommon.ApiKey info)) as [e|adc].
  - simpl. rewrite set_UpstreamModelName_same.
    repeat split. destruct a; reflexivity.
  - simpl. split; [|split].
    + destruct (vertex.RequestMode a =? vertex.RequestModeGemini); simpl.
      * destruct GeminiThinkingAdapterEnabled;
          destruct (String.eqb _ "global"); simpl;
          rewrite ?set_UpstreamModelName_same; reflexivity.
      * destruct (vertex.RequestMode a =? vertex.RequestModeClaude); simpl.
        -- destruct (String.eqb _ "global"); simpl;
             rewrite set_UpstreamModelName_same; reflexivity.
        -- destruct (vertex.RequestMode a =? vertex.RequestModeLlama); simpl;
             rewrite set_UpstreamModelName_same; reflexivity.
    + destruct (vertex.RequestMode a =? vertex.RequestModeGemini); simpl.
      * destruct GeminiThinkingAdapterEnabled;
          destruct (String.eqb _ "global"); reflexivity.
      * destruct (vertex.RequestMode a =? vertex.RequestModeClaude); simpl.
        -- destruct (String.eqb _ "global"); reflexivity.
        -- destruct (vertex.RequestMode a =? vertex.RequestModeLlama); reflexivity.
    + intros a2 Hmode. rewrite Hmode.
      destruct (vertex.RequestMode a =? vertex.RequestModeGemini); simpl.
      * destruct GeminiThinkingAdapterEnabled;
          destruct (String.eqb _ "global"); reflexivity.
      * destruct (vertex.RequestMode a =? vertex.RequestModeClaude); simpl.
        -- destruct (String.eqb _ "global"); reflexivity.
        -- destruct (vertex.RequestMode a =? vertex.RequestModeLlama); reflexivity.
Qed.

End GetRequestURL_properties.

(** C8 as stated fails: the key below is a well-formed object without a
    [project_id] member, and [GetRequestURL] returns a URL, with an empty
    project segment, instead of an error. *)
Lemma GetRequestURL_without_project_id :
  match Json.parse scenario.key_without_project with
  | Some (Json.JObject members) => Json.member "project_id" members
  | _ => Some Json.JNull
  end = None
  /\ fst (fst (vertex.GetRequestURL (H := scenario.default_externals)
                 scenario.claude_mode scenario.info_without_project))
     = inr ("https://us-east5-aiplatform.googleapis.com/v1/projects/"
            ++ "/locations/us-east5/publishers/anthropic/models/"
            ++ "claude-3-5-sonnet-v2@20241022:rawPredict").
Proof. split; vm_compute; reflexivity. Qed.

Lemma GetRequestURL_error_iff_witness :
  exists url,
    fst (fst (vertex.GetRequestURL (H := scenario.default_externals)
                scenario.claude_mode scenario.info_without_project)) = inr url.
Proof.
  apply (proj2 (@GetRequestURL_error_iff scenario.default_externals
                  scenario.claude_mode scenario.info_without_project)
           {| credentials.ProjectID := EmptyString;
              credentials.PrivateKeyID := "k1";
              credentials.PrivateKey := "secret";
              credentials.ClientEmail := "sa@example.iam.gserviceaccount.com";
              credentials.ClientID := EmptyString |}).
  - vm_compute. reflexivity.
  - reflexivity.
  - left. reflexivity.
Defined.

(** C9 as stated fails: in Gemini mode with the thinking adapter on, the
    call rewrites [info.UpstreamModelName], and it stores the decoded
    credentials in the adaptor. *)
Lemma GetRequestURL_not_pure :
  relaycommon.UpstreamModelName
    (snd (vertex.GetRequestURL (H := scenario.default_externals)
            scenario.gemini_mode scenario.info_gemini_thinking))
  = "gemini-2.5-flash"
  /\ relaycommon.UpstreamModelName scenario.info_gemini_thinking
     = "gemini-2.5-flash-thinking"
  /\ snd (vertex.GetRequestURL (H := scenario.default_externals)
            scenario.gemini_mode scenario.info_gemini_thinking)
     <> scenario.info_gemini_thinking
  /\ snd (fst (vertex.GetRequestURL (H := scenario.default_externals)
                 scenario.gemini_mode scenario.info_gemini_thinking))
     <> scenario.gemini_mode.
Proof.
  repeat split; try (vm_compute; reflexivity); vm_compute; discriminate.
Qed.

Example GetRequestURL_gemini_stream :
  fst (fst (vertex.GetRequestURL (H := scenario.default_externals)
              scenario.gemini_mode scenario.info_gemini_thinking))
  = inr ("https://aiplatform.googleapis.com/v1/projects/p1/locations/global"
         ++ "/publishers/google/models/gemini-2.5-flash"
         ++ ":streamGenerateContent?alt=sse").
Proof. vm_compute. reflexivity. Qed.

(** ** Suffixes *)

Lemma take_drop (n : nat) (s : string) :
  GoStrings.take n s ++ GoStrings.drop n s = s.
Proof.
  revert s. induction n as [|n IH]; intros [|c s]; try reflexivity.
  change (String c (GoStrings.take n s ++ GoStrings.drop n s) = String c s).
  rewrite IH. reflexivity.
Qed.

Lemma length_app (s t : string) :
  String.length (s ++ t) = (String.length s + String.length t)%nat.
Proof.
  induction s as [|c s IH]; [reflexivity|].
  change (S (String.length (s ++ t)) = S (String.length s + String.length t)).
  rewrite IH. reflexivity.
Qed.

Lemma drop_app (s t : string) : GoStrings.drop (String.length s) (s ++ t) = t.
Proof.
  induction s as [|c s IH]; [destruct t; reflexivity|].
  change (GoStrings.drop (String.length s) (s ++ t) = t). exact IH.
Qed.

Lemma take_app (s t : string) : GoStrings.take (String.length s) (s ++ t) = s.
Proof.
  induction s as [|c s IH]; [destruct t; reflexivity|].
  change (String c (GoStrings.take (String.length s) (s ++ t)) = String c s).
  rewrite IH. reflexivity.
Qed.

Lemma HasSuffix_app (s suffix : string) : GoStrings.HasSuffix (s ++ suffix) suffix = true.
Proof.
  unfold GoStrings.HasSuffix. rewrite length_app.
  replace (String.length s + String.length suffix - String.length suffix)%nat
    with (String.length s) by lia.
  rewrite drop_app, String.eqb_refl, andb_true_r.
  apply Nat.leb_le. lia.
Qed.

(** [TrimSuffix] undoes the appending of the suffix. *)
Lemma TrimSuffix_app (s suffix : string) : GoStrings.TrimSuffix (s ++ suffix) suffix = s.
Proof.
  unfold GoStrings.TrimSuffix. rewrite HasSuffix_app, length_app.
  replace (String.length s + String.length suffix - String.length suffix)%nat
    with (String.length s) by lia.
  apply take_app.
Qed.

(** What [TrimSuffix] removes from a string that has the suffix is the
    suffix. *)
Lemma TrimSuffix_restore (s suffix : string) :
  GoStrings.HasSuffix s suffix = true ->
  GoStrings.TrimSuffix s suffix ++ suffix = s.
Proof.
  intros H. unfold GoStrings.TrimSuffix. rewrite H.
  unfold GoStrings.HasSuffix in H. apply andb_true_iff in H as [_ H].
  apply String.eqb_eq in H.
  rewrite <- H at 2. apply take_drop.
Qed.

(** ** The thinking adapter *)
Section thinking_adapter_properties.

Context {E : Externals}.

Lemma default_max_tokens_Model (r : dto.ClaudeRequest) :
  dto.Model (relay.default_max_tokens r) = dto.Model r.
Proof. unfold relay.default_max_tokens. destruct (dto.MaxTokens r =? 0); reflexivity. Qed.

Lemma default_max_tokens_Thinking (r : dto.ClaudeRequest) :
  dto.Thinking_ (relay.default_max_tokens r) = dto.Thinking_ r.
Proof. unfold relay.default_max_tokens. destruct (dto.MaxTokens r =? 0); reflexivity. Qed.

Lemma default_max_tokens_MaxTokens (r : dto.ClaudeRequest) :
  dto.MaxTokens (relay.default_max_tokens r)
  = if dto.MaxTokens r =? 0
    then uint_of_int (GetDefaultMaxTokens (dto.Model r))
    else dto.MaxTokens r.
Proof. unfold relay.default_max_tokens. destruct (dto.MaxTokens r =? 0); reflexivity. Qed.

(** The request [prepare_request] produces does not depend on the
    context it is given. *)
Lemma prepare_request_request (i i' : relaycommon.RelayInfo) (r : dto.ClaudeRequest) :
  snd (relay.prepare_request i r) = snd (relay.prepare_request i' r).
Proof.
  unfold relay.prepare_request, relay.thinking_adapter.
  destruct (ClaudeThinkingAdapterEnabled && _); reflexivity.
Qed.

(** [prepare_request] writes [UpstreamModelName] and nothing else of the
    context. *)
Lemma prepare_request_IsStream (i : relaycommon.RelayInfo) (r : dto.ClaudeRequest) :
  relaycommon.IsStream (fst (relay.prepare_request i r)) = relaycommon.IsStream i.
Proof.
  unfold relay.prepare_request, relay.thinking_adapter.
  destruct (ClaudeThinkingAdapterEnabled && _); reflexivity.
Qed.

(** C2, as amended.  For a request whose model ends in [-thinking] and
    that carries no thinking block, with the thinking adapter enabled, the
    request handed to the adaptor has the suffix stripped from its model
    (the context's [UpstreamModelName] is that model); its [MaxTokens] is
    the greater of 1280 and [T'], where [T'] is the inbound [MaxTokens] or,
    when that is zero, the model's default; its thinking budget is the
    [float64] product of [MaxTokens] and the percentage, truncated to an
    [int]; its temperature is 1.0 and its [TopP] is 0. *)
Theorem thinking_adapter_transform (i : relaycommon.RelayInfo) (r : dto.ClaudeRequest) :
  ClaudeThinkingAdapterEnabled = true ->
  GoStrings.HasSuffix (dto.Model r) "-thinking" = true ->
  dto.Thinking_ r = None ->
  let T' := if dto.MaxTokens r =? 0
            then uint_of_int (GetDefaultMaxTokens (dto.Model r))
            else dto.MaxTokens r in
  let i' := fst (relay.prepare_request i r) in
  let r' := snd (relay.prepare_request i r) in
  dto.Model r' = GoStrings.TrimSuffix (dto.Model r) "-thinking"
  /\ dto.Model r' ++ "-thinking" = dto.Model r
  /\ relaycommon.UpstreamModelName i' = dto.Model r'
  /\ dto.MaxTokens r' = Z.max T' 1280
  /\ dto.Thinking_ r'
     = Some {| dto.Type_ := "enabled";
               dto.BudgetTokens :=
                 Some (GoFloat.to_int
                         (GoFloat.mul (GoFloat.of_uint (dto.MaxTokens r'))
                            ThinkingAdapterBudgetTokensPercentage)) |}
  /\ dto.Temperature r' = Some GoFloat.one
  /\ dto.TopP r' = GoFloat.zero.
Proof.
  intros Hon Hsuffix Hnil T' i' r'.
  subst i' r'. unfold relay.prepare_request, relay.thinking_adapter.
  rewrite Hon, default_max_tokens_Model, Hsuffix, default_max_tokens_Thinking, Hnil.
  cbv zeta. simpl.
  assert (Hmax : dto.MaxTokens
                   (if dto.MaxTokens (relay.default_max_tokens r) <? 1280
                    then relay.set_MaxTokens (relay.default_max_tokens r) 1280
                    else relay.default_max_tokens r) = Z.max T' 1280).
  { subst T'. rewrite <- default_max_tokens_MaxTokens.
    destruct (Z.ltb_spec (dto.MaxTokens (relay.default_max_tokens r)) 1280); simpl; lia. }
  assert (Hmodel : dto.Model
                     (if dto.MaxTokens (relay.default_max_tokens r) <? 1280
                      then relay.set_MaxTokens (relay.default_max_tokens r) 1280
                      else relay.default_max_tokens r) = dto.Model r).
  { destruct (dto.MaxTokens (relay.default_max_tokens r) <? 1280); simpl;
      apply default_max_tokens_Model. }
  rewrite Hmodel, Hmax.
  repeat split; try reflexivity.
  apply TrimSuffix_restore. exact Hsuffix.
Qed.

End thinking_adapter_properties.

(** Scenario 6: [max_tokens] 500 becomes 1280, the budget is 1024. *)
Lemma thinking_adapter_transform_witness :
  dto.MaxTokens
    (snd (relay.prepare_request (H := scenario.default_externals)
            scenario.base_info (scenario.thinking_request 500))) = 1280
  /\ dto.Model
       (snd (relay.prepare_request (H := scenario.default_externals)
               scenario.base_info (scenario.thinking_request 500)))
     = "claude-sonnet-4-20250514"
  /\ dto.Thinking_
       (snd (relay.prepare_request (H := scenario.default_externals)
               scenario.base_info (scenario.thinking_request 500)))
     = Some {| dto.Type_ := "enabled"; dto.BudgetTokens := Some 1024 |}.
Proof.
  pose proof (@thinking_adapter_transform scenario.default_externals
                scenario.base_info (scenario.thinking_request 500)
                eq_refl eq_refl eq_refl) as H.
  cbv zeta in H.
  destruct H as (Hmodel & _ & _ & Hmax & Hthinking & _ & _).
  split; [|split].
  - rewrite Hmax. reflexivity.
  - rewrite Hmodel. reflexivity.
  - rewrite Hthinking, Hmax. vm_compute. reflexivity.
Defined.

(** C2 as stated fails on both counts.  With no inbound [max_tokens] and
    the default 4096, the upstream [max_tokens] is 4096, not
    [max(0, 1280)].  With [max_tokens] 1281 and 80 percent, the budget is
    1024, the product cut off, while the nearest integer is 1025. *)
Lemma thinking_adapter_not_max_not_round :
  (GoStrings.HasSuffix (dto.Model (scenario.thinking_request 0)) "-thinking" = true
   /\ dto.Thinking_ (scenario.thinking_request 0) = None
   /\ dto.MaxTokens
        (snd (relay.prepare_request (H := scenario.default_externals)
                scenario.base_info (scenario.thinking_request 0))) = 4096
   /\ Z.max (dto.MaxTokens (scenario.thinking_request 0)) 1280 = 1280)
  /\ (dto.MaxTokens
        (snd (relay.prepare_request (H := scenario.default_externals)
                scenario.base_info (scenario.thinking_request 1281))) = 1281
      /\ dto.Thinking_
           (snd (relay.prepare_request (H := scenario.default_externals)
                   scenario.base_info (scenario.thinking_request 1281)))
         = Some {| dto.Type_ := "enabled"; dto.BudgetTokens := Some 1024 |}
      /\ GoFloat.round_product 1281 GoFloat.point8 = 1025).
Proof. repeat split; vm_compute; reflexivity. Qed.

(** ** The ledger actions of a run *)

Ltac destruct_scrutinee_in H :=
  match type of H with
  | context [match ?e with _ => _ end] => destruct e eqn:?
  end.

Ltac run_cases H :=
  repeat destruct_scrutinee_in H;
  injection H as <- <-.

Section ledger.

Context {A P : Type} {E : Externals} {Ad : channel.Adaptor A P}.

(** The guarded part of the handler makes no reservation and no refund of
    its own; it settles exactly when it returns nil; and when it panics the
    named result is nil. *)
Lemma ClaudeHelper_guarded_events (w : relay.World A P) (st st' : relay.State)
    (r : dto.ClaudeRequest) (pd : helper.PriceData) (pq uq : Z) (x : relay.Exit) :
  relay.ClaudeHelper_guarded w st r pd pq uq = (x, st') ->
  relay.count relay.is_refund (relay.events st')
  = relay.count relay.is_refund (relay.events st)
  /\ relay.count relay.is_reservation (relay.events st')
     = relay.count relay.is_reservation (relay.events st)
  /\ relay.count relay.is_settlement (relay.events st')
     = (relay.count relay.is_settlement (relay.events st)
        + match x with relay.ExitReturn None => 1 | _ => 0 end)%nat
  /\ relay.named_result x
     = match x with relay.ExitReturn e => e | relay.ExitPanic _ => None end.
Proof.
  intros Hrun.
  unfold relay.ClaudeHelper_guarded, relay.settle in Hrun.
  run_cases Hrun; unfold relay.count; simpl; repeat split; lia.
Qed.

(** On every run, at most one reservation is made.  Without one there is
    neither refund nor settlement.  With one, a return with an error comes
    with exactly one refund and no settlement, a return of nil with exactly
    one settlement and no refund, and a panic with neither. *)
Lemma ClaudeHelper_terminal_action (w : relay.World A P) (o : relay.Outcome)
    (st : relay.State) :
  relay.ClaudeHelper w = (o, st) ->
  (relay.count relay.is_reservation (relay.events st) = 0%nat ->
   relay.count relay.is_refund (relay.events st) = 0%nat
   /\ relay.count relay.is_settlement (relay.events st) = 0%nat)
  /\ (relay.count relay.is_reservation (relay.events st) <> 0%nat ->
      relay.count relay.is_reservation (relay.events st) = 1%nat
      /\ match o with
         | relay.Returned (Some _) =>
             relay.count relay.is_refund (relay.events st) = 1%nat
             /\ relay.count relay.is_settlement (relay.events st) = 0%nat
         | relay.Returned None =>
             relay.count relay.is_refund (relay.events st) = 0%nat
             /\ relay.count relay.is_settlement (relay.events st) = 1%nat
         | relay.Panicked =>
             relay.count relay.is_refund (relay.events st) = 0%nat
             /\ relay.count relay.is_settlement (relay.events st) = 0%nat
         end).
Proof.
  intros Hrun. unfold relay.ClaudeHelper in Hrun.
  run_cases Hrun;
    try (unfold relay.count; simpl; split; [split; reflexivity | intros []; reflexivity]).
  match goal with
  | Hg : relay.ClaudeHelper_guarded _ _ _ _ _ _ = _ |- _ =>
      destruct (ClaudeHelper_guarded_events _ _ _ _ _ _ _ _ Hg)
        as (Hrefund & Hres & Hsettle & Hnamed)
  end.
  unfold relay.run_deferred. rewrite Hnamed.
  unfold relay.count in *. simpl in *.
  destruct e as [[err|]|named]; simpl; split; intros; repeat split; lia.
Qed.

End ledger.

(** C1, at the failing input.  The reservation of the run below succeeds,
    the upstream answers 200 and the adaptor returns a nil usage with a nil
    error: the handler panics on line 199 with the named result nil, so the
    deferred closure does not refund and the settlement is never called. *)
Theorem ClaudeHelper_nil_usage_no_terminal_action :
  relay.count relay.is_reservation (relay.events (snd scenario.run_nil_usage)) = 1%nat
  /\ relay.count relay.is_refund (relay.events (snd scenario.run_nil_usage)) = 0%nat
  /\ relay.count relay.is_settlement (relay.events (snd scenario.run_nil_usage)) = 0%nat.
Proof. repeat split; vm_compute; reflexivity. Qed.

(** C4, at the failing input.  With a nil usage, be it the nil interface
    or a nil pointer, the settlement step panics before
    [PostClaudeConsumeQuota] is called, whatever the state; the run below
    ends that way. *)
Theorem settle_nil_usage_panics :
  (forall st pq uq pd,
     relay.settle st channel.nil_interface pq uq pd = (relay.ExitPanic None, st))
  /\ (forall st pq uq pd,
        relay.settle st (channel.usage_pointer None) pq uq pd
        = (relay.ExitPanic None, st))
  /\ fst scenario.run_nil_usage = relay.Panicked
  /\ List.filter relay.is_settlement (relay.events (snd scenario.run_nil_usage)) = [].
Proof. repeat split; vm_compute; reflexivity. Qed.

(** A usage that is present is handed to the settlement as the adaptor
    returned it, a zero-valued one included. *)
Lemma settle_forwards_usage (st : relay.State) (u : dto.Usage) (pq uq : Z)
    (pd : helper.PriceData) :
  relay.settle st (channel.usage_pointer (Some u)) pq uq pd
  = (relay.ExitReturn None, relay.emit st (relay.EvPostClaudeConsumeQuota u pq uq pd)).
Proof. reflexivity. Qed.

(** Scenario 1 as the code runs it: a 200 answer with usage 7+3 is settled
    once; the reservation was made for the 7 prompt tokens alone. *)
Example run_ok_settles :
  fst scenario.run_ok = relay.Returned None
  /\ List.filter relay.is_settlement (relay.events (snd scenario.run_ok))
     = [relay.EvPostClaudeConsumeQuota scenario.usage_7_3 7 1000000
          (scenario.unit_price 7)]
  /\ relay.count relay.is_refund (relay.events (snd scenario.run_ok)) = 0%nat.
Proof. repeat split; vm_compute; reflexivity. Qed.

(** Scenario 3: an upstream 429 with the mapping 429 to 503 is returned
    with status 503 and refunded. *)
Example run_429_refunds :
  match fst scenario.run_429 with
  | relay.Returned (Some e) => types.StatusCode e
  | _ => 0
  end = 503
  /\ List.filter relay.is_refund (relay.events (snd scenario.run_429))
     = [relay.EvReturnPreConsumedQuota 1000000 7]
  /\ relay.count relay.is_settlement (relay.events (snd scenario.run_429)) = 0%nat.
Proof. repeat split; vm_compute; reflexivity. Qed.

(** ** The order of token counting and default substitution *)
Section counting_order.

Context {A P : Type} {E : Externals} {Ad : channel.Adaptor A P}.

(** The upstream [MaxTokens] of a request. *)
Lemma prepare_request_MaxTokens (i : relaycommon.RelayInfo) (r : dto.ClaudeRequest) :
  dto.MaxTokens (snd (relay.prepare_request i r))
  = let T' := if dto.MaxTokens r =? 0
              then uint_of_int (GetDefaultMaxTokens (dto.Model r))
              else dto.MaxTokens r in
    if ClaudeThinkingAdapterEnabled
       && GoStrings.HasSuffix (dto.Model r) "-thinking"
       && match dto.Thinking_ r with None => true | Some _ => false end
    then Z.max T' 1280 else T'.
Proof.
  cbv zeta. rewrite <- default_max_tokens_MaxTokens.
  unfold relay.prepare_request, relay.thinking_adapter.
  rewrite default_max_tokens_Model, default_max_tokens_Thinking.
  destruct (ClaudeThinkingAdapterEnabled && _); simpl; [|reflexivity].
  destruct (dto.Thinking_ r); simpl; [reflexivity|].
  destruct (Z.ltb_spec (dto.MaxTokens (relay.default_max_tokens r)) 1280); simpl; lia.
Qed.

(** The guarded part of the handler counts no tokens, asks no price and
    converts the request [prepare_request] gives. *)
Lemma ClaudeHelper_guarded_calls (w : relay.World A P) (st st' : relay.State)
    (r : dto.ClaudeRequest) (pd : helper.PriceData) (pq uq : Z) (x : relay.Exit)
    (ev : relay.Event) :
  relay.ClaudeHelper_guarded w st r pd pq uq = (x, st') ->
  In ev (relay.events st') ->
  In ev (relay.events st)
  \/ match ev with
     | relay.EvCountTokens _ _ | relay.EvModelPrice _ _
     | relay.EvPreConsumeQuota _ _ | relay.EvReturnPreConsumedQuota _ _ => False
     | relay.EvConvertRequest r' =>
         r' = snd (relay.prepare_request (relay.info st) r)
     | _ => True
     end.
Proof.
  intros Hrun. unfold relay.ClaudeHelper_guarded, relay.settle in Hrun.
  run_cases Hrun; simpl; intros Hin;
    repeat (destruct Hin as [<-|Hin];
            [right; simpl;
             try match goal with
                 | H : relay.prepare_request ?i r = _ |- _ =>
                     rewrite (prepare_request_request (relay.info st) i), H
                 end;
             try reflexivity; exact I|]);
    left; exact Hin.
Qed.

(** The guarded part of the handler only adds to the calls made. *)
Lemma ClaudeHelper_guarded_extends (w : relay.World A P) (st st' : relay.State)
    (r : dto.ClaudeRequest) (pd : helper.PriceData) (pq uq : Z) (x : relay.Exit)
    (ev : relay.Event) :
  relay.ClaudeHelper_guarded w st r pd pq uq = (x, st') ->
  In ev (relay.events st) -> In ev (relay.events st').
Proof.
  intros Hrun Hin. unfold relay.ClaudeHelper_guarded, relay.settle in Hrun.
  run_cases Hrun; simpl; auto 10.
Qed.

Lemma run_deferred_events (x : relay.Exit) (st : relay.State) (u q : Z)
    (ev : relay.Event) :
  In ev (relay.events (relay.run_deferred x st u q)) ->
  relay.is_refund ev = true \/ In ev (relay.events st).
Proof.
  unfold relay.run_deferred. destruct (relay.named_result x); simpl.
  - intros [<-|Hin]; [left; reflexivity | right; exact Hin].
  - intros Hin. right. exact Hin.
Qed.

Lemma run_deferred_keeps (x : relay.Exit) (st : relay.State) (u q : Z)
    (ev : relay.Event) :
  In ev (relay.events st) -> In ev (relay.events (relay.run_deferred x st u q)).
Proof.
  unfold relay.run_deferred. destruct (relay.named_result x); simpl; auto.
Qed.

(** C3, as amended.  On every run that passes validation and model
    mapping, the token counter is called on the request exactly as model
    mapping left it, and the price is asked for that count and for that
    request's [MaxTokens]: no default has been substituted yet.  The
    default enters afterwards, in the request handed to
    [ConvertClaudeRequest]. *)
Theorem ClaudeHelper_counts_before_default (w : relay.World A P) (o : relay.Outcome)
    (st : relay.State) (r : dto.ClaudeRequest) :
  relay.ClaudeHelper w = (o, st) ->
  relay.getAndValidateClaudeRequest (relay.ShouldBindJSON w) = inr r ->
  let mapped :=
    relay.ModelMappedHelper w
      (relay.stream_from_request (relay.GenRelayInfoClaude w) r) r in
  fst (fst mapped) = None ->
  let i1 := snd (fst mapped) in
  let r1 := snd mapped in
  In (relay.EvCountTokens r1 (relaycommon.UpstreamModelName i1)) (relay.events st)
  /\ (forall r' m, In (relay.EvCountTokens r' m) (relay.events st) -> r' = r1)
  /\ (forall pt mt, In (relay.EvModelPrice pt mt) (relay.events st) ->
        pt = fst (relay.CountTokenClaudeRequest w r1 (relaycommon.UpstreamModelName i1))
        /\ mt = int_of_uint (dto.MaxTokens r1))
  /\ (forall r', In (relay.EvConvertRequest r') (relay.events st) ->
        r' = snd (relay.prepare_request i1 r1)
        /\ dto.MaxTokens r'
           = let T' := if dto.MaxTokens r1 =? 0
                       then uint_of_int (GetDefaultMaxTokens (dto.Model r1))
                       else dto.MaxTokens r1 in
             if ClaudeThinkingAdapterEnabled
                && GoStrings.HasSuffix (dto.Model r1) "-thinking"
                && match dto.Thinking_ r1 with None => true | Some _ => false end
             then Z.max T' 1280 else T').
Proof.
  intros Hrun Hvalid mapped Hmapped i1 r1. subst i1 r1 mapped.
  unfold relay.ClaudeHelper in Hrun. rewrite Hvalid in Hrun.
  simpl in Hrun.
  destruct (relay.ModelMappedHelper w _ r) as [[err i1] r1] eqn:Hmap.
  simpl in Hmapped. subst err. simpl in Hrun |- *.
  destruct (relay.CountTokenClaudeRequest w r1 _) as [promptTokens cerr] eqn:Hcount.
  assert (Hbase : forall evs : list relay.Event,
            (forall ev, In ev evs ->
               ev = relay.EvCountTokens r1 (relaycommon.UpstreamModelName i1)
               \/ ev = relay.EvModelPrice promptTokens (int_of_uint (dto.MaxTokens r1))
               \/ match ev with
                  | relay.EvCountTokens _ _ | relay.EvModelPrice _ _ => False
                  | relay.EvConvertRequest r' => r' = snd (relay.prepare_request i1 r1)
                  | _ => True
                  end) ->
            (forall r' m, In (relay.EvCountTokens r' m) evs -> r' = r1)
            /\ (forall pt mt, In (relay.EvModelPrice pt mt) evs ->
                  pt = promptTokens /\ mt = int_of_uint (dto.MaxTokens r1))
            /\ (forall r', In (relay.EvConvertRequest r') evs ->
                  r' = snd (relay.prepare_request i1 r1)
                  /\ dto.MaxTokens r'
                     = let T' := if dto.MaxTokens r1 =? 0
                                 then uint_of_int (GetDefaultMaxTokens (dto.Model r1))
                                 else dto.MaxTokens r1 in
                       if ClaudeThinkingAdapterEnabled
                          && GoStrings.HasSuffix (dto.Model r1) "-thinking"
                          && match dto.Thinking_ r1 with
                             | None => true
                             | Some _ => false
                             end
                       then Z.max T' 1280 else T')).
  { intros evs Hevs. split; [|split].
    - intros r' m Hin. destruct (Hevs _ Hin) as [Heq|[Heq|Hno]];
        [congruence | discriminate | contradiction].
    - intros pt mt Hin. destruct (Hevs _ Hin) as [Heq|[Heq|Hno]];
        [discriminate | split; congruence | contradiction].
    - intros r' Hin. destruct (Hevs _ Hin) as [Heq|[Heq|Hno]];
        [discriminate | discriminate |].
      split; [exact Hno|]. rewrite Hno. apply prepare_request_MaxTokens. }
  run_cases Hrun.
  - split; [simpl; auto|]. apply Hbase. simpl. intros ev [<-|[]]. left. reflexivity.
  - split; [simpl; auto|]. apply Hbase. simpl. intros ev [<-|[<-|[]]]; auto.
  - split; [simpl; auto|]. apply Hbase. simpl.
    intros ev [<-|[<-|[<-|[]]]]; auto.
  - match goal with
    | Hg : relay.ClaudeHelper_guarded _ _ _ _ _ _ = _ |- _ =>
        pose proof (fun ev => ClaudeHelper_guarded_extends _ _ _ _ _ _ _ _ ev Hg) as Hnew;
        pose proof (fun ev => ClaudeHelper_guarded_calls _ _ _ _ _ _ _ _ ev Hg) as Hcalls
    end.
    simpl in Hnew, Hcalls.
    split.
    + apply run_deferred_keeps, Hnew. auto.
    + apply Hbase. intros ev Hin.
      destruct (run_deferred_events _ _ _ _ _ Hin) as [Hrefund|Hin'].
      * right; right. destruct ev; try discriminate. exact I.
      * destruct (Hcalls ev Hin') as [[<-|[<-|[<-|[]]]]|Hnew'].
        -- right; right. exact I.
        -- auto.
        -- auto.
        -- right; right. destruct ev; try contradiction; try exact I.
           rewrite Hnew'. apply prepare_request_request.
Qed.

End counting_order.

Lemma ClaudeHelper_counts_before_default_witness :
  In (relay.EvCountTokens scenario.base_request "claude-3-5-sonnet-20241022")
    (relay.events (snd scenario.run_ok)).
Proof.
  assert (Hrun : relay.ClaudeHelper (H := scenario.default_externals)
                   (H0 := scenario.adaptor_ok)
                   (scenario.world scenario.base_request EmptyString)
                 = (fst scenario.run_ok, snd scenario.run_ok))
    by (vm_compute; reflexivity).
  assert (Hvalid : relay.getAndValidateClaudeRequest
                     (relay.ShouldBindJSON
                        (scenario.world scenario.base_request EmptyString))
                   = inr scenario.base_request)
    by (vm_compute; reflexivity).
  pose proof (@ClaudeHelper_counts_before_default _ _
                scenario.default_externals scenario.adaptor_ok
                _ _ _ _ Hrun Hvalid) as H.
  cbv zeta in H. specialize (H ltac:(vm_compute; reflexivity)).
  destruct H as [H _]. vm_compute in H. vm_compute. exact H.
Defined.

(** C3 as stated fails: the request of scenario 1 has no [max_tokens] and
    the default is 4096; the token counter is called on the request with
    [MaxTokens] 0 and the price is asked for 0 completion tokens, while the
    request that is converted carries 4096. *)
Lemma ClaudeHelper_counts_request_without_default :
  dto.MaxTokens scenario.base_request = 0
  /\ GetDefaultMaxTokens (Externals := scenario.default_externals)
       (dto.Model scenario.base_request) = 4096
  /\ List.filter relay.is_count_tokens (relay.events (snd scenario.run_ok))
     = [relay.EvCountTokens scenario.base_request "claude-3-5-sonnet-20241022"]
  /\ List.filter relay.is_model_price (relay.events (snd scenario.run_ok))
     = [relay.EvModelPrice 7 0]
  /\ List.filter relay.is_convert_request (relay.events (snd scenario.run_ok))
     = [relay.EvConvertRequest (relay.set_MaxTokens scenario.base_request 4096)].
Proof. repeat split; vm_compute; reflexivity. Qed.

(** ** [IsStream] never falls *)

Lemma never_lowers_refl (i : relaycommon.RelayInfo) : relay.never_lowers i i.
Proof. intros H. exact H. Qed.

Lemma never_lowers_eq (i i' : relaycommon.RelayInfo) :
  relaycommon.IsStream i' = relaycommon.IsStream i -> relay.never_lowers i i'.
Proof. intros Heq H. rewrite Heq. exact H. Qed.

(** The first write (lines 56-58) sets the flag or leaves it. *)
Lemma stream_from_request_IsStream (i : relaycommon.RelayInfo) (r : dto.ClaudeRequest) :
  relaycommon.IsStream (relay.stream_from_request i r)
  = relaycommon.IsStream i || dto.Stream r.
Proof.
  unfold relay.stream_from_request.
  destruct (dto.Stream r); simpl;
    [rewrite orb_true_r | rewrite orb_false_r]; reflexivity.
Qed.

(** The second write (line 158) is a disjunction with the old value. *)
Lemma promote_stream_IsStream (i : relaycommon.RelayInfo) (resp : http.Response) :
  relaycommon.IsStream (relay.promote_stream i resp)
  = relaycommon.IsStream i
    || GoStrings.HasPrefix (http.ContentType resp) "text/event-stream".
Proof. reflexivity. Qed.

Lemma never_lowers_stream_from_request (i : relaycommon.RelayInfo)
    (r : dto.ClaudeRequest) :
  relay.never_lowers i (relay.stream_from_request i r).
Proof.
  intros H. rewrite stream_from_request_IsStream, H. reflexivity.
Qed.

Lemma never_lowers_promote_stream (i : relaycommon.RelayInfo) (resp : http.Response) :
  relay.never_lowers i (relay.promote_stream i resp).
Proof.
  intros H. rewrite promote_stream_IsStream, H. reflexivity.
Qed.

Lemma history_put_info (st : relay.State) (i : relaycommon.RelayInfo) :
  relay.history_in_order st -> relay.never_lowers (relay.info st) i ->
  relay.history_in_order (relay.put_info st i).
Proof.
  intros [Hfalls [earlier Hhist]] Hlow. split.
  - simpl. rewrite Hhist. rewrite Hhist in Hfalls.
    apply andb_true_iff. split; [|exact Hfalls].
    destruct (relaycommon.IsStream (relay.info st)) eqn:Hold; [|reflexivity].
    rewrite (Hlow Hold). reflexivity.
  - eexists. reflexivity.
Qed.

Lemma history_emit (st : relay.State) (e : relay.Event) :
  relay.history_in_order st -> relay.history_in_order (relay.emit st e).
Proof. intros H. exact H. Qed.

Lemma history_put_ctx (st : relay.State) (c : gin.Context) :
  relay.history_in_order st -> relay.history_in_order (relay.put_ctx st c).
Proof. intros H. exact H. Qed.

Lemma history_run_deferred (x : relay.Exit) (st : relay.State) (u q : Z) :
  relay.history_in_order st -> relay.history_in_order (relay.run_deferred x st u q).
Proof.
  intros H. unfold relay.run_deferred. destruct (relay.named_result x); exact H.
Qed.

Ltac history_steps :=
  repeat first [ apply history_emit | apply history_put_ctx
               | apply history_put_info | apply history_run_deferred ].

Section stream_flag.

Context {A P : Type} {E : Externals} {Ad : channel.Adaptor A P}.

Variable w : relay.World A P.
Hypothesis Hkeep : relay.collaborators_keep_stream w.

(** From the equation of a call, what it did to [IsStream]. *)
Ltac learn_calls :=
  destruct Hkeep as (Hmap & Hprice & Hreserve & Hinit & Hconvert & Hrequest & Hresponse);
  repeat match goal with
    | Heq : relay.ModelMappedHelper w ?i ?r = _ |- _ =>
        let Hn := fresh "Hlow" in
        pose proof (Hmap i r) as Hn; rewrite Heq in Hn; simpl in Hn; revert Heq
    | Heq : relay.ModelPriceHelper w ?i ?p ?m = _ |- _ =>
        let Hn := fresh "Hlow" in
        pose proof (Hprice i p m) as Hn; rewrite Heq in Hn; simpl in Hn; revert Heq
    | Heq : relay.preConsumeQuota w ?q ?i = _ |- _ =>
        let Hn := fresh "Hlow" in
        pose proof (Hreserve q i) as Hn; rewrite Heq in Hn; simpl in Hn; revert Heq
    | Heq : channel.Init ?a ?i = _ |- _ =>
        let Hn := fresh "Hlow" in
        pose proof (Hinit a i) as Hn; rewrite Heq in Hn; simpl in Hn; revert Heq
    | Heq : channel.ConvertClaudeRequest ?a ?c ?i ?r = _ |- _ =>
        let Hn := fresh "Hlow" in
        pose proof (Hconvert a c i r) as Hn; rewrite Heq in Hn; simpl in Hn; revert Heq
    | Heq : channel.DoRequest ?a ?c ?i ?b = _ |- _ =>
        let Hn := fresh "Hlow" in
        pose proof (Hrequest a c i b) as Hn; rewrite Heq in Hn; simpl in Hn; revert Heq
    | Heq : channel.DoResponse ?a ?c ?resp ?i = _ |- _ =>
        let Hn := fresh "Hlow" in
        pose proof (Hresponse a c resp i) as Hn; rewrite Heq in Hn; simpl in Hn; revert Heq
    | Heq : relay.prepare_request ?i ?r = _ |- _ =>
        let Hn := fresh "Hlow" in
        pose proof (never_lowers_eq _ _ (prepare_request_IsStream i r)) as Hn;
        rewrite Heq in Hn; simpl in Hn; revert Heq
    end;
  intros.

Ltac stream_side :=
  simpl;
  first [ assumption
        | apply never_lowers_stream_from_request
        | apply never_lowers_promote_stream
        | apply never_lowers_refl
        | apply never_lowers_eq; reflexivity ].

Lemma ClaudeHelper_guarded_history (st st' : relay.State) (r : dto.ClaudeRequest)
    (pd : helper.PriceData) (pq uq : Z) (x : relay.Exit) :
  relay.history_in_order st ->
  relay.ClaudeHelper_guarded w st r pd pq uq = (x, st') ->
  relay.history_in_order st'.
Proof.
  intros Hst Hrun. unfold relay.ClaudeHelper_guarded, relay.settle in Hrun.
  run_cases Hrun; learn_calls; history_steps; try exact Hst; stream_side.
Qed.

(** C5.  On every run whose callees outside the three files never lower
    [IsStream], the values [relayInfo.IsStream] takes in the course of the
    request never go from true to false: the handler's own two writes set
    the flag from the request's stream flag and promote it on an
    event-stream content type, and nothing else in it stores into the
    flag. *)
Theorem IsStream_never_falls (o : relay.Outcome) (st : relay.State) :
  relay.ClaudeHelper w = (o, st) ->
  relay.never_falls (relay.stream_history st) = true.
Proof.
  intros Hrun.
  assert (Hstart : forall i, relay.history_in_order
            {| relay.info := i; relay.ctx := relay.context w; relay.events := [];
               relay.stream_history := [relaycommon.IsStream i] |}).
  { intros i. split; [reflexivity | eexists; reflexivity]. }
  enough (relay.history_in_order st) as [H _] by exact H.
  unfold relay.ClaudeHelper in Hrun.
  run_cases Hrun;
    try match goal with
        | Hg : relay.ClaudeHelper_guarded _ _ _ _ _ _ = _ |- _ =>
            apply history_run_deferred;
            apply (ClaudeHelper_guarded_history _ _ _ _ _ _ _) in Hg;
            [exact Hg|]
        end;
    learn_calls; history_steps; try apply Hstart; stream_side.
Qed.

End stream_flag.

(** The Vertex adaptor and the collaborators of the scenario world never
    lower [IsStream]. *)
Lemma scenario_world_keeps_stream (contentType : string) (usage : channel.any_usage)
    (request : dto.ClaudeRequest) (mapping : string) :
  relay.collaborators_keep_stream
    (H := scenario.vertex_adaptor (H := scenario.default_externals)
            (scenario.upstream_ok contentType usage))
    (scenario.world request mapping).
Proof.
  unfold relay.collaborators_keep_stream. repeat split; intros; simpl;
    try apply never_lowers_refl.
  - unfold scenario.DoApiRequest.
    pose proof (@GetRequestURL_IsStream scenario.default_externals a i) as Hinfo.
    destruct (vertex.GetRequestURL a i) as [[url a'] i'].
    simpl in Hinfo.
    destruct url; simpl; apply never_lowers_eq; exact Hinfo.
  - unfold vertex.DoResponse, scenario.uniform_handlers; simpl.
    repeat match goal with
           | |- context [if ?b then _ else _] => destruct b
           end; simpl; apply never_lowers_refl.
Qed.

Lemma IsStream_never_falls_witness :
  relay.never_falls (relay.stream_history (snd scenario.run_nil_usage)) = true.
Proof.
  apply (@IsStream_never_falls _ _ scenario.default_externals
           scenario.adaptor_nil_usage
           (scenario.world scenario.base_request EmptyString)
           (scenario_world_keeps_stream _ _ _ _)
           (fst scenario.run_nil_usage) (snd scenario.run_nil_usage)).
  vm_compute. reflexivity.
Defined.

(** Scenario 2: the request asks for no stream, the upstream answers with
    an event stream, and the flag goes from false to true and stays. *)
Example run_nil_usage_history :
  List.rev (relay.stream_history (snd scenario.run_nil_usage))
  = [false; false; false; false; false; false; false; false; false; false;
     true; true].
Proof. vm_compute. reflexivity. Qed.

Lemma GetRequestURL_effects_witness :
  fst (fst (vertex.GetRequestURL (H := scenario.default_externals)
              {| vertex.RequestMode := vertex.RequestModeGemini;
                 vertex.AccountCredentials :=
                   {| credentials.ProjectID := "other";
                      credentials.PrivateKeyID := EmptyString;
                      credentials.PrivateKey := EmptyString;
                      credentials.ClientEmail := EmptyString;
                      credentials.ClientID := EmptyString |} |}
              scenario.info_gemini_thinking))
  = fst (fst (vertex.GetRequestURL (H := scenario.default_externals)
                scenario.gemini_mode scenario.info_gemini_thinking)).
Proof.
  apply (proj2 (proj2 (@GetRequestURL_effects scenario.default_externals
                         scenario.gemini_mode scenario.info_gemini_thinking))).
  reflexivity.
Defined.

(** * Part III: further properties of the three files *)

(** ** [Itoa] and [Atoi] are inverse on [int] *)

Lemma digit_of_digit_char (d : Z) :
  0 <= d <= 9 -> GoStrconv.digit_of (GoStrconv.digit_char d) = Some d.
Proof.
  intros Hd.
  assert (Hcases : d = 0 \/ d = 1 \/ d = 2 \/ d = 3 \/ d = 4 \/ d = 5
                   \/ d = 6 \/ d = 7 \/ d = 8 \/ d = 9) by lia.
  repeat (destruct Hcases as [->|Hcases]; [reflexivity|]).
  subst d. reflexivity.
Qed.

Lemma digit_of_not_sign (c : ascii) (d : Z) :
  GoStrconv.digit_of c = Some d ->
  Ascii.eqb c "-" = false /\ Ascii.eqb c "+" = false.
Proof.
  intros Hd. split.
  - destruct (Ascii.eqb_spec c "-") as [->|]; [discriminate | reflexivity].
  - destruct (Ascii.eqb_spec c "+") as [->|]; [discriminate | reflexivity].
Qed.

Lemma pow10_S (m : nat) : 10 ^ Z.of_nat (S m) = 10 * 10 ^ Z.of_nat m.
Proof. rewrite Nat2Z.inj_succ, Z.pow_succ_r by lia. reflexivity. Qed.

Lemma pow10_pos (m : nat) : 0 < 10 ^ Z.of_nat m.
Proof. apply Z.pow_pos_nonneg; lia. Qed.

Lemma parseUint_loop_digit (d k : Z) (acc : string) :
  0 <= d <= 9 -> 0 <= k -> k * 10 + d <= GoStrconv.MaxUint64 ->
  GoStrconv.parseUint_loop (String (GoStrconv.digit_char d) acc) k
  = GoStrconv.parseUint_loop acc (k * 10 + d).
Proof.
  intros Hd Hk Hmax. simpl GoStrconv.parseUint_loop.
  rewrite (digit_of_digit_char d Hd).
  destruct (Z.leb_spec GoStrconv.cutoff10 k) as [Hcut|_].
  { change GoStrconv.cutoff10 with 1844674407370955162 in Hcut.
    change GoStrconv.MaxUint64 with 18446744073709551615 in Hmax. lia. }
  cbv zeta.
  destruct (Z.ltb_spec GoStrconv.MaxUint64 (k * 10 + d)) as [Hover|_]; [lia|].
  reflexivity.
Qed.

Lemma writes_one_digit (n : Z) (acc : string) :
  0 <= n < 10 ->
  decimal.writes (String (GoStrconv.digit_char n) acc) acc n O.
Proof.
  intros Hn.
  assert (Hd : GoStrconv.digit_of (GoStrconv.digit_char n) = Some n)
    by (apply digit_of_digit_char; lia).
  change (10 ^ Z.of_nat 1) with 10.
  repeat split.
  - lia.
  - left. reflexivity.
  - intros k. simpl GoStrconv.atoi_fast_loop. rewrite Hd. reflexivity.
  - intros k Hk Hmax. apply parseUint_loop_digit; lia.
  - exists (GoStrconv.digit_char n), acc, n. split; [reflexivity | exact Hd].
Qed.

Lemma writes_next_digit (s acc : string) (n : Z) (m : nat) :
  10 <= n ->
  decimal.writes s (String (GoStrconv.digit_char (n mod 10)) acc) (n / 10) m ->
  decimal.writes s acc n (S m).
Proof.
  intros Hn (Hlen & Hupper & Hlower & Hfast & Hslow & Hfirst).
  assert (Hdigit : 0 <= n mod 10 <= 9) by (pose proof (Z.mod_pos_bound n 10); lia).
  assert (Hd : GoStrconv.digit_of (GoStrconv.digit_char (n mod 10)) = Some (n mod 10))
    by (apply digit_of_digit_char; lia).
  pose proof (Z.div_mod n 10 ltac:(lia)) as Hdm.
  pose proof (pow10_pos m) as Hpos.
  pose proof (pow10_pos (S m)) as Hpos'.
  pose proof (pow10_S m) as HS.
  pose proof (pow10_S (S m)) as HSS.
  repeat split.
  - rewrite Hlen. simpl. lia.
  - lia.
  - right. destruct Hlower as [->|Hlower]; [simpl; lia | lia].
  - intros k. rewrite Hfast. simpl GoStrconv.atoi_fast_loop. rewrite Hd.
    f_equal. lia.
  - intros k Hk Hmax.
    rewrite Hslow by nia.
    rewrite parseUint_loop_digit by nia.
    f_equal. lia.
  - exact Hfirst.
Qed.

(** [utoa_fuel] writes the digits of a number that its fuel covers. *)
Lemma utoa_fuel_writes (fuel : nat) :
  forall (n : Z) (acc : string),
    0 <= n < 10 ^ Z.of_nat (S fuel) ->
    exists m : nat,
      (m <= fuel)%nat
      /\ decimal.writes (GoStrconv.utoa_fuel (S fuel) n acc) acc n m.
Proof.
  induction fuel as [|fuel IH]; intros n acc Hn;
    cbn [GoStrconv.utoa_fuel]; cbv zeta;
    destruct (Z.ltb_spec n 10) as [Hsmall|Hbig].
  - exists O. split; [lia|]. rewrite Z.mod_small by lia.
    apply writes_one_digit. lia.
  - change (10 ^ Z.of_nat 1) with 10 in Hn. lia.
  - exists O. split; [lia|]. rewrite Z.mod_small by lia.
    apply writes_one_digit. lia.
  - rewrite pow10_S in Hn.
    assert (Hn' : 0 <= n / 10 < 10 ^ Z.of_nat (S fuel)).
    { split; [apply Z.div_pos; lia|]. apply Z.div_lt_upper_bound; lia. }
    destruct (IH (n / 10) (String (GoStrconv.digit_char (n mod 10)) acc) Hn')
      as (m & Hm & Hwrites).
    exists (S m). split; [lia|].
    apply writes_next_digit; assumption.
Qed.

Lemma Atoi_digits (s : string) (n : Z) (m : nat) :
  decimal.writes s EmptyString n m -> 0 <= n <= GoStrconv.MaxInt64 ->
  GoStrconv.Atoi s = (n, None).
Proof.
  intros (Hlen & _ & _ & Hfast & Hslow & (c & rest & d & -> & Hd)) Hn.
  destruct (digit_of_not_sign c d Hd) as [Hminus Hplus].
  unfold GoStrconv.Atoi. cbv zeta.
  destruct ((0 <? String.length (String c rest))%nat
            && (String.length (String c rest) <? 19)%nat).
  - rewrite Hminus, Hplus. simpl orb. cbv iota. simpl andb. cbv iota.
    rewrite Hfast, Z.mul_0_l, Z.add_0_l. reflexivity.
  - unfold GoStrconv.ParseInt10. cbv zeta. rewrite Hminus, Hplus. simpl orb. cbv iota.
    unfold GoStrconv.ParseUint10.
    change GoStrconv.MaxInt64 with 9223372036854775807 in Hn.
    rewrite Hslow by (rewrite ?Z.mul_0_l, ?Z.add_0_l;
                      change GoStrconv.MaxUint64 with 18446744073709551615; lia).
    simpl GoStrconv.parseUint_loop. simpl negb. simpl andb.
    change GoStrconv.MaxInt64 with 9223372036854775807 in Hn.
    rewrite Z.mul_0_l, Z.add_0_l. cbv beta iota.
    destruct (Z.leb_spec 9223372036854775808 n); [lia|].
    reflexivity.
Qed.

Lemma Atoi_minus_digits (s : string) (n : Z) (m : nat) :
  decimal.writes s EmptyString n m -> 1 <= n <= - GoStrconv.MinInt64 ->
  GoStrconv.Atoi (String "-" s) = (- n, None).
Proof.
  intros (Hlen & _ & _ & Hfast & Hslow & (c & rest & d & -> & Hd)) Hn.
  change GoStrconv.MinInt64 with (-9223372036854775808) in Hn.
  unfold GoStrconv.Atoi. cbv zeta.
  destruct ((0 <? String.length (String "-" (String c rest)))%nat
            && (String.length (String "-" (String c rest)) <? 19)%nat).
  - change (Ascii.eqb "-" "-") with true. simpl orb. cbv iota.
    change ((String.length (String c rest) <? 1)%nat) with false.
    simpl andb. cbv iota.
    rewrite Hfast, Z.mul_0_l, Z.add_0_l. reflexivity.
  - unfold GoStrconv.ParseInt10. cbv zeta.
    change (Ascii.eqb "-" "-") with true. rewrite orb_true_r. cbv iota.
    unfold GoStrconv.ParseUint10.
    rewrite Hslow by (rewrite ?Z.mul_0_l, ?Z.add_0_l;
                      change GoStrconv.MaxUint64 with 18446744073709551615; lia).
    simpl GoStrconv.parseUint_loop. simpl negb. simpl andb.
    rewrite Z.mul_0_l, Z.add_0_l. cbv beta iota.
    destruct (Z.ltb_spec 9223372036854775808 n); [lia|].
    reflexivity.
Qed.

Lemma Atoi_Itoa_int (t : Z) :
  GoStrconv.MinInt64 <= t <= GoStrconv.MaxInt64 ->
  GoStrconv.Atoi (GoStrconv.Itoa t) = (t, None).
Proof.
  intros Ht. unfold GoStrconv.Itoa.
  change GoStrconv.MinInt64 with (-9223372036854775808) in Ht.
  change GoStrconv.MaxInt64 with 9223372036854775807 in Ht.
  destruct (Z.ltb_spec t 0) as [Hneg|Hpos].
  - destruct (utoa_fuel_writes 19 (- t) EmptyString) as (m & _ & Hwrites).
    { change (10 ^ Z.of_nat 20) with 100000000000000000000. lia. }
    rewrite (Atoi_minus_digits _ _ _ Hwrites).
    + f_equal. lia.
    + change GoStrconv.MinInt64 with (-9223372036854775808). lia.
  - destruct (utoa_fuel_writes 19 t EmptyString) as (m & _ & Hwrites).
    { change (10 ^ Z.of_nat 20) with 100000000000000000000. lia. }
    apply (Atoi_digits _ _ _ Hwrites).
    change GoStrconv.MaxInt64 with 9223372036854775807. lia.
Qed.

(** [Atoi] reads back what [Itoa] writes, for every [int], without error;
    so [Itoa] gives different status codes different keys. *)
Theorem Atoi_Itoa (t u : Z) :
  GoStrconv.MinInt64 <= t <= GoStrconv.MaxInt64 ->
  GoStrconv.MinInt64 <= u <= GoStrconv.MaxInt64 ->
  GoStrconv.Atoi (GoStrconv.Itoa t) = (t, None)
  /\ (GoStrconv.Itoa t = GoStrconv.Itoa u -> t = u).
Proof.
  intros Ht Hu. split; [apply Atoi_Itoa_int; exact Ht|].
  intros Heq. pose proof (Atoi_Itoa_int t Ht) as Hread.
  rewrite Heq, (Atoi_Itoa_int u Hu) in Hread. congruence.
Qed.

(** ** The status-code remap with a well-formed target *)
Section remap_target.

Context {E : Externals}.

(** When the mapping sends the current (non-200) status code to the decimal
    form of an [int], the remap stores that number; the entries of other
    codes, the one of the target included, play no part. *)
Theorem ResetStatusCode_decimal_target (err : types.NewAPIError) (s : string)
    (m : gmap string string) (t : Z) :
  types.StatusCode err <> 200 ->
  s <> EmptyString -> s <> "{}" ->
  json_Unmarshal_map s = inr m ->
  m !! GoStrconv.Itoa (types.StatusCode err) = Some (GoStrconv.Itoa t) ->
  GoStrconv.MinInt64 <= t <= GoStrconv.MaxInt64 ->
  service.ResetStatusCode err s = types.set_StatusCode err t.
Proof.
  intros H200 Hs1 Hs2 Hm Hv Ht.
  unfold service.ResetStatusCode.
  apply String.eqb_neq in Hs1. apply String.eqb_neq in Hs2.
  rewrite Hs1, Hs2. simpl. rewrite Hm.
  destruct (Z.eqb_spec (types.StatusCode err) http.StatusOK) as [Heq|_];
    [contradiction|].
  rewrite Hv, (Atoi_Itoa_int t Ht). reflexivity.
Qed.

(** The two entry points of the error normalizer return the same error. *)
Theorem RelayErrorHandlerLegacy_agrees (resp : http.Response) (showBodyWhenFail : bool) :
  service_wrappers.RelayErrorHandlerLegacy resp showBodyWhenFail
  = service.RelayErrorHandler resp showBodyWhenFail.
Proof. reflexivity. Qed.

(** [showBodyWhenFail] matters only when the body was read and could not
    be parsed; there it appends the body to the message. *)
Theorem RelayErrorHandler_show_body (resp : http.Response) :
  (match http.Body resp with
   | inl _ => True
   | inr body =>
       match common_Unmarshal_error body with inr _ => True | inl _ => False end
   end ->
   service.RelayErrorHandler resp true = service.RelayErrorHandler resp false)
  /\ (forall body e,
        http.Body resp = inr body -> common_Unmarshal_error body = inl e ->
        exists msg,
          types.Err (service.RelayErrorHandler resp false) = Some msg
          /\ types.Err (service.RelayErrorHandler resp true)
             = Some (msg ++ ", body: " ++ body)
          /\ service.RelayErrorHandler resp true
             = types.set_Err (service.RelayErrorHandler resp false)
                 (msg ++ ", body: " ++ body)).
Proof.
  unfold service.RelayErrorHandler. split.
  - destruct (http.Body resp) as [e|body]; [reflexivity|].
    destruct (common_Unmarshal_error body) as [e|env]; [intros []|reflexivity].
  - intros body e Hbody Herr. rewrite Hbody, Herr.
    eexists. split; [reflexivity|]. split; reflexivity.
Qed.

End remap_target.

Lemma ResetStatusCode_decimal_target_witness :
  service.ResetStatusCode (H := scenario.default_externals)
    scenario.error_429 scenario.mapping_429_503
  = types.set_StatusCode scenario.error_429 503.
Proof.
  apply (@ResetStatusCode_decimal_target scenario.default_externals
           scenario.error_429 scenario.mapping_429_503 {[ "429" := "503" ]} 503).
  - vm_compute. discriminate.
  - vm_compute. discriminate.
  - vm_compute. discriminate.
  - vm_compute. reflexivity.
  - vm_compute. reflexivity.
  - vm_compute. split; discriminate.
Defined.

Lemma RelayErrorHandler_show_body_witness :
  service.RelayErrorHandler (H := scenario.default_externals)
    scenario.response_structured true
  = service.RelayErrorHandler (H := scenario.default_externals)
      scenario.response_structured false.
Proof.
  apply (proj1 (@RelayErrorHandler_show_body scenario.default_externals
                  scenario.response_structured)).
  vm_compute. exact I.
Defined.

(** ** The error wrappers *)

Lemma lower_bytes_no_upper (s : string) :
  service_wrappers.has_upper s = false -> service_wrappers.lower_bytes s = s.
Proof.
  induction s as [|c s IH]; [reflexivity|].
  simpl. intros H. apply orb_false_iff in H as [Hc Hs].
  unfold service_wrappers.lower_byte. rewrite Hc, (IH Hs). reflexivity.
Qed.

(** On an ASCII string [ToLower] lowers byte by byte. *)
Lemma ToLower_ascii `{service_wrappers.GoUnicode} (s : string) :
  service_wrappers.all_ascii s = true ->
  service_wrappers.ToLower s = service_wrappers.lower_bytes s.
Proof.
  intros Hascii. unfold service_wrappers.ToLower. rewrite Hascii.
  destruct (service_wrappers.has_upper s) eqn:Hup; [reflexivity|].
  symmetry. apply lower_bytes_no_upper. exact Hup.
Qed.

Lemma prefix_lower_bytes (p s : string) :
  String.prefix p s = true ->
  String.prefix (service_wrappers.lower_bytes p) (service_wrappers.lower_bytes s) = true.
Proof.
  revert s. induction p as [|a p IH]; intros s Hp; [destruct s; reflexivity|].
  destruct s as [|b s]; [discriminate|].
  simpl in Hp |- *. destruct (ascii_dec a b) as [->|]; [|discriminate].
  destruct (ascii_dec _ _) as [_|Hne]; [|contradiction].
  apply IH. exact Hp.
Qed.

(** A substring stays one when both strings are lowered. *)
Lemma Contains_lower_bytes (s sub : string) :
  GoStrings.Contains s sub = true ->
  GoStrings.Contains (service_wrappers.lower_bytes s)
    (service_wrappers.lower_bytes sub) = true.
Proof.
  unfold GoStrings.Contains.
  induction s as [|c s IH].
  - cbn [GoStrings.before_first service_wrappers.lower_bytes].
    destruct (String.prefix sub EmptyString) eqn:Hp; [|discriminate].
    intros _. apply prefix_lower_bytes in Hp.
    cbn [service_wrappers.lower_bytes] in Hp. rewrite Hp. reflexivity.
  - cbn [GoStrings.before_first service_wrappers.lower_bytes].
    destruct (String.prefix sub (String c s)) eqn:Hp.
    + intros _. apply prefix_lower_bytes in Hp.
      cbn [service_wrappers.lower_bytes] in Hp. rewrite Hp. reflexivity.
    + intros Hrest.
      destruct (String.prefix (service_wrappers.lower_bytes sub) _); [reflexivity|].
      destruct (GoStrings.before_first sub s); [|discriminate].
      specialize (IH eq_refl).
      destruct (GoStrings.before_first (service_wrappers.lower_bytes sub)
                  (service_wrappers.lower_bytes s)); [reflexivity | discriminate].
Qed.

Section wrappers.

Context {U : service_wrappers.GoUnicode}.

(** An ASCII error text that mentions [post], [dial] or [http] in any
    letter case is replaced by the fixed message: by [TaskErrorWrapper]
    always, by [ClaudeErrorWrapper] unless the lowered text begins with
    [get file base64 from url]. *)
Theorem wrappers_mask_transport_errors (text word code : string) (statusCode : Z) :
  service_wrappers.all_ascii text = true ->
  GoStrings.Contains text word = true ->
  service_wrappers.lower_bytes word = "post"
  \/ service_wrappers.lower_bytes word = "dial"
  \/ service_wrappers.lower_bytes word = "http" ->
  service_wrappers.te_Message
    (service_wrappers.TaskErrorWrapper text code statusCode)
  = service_wrappers.upstream_failed
  /\ (GoStrings.HasPrefix (service_wrappers.lower_bytes text)
        "get file base64 from url" = false ->
      service_wrappers.ce_Message
        (service_wrappers.cw_Error
           (service_wrappers.ClaudeErrorWrapper text code statusCode))
      = service_wrappers.upstream_failed).
Proof.
  intros Hascii Hin Hword.
  assert (Hmentions : service_wrappers.mentions_transport
                        (service_wrappers.ToLower text) = true).
  { rewrite (ToLower_ascii text Hascii).
    pose proof (Contains_lower_bytes text word Hin) as Hlow.
    unfold service_wrappers.mentions_transport.
    destruct Hword as [Hw|[Hw|Hw]]; rewrite Hw in Hlow; rewrite Hlow;
      rewrite ?orb_true_r; reflexivity. }
  split.
  - unfold service_wrappers.TaskErrorWrapper. simpl. rewrite Hmentions. reflexivity.
  - intros Hexempt. unfold service_wrappers.ClaudeErrorWrapper. simpl.
    rewrite (ToLower_ascii text Hascii) in *. rewrite Hexempt, Hmentions. reflexivity.
Qed.

(** The two wrappers give the same message unless the lowered text begins
    with [get file base64 from url], which [ClaudeErrorWrapper] lets
    through as it is; the message is always the text or the fixed message;
    [ClaudeErrorWrapper] does not use its [code]; the [Local] variants
    differ from the plain ones in the [LocalError] flag only. *)
Theorem wrappers_agree (text code : string) (statusCode : Z) :
  let claude := service_wrappers.ClaudeErrorWrapper text code statusCode in
  let task := service_wrappers.TaskErrorWrapper text code statusCode in
  (if GoStrings.HasPrefix (service_wrappers.ToLower text) "get file base64 from url"
   then service_wrappers.ce_Message (service_wrappers.cw_Error claude) = text
   else service_wrappers.ce_Message (service_wrappers.cw_Error claude)
        = service_wrappers.te_Message task)
  /\ (service_wrappers.te_Message task = text
      \/ service_wrappers.te_Message task = service_wrappers.upstream_failed)
  /\ (forall code', service_wrappers.ClaudeErrorWrapper text code' statusCode = claude)
  /\ service_wrappers.ClaudeErrorWrapperLocal text code statusCode
     = {| service_wrappers.cw_Error := service_wrappers.cw_Error claude;
          service_wrappers.cw_StatusCode := statusCode;
          service_wrappers.cw_LocalError := true |}
  /\ service_wrappers.TaskErrorWrapperLocal text code statusCode
     = {| service_wrappers.te_Code := code;
          service_wrappers.te_Message := service_wrappers.te_Message task;
          service_wrappers.te_StatusCode := statusCode;
          service_wrappers.te_LocalError := true;
          service_wrappers.te_Error := text |}.
Proof.
  cbv zeta.
  unfold service_wrappers.ClaudeErrorWrapperLocal, service_wrappers.TaskErrorWrapperLocal,
    service_wrappers.ClaudeErrorWrapper, service_wrappers.TaskErrorWrapper.
  simpl.
  destruct (GoStrings.HasPrefix (service_wrappers.ToLower text) _);
    destruct (service_wrappers.mentions_transport _); simpl; repeat split; auto.
Qed.

End wrappers.

Lemma wrappers_mask_transport_errors_witness :
  service_wrappers.ce_Message
    (service_wrappers.cw_Error
       (service_wrappers.ClaudeErrorWrapper (H := service_wrappers.caseless_unicode)
          "Post HTTPS://10.0.0.7/v1/messages: EOF" "do_request_failed" 500))
  = service_wrappers.upstream_failed.
Proof.
  apply (proj2 (@wrappers_mask_transport_errors service_wrappers.caseless_unicode
                  "Post HTTPS://10.0.0.7/v1/messages: EOF" "HTTP"
                  "do_request_failed" 500 eq_refl eq_refl
                  (or_intror (or_intror eq_refl)))).
  reflexivity.
Defined.

(** The fixed message passes both wrappers unchanged. *)
Example wrappers_keep_fixed_message :
  service_wrappers.te_Message
    (service_wrappers.TaskErrorWrapper (H := service_wrappers.caseless_unicode)
       service_wrappers.upstream_failed "code" 500)
  = service_wrappers.upstream_failed.
Proof. reflexivity. Qed.

(** ** More on strings: association, prefixes, last bytes *)

Lemma append_assoc (a b c : string) : (a ++ b) ++ c = a ++ (b ++ c).
Proof.
  induction a as [|x a IH]; [reflexivity|].
  change (String x ((a ++ b) ++ c) = String x (a ++ (b ++ c))).
  rewrite IH. reflexivity.
Qed.

Lemma prefix_nil (s : string) : String.prefix EmptyString s = true.
Proof. destruct s; reflexivity. Qed.

Lemma prefix_app (p s : string) : String.prefix p (p ++ s) = true.
Proof.
  induction p as [|x p IH]; [apply prefix_nil|].
  change (String.prefix (String x p) (String x (p ++ s)) = true).
  simpl. destruct (ascii_dec x x) as [_|Hne]; [exact IH | contradiction].
Qed.

Lemma prefix_app_both (a b c : string) :
  String.prefix (a ++ b) (a ++ c) = String.prefix b c.
Proof.
  induction a as [|x a IH]; [reflexivity|].
  change (String.prefix (String x (a ++ b)) (String x (a ++ c)) = String.prefix b c).
  simpl. destruct (ascii_dec x x) as [_|Hne]; [exact IH | contradiction].
Qed.

Lemma HasSuffix_app_r (s t suffix : string) :
  GoStrings.HasSuffix t suffix = true -> GoStrings.HasSuffix (s ++ t) suffix = true.
Proof.
  intros H. rewrite <- (TrimSuffix_restore t suffix H), <- append_assoc.
  apply HasSuffix_app.
Qed.

Lemma app_nonempty_r (s t : string) : t <> EmptyString -> s ++ t <> EmptyString.
Proof. destruct s; [intros H; exact H | discriminate]. Qed.

Lemma last_byte_app_r (s t : string) :
  t <> EmptyString ->
  vertex_methods.last_byte (s ++ t) = vertex_methods.last_byte t.
Proof.
  intros Ht. induction s as [|x s IH]; [reflexivity|].
  change (vertex_methods.last_byte (String x (s ++ t)) = vertex_methods.last_byte t).
  pose proof (app_nonempty_r s t Ht) as Hne.
  simpl. destruct (s ++ t) eqn:Hst; [contradiction | exact IH].
Qed.

(** A string does not end with a suffix whose last byte is not its own. *)
Lemma HasSuffix_last_byte (s suffix : string) :
  suffix <> EmptyString ->
  vertex_methods.last_byte s <> vertex_methods.last_byte suffix ->
  GoStrings.HasSuffix s suffix = false.
Proof.
  intros Hne Hlast. destruct (GoStrings.HasSuffix s suffix) eqn:H; [|reflexivity].
  exfalso. apply Hlast.
  rewrite <- (TrimSuffix_restore s suffix H) at 1.
  apply last_byte_app_r. exact Hne.
Qed.

(** ** [GetModelList] *)

Lemma copy_loop_all (n : nat) :
  forall (i : nat) (models modelList : list string),
    (i + n)%nat = length models ->
    vertex_methods.copy_loop n i models modelList
    = ((modelList ++ drop i models)%list, models).
Proof.
  induction n as [|n IH]; intros i models modelList Hlen.
  - simpl. rewrite drop_ge by lia. rewrite app_nil_r. reflexivity.
  - simpl. destruct (lookup_lt_is_Some_2 models i ltac:(lia)) as [s Hs].
    rewrite Hs, (list_insert_id models i s Hs), IH by lia.
    rewrite (drop_S models s i Hs), <- app_assoc. reflexivity.
Qed.

(** [GetModelList] returns the three package-level lists one after the
    other, and its writes into those lists leave them as they were. *)
Theorem GetModelList_concat (ModelList claudeModelList geminiModelList : list string) :
  vertex_methods.GetModelList ModelList claudeModelList geminiModelList
  = ((ModelList ++ claudeModelList ++ geminiModelList)%list,
     (ModelList, claudeModelList, geminiModelList)).
Proof.
  unfold vertex_methods.GetModelList.
  rewrite !copy_loop_all by lia. simpl. rewrite !drop_0, <- app_assoc. reflexivity.
Qed.

(** ** The Vertex adaptor: [Init], [GetRequestURL], [ConvertClaudeRequest] *)
Section vertex_urls.

Context {E : Externals}.

Lemma GetRequestURL_decode_error (a : vertex.Adaptor) (info : relaycommon.RelayInfo)
    (err : error) :
  json_Unmarshal_credentials (relaycommon.ApiKey info) = inl err ->
  vertex.GetRequestURL a info
  = (inl ("failed to decode credentials file: " ++ err), a, info).
Proof. intros H. unfold vertex.GetRequestURL. rewrite H. reflexivity. Qed.

(** The URL in Claude mode. *)
Lemma GetRequestURL_claude (a : vertex.Adaptor) (info : relaycommon.RelayInfo)
    (adc : credentials.Credentials) :
  json_Unmarshal_credentials (relaycommon.ApiKey info) = inr adc ->
  vertex.RequestMode a = vertex.RequestModeClaude ->
  let region := GetModelRegion (relaycommon.ApiVersion info)
                  (relaycommon.OriginModelName info) in
  let suffix := if relaycommon.IsStream info
                then "streamRawPredict?alt=sse" else "rawPredict" in
  vertex.GetRequestURL a info
  = (inr ((if String.eqb region "global"
           then "https://aiplatform.googleapis.com/v1/projects/"
                ++ credentials.ProjectID adc
                ++ "/locations/global/publishers/anthropic/models/"
           else "https://" ++ region ++ "-aiplatform.googleapis.com/v1/projects/"
                ++ credentials.ProjectID adc ++ "/locations/" ++ region
                ++ "/publishers/anthropic/models/")
          ++ vertex_methods.claude_url_model info ++ ":" ++ suffix),
     vertex.set_AccountCredentials a adc, info).
Proof.
  intros Hadc Hmode. cbv zeta. unfold vertex.GetRequestURL. rewrite Hadc.
  simpl. rewrite Hmode. simpl.
  unfold vertex_methods.claude_url_model.
  destruct (String.eqb _ "global"); rewrite ?append_assoc; reflexivity.
Qed.

(** The URL in Gemini mode, after the rewriting of the model name. *)
Lemma GetRequestURL_gemini (a : vertex.Adaptor) (info : relaycommon.RelayInfo)
    (adc : credentials.Credentials) :
  json_Unmarshal_credentials (relaycommon.ApiKey info) = inr adc ->
  vertex.RequestMode a = vertex.RequestModeGemini ->
  let region := GetModelRegion (relaycommon.ApiVersion info)
                  (relaycommon.OriginModelName info) in
  let suffix := if relaycommon.IsStream info
                then "streamGenerateContent?alt=sse" else "generateContent" in
  let name := if GeminiThinkingAdapterEnabled
              then vertex.strip_gemini_thinking (relaycommon.UpstreamModelName info)
              else relaycommon.UpstreamModelName info in
  vertex.GetRequestURL a info
  = (inr ((if String.eqb region "global"
           then "https://aiplatform.googleapis.com/v1/projects/"
                ++ credentials.ProjectID adc
                ++ "/locations/global/publishers/google/models/"
           else "https://" ++ region ++ "-aiplatform.googleapis.com/v1/projects/"
                ++ credentials.ProjectID adc ++ "/locations/" ++ region
                ++ "/publishers/google/models/")
          ++ name ++ ":" ++ suffix),
     vertex.set_AccountCredentials a adc,
     relaycommon.set_UpstreamModelName info name).
Proof.
  intros Hadc Hmode. cbv zeta. unfold vertex.GetRequestURL. rewrite Hadc.
  simpl. rewrite Hmode. simpl.
  destruct GeminiThinkingAdapterEnabled; simpl;
    rewrite ?set_UpstreamModelName_same;
    destruct (String.eqb _ "global"); rewrite ?append_assoc; reflexivity.
Qed.

(** The URL in Llama mode. *)
Lemma GetRequestURL_llama (a : vertex.Adaptor) (info : relaycommon.RelayInfo)
    (adc : credentials.Credentials) :
  json_Unmarshal_credentials (relaycommon.ApiKey info) = inr adc ->
  vertex.RequestMode a = vertex.RequestModeLlama ->
  let region := GetModelRegion (relaycommon.ApiVersion info)
                  (relaycommon.OriginModelName info) in
  vertex.GetRequestURL a info
  = (inr ("https://" ++ region ++ "-aiplatform.googleapis.com/v1beta1/projects/"
          ++ credentials.ProjectID adc ++ "/locations/" ++ region
          ++ "/endpoints/openapi/chat/completions"),
     vertex.set_AccountCredentials a adc, info).
Proof.
  intros Hadc Hmode. cbv zeta. unfold vertex.GetRequestURL. rewrite Hadc.
  simpl. rewrite Hmode. reflexivity.
Qed.

Lemma GetRequestURL_unsupported (a : vertex.Adaptor) (info : relaycommon.RelayInfo)
    (adc : credentials.Credentials) :
  json_Unmarshal_credentials (relaycommon.ApiKey info) = inr adc ->
  ~ vertex.supported_mode (vertex.RequestMode a) ->
  vertex.GetRequestURL a info
  = (inl "unsupported request mode", vertex.set_AccountCredentials a adc, info).
Proof.
  intros Hadc Hmode. unfold vertex.GetRequestURL. rewrite Hadc. simpl.
  destruct (Z.eqb_spec (vertex.RequestMode a) vertex.RequestModeGemini) as [Hg|_].
  { exfalso. apply Hmode. right; left. exact Hg. }
  destruct (Z.eqb_spec (vertex.RequestMode a) vertex.RequestModeClaude) as [Hc|_].
  { exfalso. apply Hmode. left. exact Hc. }
  destruct (Z.eqb_spec (vertex.RequestMode a) vertex.RequestModeLlama) as [Hl|_].
  { exfalso. apply Hmode. right; right. exact Hl. }
  reflexivity.
Qed.

End vertex_urls.

Section vertex_properties.

Context {E : Externals}.

(** The model name belongs to one of the three families [Init] knows. *)
Lemma Init_mode (a : vertex.Adaptor) (info : relaycommon.RelayInfo) :
  let name := relaycommon.UpstreamModelName info in
  vertex.RequestMode (vertex.Init a info)
  = if GoStrings.HasPrefix name "claude" then vertex.RequestModeClaude
    else if GoStrings.HasPrefix name "gemini" then vertex.RequestModeGemini
    else if GoStrings.Contains name "llama" then vertex.RequestModeLlama
    else vertex.RequestMode a.
Proof.
  cbv zeta. unfold vertex.Init.
  destruct (GoStrings.HasPrefix _ "claude"); [reflexivity|].
  destruct (GoStrings.HasPrefix _ "gemini"); [reflexivity|].
  destruct (GoStrings.Contains _ "llama"); reflexivity.
Qed.

(** [Init] followed by [GetRequestURL].  On an adaptor without request
    mode, the URL is refused exactly when the API key does not decode or
    the upstream model name is of none of the three families (it neither
    begins with [claude] or [gemini] nor contains [llama]).  On an adaptor
    that already has a request mode, [Init] never clears it, so the URL is
    refused only when the API key does not decode, whatever the model
    name. *)
Theorem Init_then_GetRequestURL (a : vertex.Adaptor) (info : relaycommon.RelayInfo) :
  let name := relaycommon.UpstreamModelName info in
  let result := fst (fst (vertex.GetRequestURL (vertex.Init a info) info)) in
  (~ vertex.supported_mode (vertex.RequestMode a) ->
   ((exists err, result = inl err) <->
    ((exists err, json_Unmarshal_credentials (relaycommon.ApiKey info) = inl err)
     \/ (GoStrings.HasPrefix name "claude" = false
         /\ GoStrings.HasPrefix name "gemini" = false
         /\ GoStrings.Contains name "llama" = false))))
  /\ (vertex.supported_mode (vertex.RequestMode a) ->
      ((exists err, result = inl err) <->
       (exists err, json_Unmarshal_credentials (relaycommon.ApiKey info) = inl err))).
Proof.
  cbv zeta.
  pose proof (Init_mode a info) as Hmode. cbv zeta in Hmode.
  assert (Hok : forall adc,
            json_Unmarshal_credentials (relaycommon.ApiKey info) = inr adc ->
            vertex.supported_mode (vertex.RequestMode (vertex.Init a info)) ->
            exists url,
              fst (fst (vertex.GetRequestURL (vertex.Init a info) info)) = inr url).
  { intros adc Hadc [Hm|[Hm|Hm]].
    - rewrite (GetRequestURL_claude _ _ _ Hadc Hm). eexists. reflexivity.
    - rewrite (GetRequestURL_gemini _ _ _ Hadc Hm). eexists. reflexivity.
    - rewrite (GetRequestURL_llama _ _ _ Hadc Hm). eexists. reflexivity. }
  destruct (json_Unmarshal_credentials (relaycommon.ApiKey info)) as [e|adc] eqn:Hadc.
  { rewrite (GetRequestURL_decode_error _ _ _ Hadc). simpl.
    split; intros _; split; intros _; eauto. }
  assert (Hno : ~ (exists err : error, @inr error credentials.Credentials adc = inl err))
    by (intros [err Herr]; discriminate).
  split; intros Ha; split.
  - intros [err Herr]. right.
    destruct (GoStrings.HasPrefix _ "claude") eqn:Hc.
    { destruct (Hok adc eq_refl (or_introl Hmode)) as [url Hurl]. congruence. }
    destruct (GoStrings.HasPrefix _ "gemini") eqn:Hg.
    { destruct (Hok adc eq_refl (or_intror (or_introl Hmode))) as [url Hurl]. congruence. }
    destruct (GoStrings.Contains _ "llama") eqn:Hl.
    { destruct (Hok adc eq_refl (or_intror (or_intror Hmode))) as [url Hurl]. congruence. }
    repeat split.
  - intros [Hbad|(Hc & Hg & Hl)]; [contradiction|].
    rewrite Hc, Hg, Hl in Hmode.
    rewrite (GetRequestURL_unsupported _ _ adc Hadc) by (rewrite Hmode; exact Ha).
    simpl. eauto.
  - intros [err Herr]. exfalso.
    assert (Hsup : vertex.supported_mode (vertex.RequestMode (vertex.Init a info))).
    { rewrite Hmode.
      destruct (GoStrings.HasPrefix _ "claude"); [left; reflexivity|].
      destruct (GoStrings.HasPrefix _ "gemini"); [right; left; reflexivity|].
      destruct (GoStrings.Contains _ "llama"); [right; right; reflexivity|].
      exact Ha. }
    destruct (Hok adc eq_refl Hsup) as [url Hurl]. congruence.
  - intros Hbad. contradiction.
Qed.

(** A second call of [GetRequestURL], on the adaptor and the context the
    first one left, returns the same result and changes nothing more,
    provided the call does not rewrite the model name a second time: the
    request mode is not Gemini, or the Gemini thinking adapter is off, or
    the stripped name has nothing left to strip. *)
Theorem GetRequestURL_twice (a : vertex.Adaptor) (info : relaycommon.RelayInfo) :
  vertex.RequestMode a <> vertex.RequestModeGemini
  \/ GeminiThinkingAdapterEnabled = false
  \/ vertex.strip_gemini_thinking
       (vertex.strip_gemini_thinking (relaycommon.UpstreamModelName info))
     = vertex.strip_gemini_thinking (relaycommon.UpstreamModelName info) ->
  vertex.GetRequestURL (snd (fst (vertex.GetRequestURL a info)))
    (snd (vertex.GetRequestURL a info))
  = vertex.GetRequestURL a info.
Proof.
  intros Hstable.
  destruct (json_Unmarshal_credentials (relaycommon.ApiKey info)) as [e|adc] eqn:Hadc.
  { rewrite (GetRequestURL_decode_error _ _ _ Hadc). simpl.
    apply GetRequestURL_decode_error. exact Hadc. }
  destruct (Z.eq_dec (vertex.RequestMode a) vertex.RequestModeClaude) as [Hc|Hc].
  { rewrite (GetRequestURL_claude _ _ _ Hadc Hc). cbv zeta. simpl.
    rewrite (GetRequestURL_claude (vertex.set_AccountCredentials a adc) info adc Hadc)
      by (simpl; assumption).
    reflexivity. }
  destruct (Z.eq_dec (vertex.RequestMode a) vertex.RequestModeLlama) as [Hl|Hl].
  { rewrite (GetRequestURL_llama _ _ _ Hadc Hl). cbv zeta. simpl.
    rewrite (GetRequestURL_llama (vertex.set_AccountCredentials a adc) info adc Hadc)
      by (simpl; assumption).
    reflexivity. }
  destruct (Z.eq_dec (vertex.RequestMode a) vertex.RequestModeGemini) as [Hg|Hg].
  { rewrite (GetRequestURL_gemini _ _ _ Hadc Hg). cbv zeta. simpl.
    rewrite (GetRequestURL_gemini (vertex.set_AccountCredentials a adc) _ adc)
      by (simpl; assumption).
    cbv zeta. simpl.
    destruct GeminiThinkingAdapterEnabled eqn:Hon.
    - destruct Hstable as [Hne|[Hoff|Hstrip]]; [contradiction | discriminate |].
      rewrite Hstrip. reflexivity.
    - destruct info; reflexivity. }
  assert (Hun : ~ vertex.supported_mode (vertex.RequestMode a)).
  { intros [H|[H|H]]; contradiction. }
  rewrite (GetRequestURL_unsupported _ _ _ Hadc Hun). simpl.
  rewrite (GetRequestURL_unsupported (vertex.set_AccountCredentials a adc) info adc Hadc)
    by (simpl; assumption).
  reflexivity.
Qed.

End vertex_properties.

Section vertex_url_shape.

Context {E : Externals}.

Ltac nonempty :=
  repeat (apply app_nonempty_r); discriminate.

(** In Claude and Gemini mode the URL ends with [?alt=sse] exactly when
    the request streams; in Llama mode it never does, and the URL is the
    same for a streaming and a buffered request. *)
Theorem GetRequestURL_stream_suffix (a : vertex.Adaptor) (info : relaycommon.RelayInfo)
    (url : string) :
  fst (fst (vertex.GetRequestURL a info)) = inr url ->
  (vertex.RequestMode a = vertex.RequestModeClaude
   \/ vertex.RequestMode a = vertex.RequestModeGemini ->
   GoStrings.HasSuffix url "?alt=sse" = relaycommon.IsStream info)
  /\ (vertex.RequestMode a = vertex.RequestModeLlama ->
      GoStrings.HasSuffix url "?alt=sse" = false
      /\ forall b,
           fst (fst (vertex.GetRequestURL a (relaycommon.set_IsStream info b)))
           = inr url).
Proof.
  intros Hurl.
  destruct (json_Unmarshal_credentials (relaycommon.ApiKey info)) as [e|adc] eqn:Hadc.
  { rewrite (GetRequestURL_decode_error _ _ _ Hadc) in Hurl. discriminate. }
  split.
  - intros [Hm|Hm].
    + rewrite (GetRequestURL_claude _ _ _ Hadc Hm) in Hurl. cbv zeta in Hurl.
      simpl in Hurl. injection Hurl as <-.
      destruct (relaycommon.IsStream info).
      * change "streamRawPredict?alt=sse" with ("streamRawPredict" ++ "?alt=sse").
        repeat apply HasSuffix_app_r. reflexivity.
      * apply HasSuffix_last_byte; [discriminate|].
        rewrite !last_byte_app_r by nonempty. discriminate.
    + rewrite (GetRequestURL_gemini _ _ _ Hadc Hm) in Hurl. cbv zeta in Hurl.
      simpl in Hurl. injection Hurl as <-.
      destruct (relaycommon.IsStream info).
      * repeat apply HasSuffix_app_r. reflexivity.
      * apply HasSuffix_last_byte; [discriminate|].
        rewrite !last_byte_app_r by nonempty. discriminate.
  - intros Hm.
    rewrite (GetRequestURL_llama _ _ _ Hadc Hm) in Hurl. cbv zeta in Hurl.
    simpl in Hurl. injection Hurl as <-. split.
    + apply HasSuffix_last_byte; [discriminate|].
      rewrite !last_byte_app_r by nonempty. discriminate.
    + intros b.
      rewrite (GetRequestURL_llama a (relaycommon.set_IsStream info b) adc)
        by assumption.
      reflexivity.
Qed.

(** Every URL is an https URL of the AI Platform host: the global host
    when the region is [global] in Claude or Gemini mode, the host of the
    region otherwise (Llama mode has no global form). *)
Theorem GetRequestURL_host (a : vertex.Adaptor) (info : relaycommon.RelayInfo)
    (url : string) :
  fst (fst (vertex.GetRequestURL a info)) = inr url ->
  let region := GetModelRegion (relaycommon.ApiVersion info)
                  (relaycommon.OriginModelName info) in
  GoStrings.HasPrefix url
    (if String.eqb region "global"
        && negb (vertex.RequestMode a =? vertex.RequestModeLlama)
     then "https://aiplatform.googleapis.com/"
     else "https://" ++ region ++ "-aiplatform.googleapis.com/") = true.
Proof.
  intros Hurl. cbv zeta. unfold GoStrings.HasPrefix.
  destruct (json_Unmarshal_credentials (relaycommon.ApiKey info)) as [e|adc] eqn:Hadc.
  { rewrite (GetRequestURL_decode_error _ _ _ Hadc) in Hurl. discriminate. }
  assert (Hregional : forall region tail1 tail2,
            String.prefix ("https://" ++ region ++ "-aiplatform.googleapis.com/")
              ("https://" ++ region ++ "-aiplatform.googleapis.com/" ++ tail1 ++ tail2)
            = true).
  { intros region tail1 tail2.
    rewrite (prefix_app_both "https://"), (prefix_app_both region).
    apply prefix_app. }
  destruct (Z.eq_dec (vertex.RequestMode a) vertex.RequestModeClaude) as [Hc|Hc].
  { rewrite (GetRequestURL_claude _ _ _ Hadc Hc) in Hurl. cbv zeta in Hurl.
    simpl in Hurl. injection Hurl as <-. rewrite Hc. simpl negb. rewrite andb_true_r.
    destruct (String.eqb _ "global").
    - reflexivity.
    - change "-aiplatform.googleapis.com/v1/projects/"
        with ("-aiplatform.googleapis.com/" ++ "v1/projects/").
      rewrite !append_assoc. apply Hregional. }
  destruct (Z.eq_dec (vertex.RequestMode a) vertex.RequestModeGemini) as [Hg|Hg].
  { rewrite (GetRequestURL_gemini _ _ _ Hadc Hg) in Hurl. cbv zeta in Hurl.
    simpl in Hurl. injection Hurl as <-. rewrite Hg. simpl negb. rewrite andb_true_r.
    destruct (String.eqb _ "global").
    - reflexivity.
    - change "-aiplatform.googleapis.com/v1/projects/"
        with ("-aiplatform.googleapis.com/" ++ "v1/projects/").
      rewrite !append_assoc. apply Hregional. }
  destruct (Z.eq_dec (vertex.RequestMode a) vertex.RequestModeLlama) as [Hl|Hl].
  { rewrite (GetRequestURL_llama _ _ _ Hadc Hl) in Hurl. cbv zeta in Hurl.
    simpl in Hurl. injection Hurl as <-. rewrite Hl. simpl negb. rewrite andb_false_r.
    change "-aiplatform.googleapis.com/v1beta1/projects/"
      with ("-aiplatform.googleapis.com/" ++ "v1beta1/projects/").
    rewrite !append_assoc. apply Hregional. }
  assert (Hun : ~ vertex.supported_mode (vertex.RequestMode a)).
  { intros [H|[H|H]]; contradiction. }
  rewrite (GetRequestURL_unsupported _ _ _ Hadc Hun) in Hurl. discriminate.
Qed.

End vertex_url_shape.

Section vertex_convert.

Context {E : Externals}.

Lemma ConvertClaudeRequest_request_model (a : vertex.Adaptor) (c : gin.Context)
    (info : relaycommon.RelayInfo) (request : dto.ClaudeRequest) :
  gin.GetString (snd (vertex.ConvertClaudeRequest a c info request)) "request_model"
  = match vertex.lookup_model vertex.claudeModelMap
            (relaycommon.UpstreamModelName info) with
    | Some v => v
    | None => dto.Model request
    end.
Proof.
  unfold vertex.ConvertClaudeRequest, gin.GetString, gin.Set_.
  unfold gin.Context in *.
  destruct (vertex.lookup_model vertex.claudeModelMap _); cbn [snd fst];
    rewrite lookup_insert_eq; reflexivity.
Qed.

(** [ConvertClaudeRequest] stores the upstream model under
    [request_model] and leaves every other entry of the gin context, the
    channel's status-code mapping among them, as it was. *)
Theorem ConvertClaudeRequest_context (a : vertex.Adaptor) (c : gin.Context)
    (info : relaycommon.RelayInfo) (request : dto.ClaudeRequest) :
  let c' := snd (vertex.ConvertClaudeRequest a c info request) in
  (forall key, key <> "request_model" -> c' !! key = c !! key)
  /\ gin.GetString c' "status_code_mapping" = gin.GetString c "status_code_mapping"
  /\ gin.GetString c' "request_model"
     = match vertex.lookup_model vertex.claudeModelMap
               (relaycommon.UpstreamModelName info) with
       | Some v => v
       | None => dto.Model request
       end.
Proof.
  cbv zeta. unfold vertex.ConvertClaudeRequest, gin.GetString, gin.Set_.
  unfold gin.Context in *.
  destruct (vertex.lookup_model vertex.claudeModelMap _); cbn [snd fst];
    repeat split;
    try (intros key Hkey; apply lookup_insert_ne; congruence);
    try (rewrite lookup_insert_ne by discriminate; reflexivity);
    rewrite lookup_insert_eq; reflexivity.
Qed.

(** In Claude mode the model in the URL is the one [ConvertClaudeRequest]
    stored under [request_model], when the request's model is the
    context's upstream model. *)
Theorem GetRequestURL_request_model (a : vertex.Adaptor) (c : gin.Context)
    (info : relaycommon.RelayInfo) (request : dto.ClaudeRequest) (url : string) :
  vertex.RequestMode a = vertex.RequestModeClaude ->
  dto.Model request = relaycommon.UpstreamModelName info ->
  fst (fst (vertex.GetRequestURL a info)) = inr url ->
  exists front,
    url = front
          ++ gin.GetString (snd (vertex.ConvertClaudeRequest a c info request))
               "request_model"
          ++ ":" ++ (if relaycommon.IsStream info
                     then "streamRawPredict?alt=sse" else "rawPredict").
Proof.
  intros Hmode Hmodel Hurl.
  destruct (json_Unmarshal_credentials (relaycommon.ApiKey info)) as [e|adc] eqn:Hadc.
  { rewrite (GetRequestURL_decode_error _ _ _ Hadc) in Hurl. discriminate. }
  rewrite (GetRequestURL_claude _ _ _ Hadc Hmode) in Hurl. cbv zeta in Hurl.
  simpl in Hurl. injection Hurl as <-.
  pose proof (ConvertClaudeRequest_request_model a c info request) as Hrm.
  cbv zeta in Hrm. rewrite Hrm, Hmodel.
  eexists. unfold vertex_methods.claude_url_model. reflexivity.
Qed.

End vertex_convert.

(** ** More on the runs of [ClaudeHelper] *)

(** Every path of the handler, with the calls it made. *)
Ltac all_runs Hrun :=
  unfold relay.ClaudeHelper in Hrun;
  run_cases Hrun;
  try match goal with
      | Hg : relay.ClaudeHelper_guarded _ _ _ _ _ _ = _ |- _ =>
          unfold relay.ClaudeHelper_guarded, relay.settle in Hg; run_cases Hg
      end;
  unfold relay.run_deferred; simpl.

Ltac split_events :=
  repeat match goal with
    | H : _ \/ _ |- _ => destruct H as [H|H]
    | H : False |- _ => contradiction
    | H : @eq relay.Event _ _ |- _ => first [discriminate H | inversion H; subst; clear H]
    end.

Section runs.

Context {A P : Type} {E : Externals} {Ad : channel.Adaptor A P}.

(** A request that does not bind, or has no message, or has no model, is
    refused with [InvalidRequest] before anything else happens: no call is
    made and the context is as [GenRelayInfoClaude] gave it.  Any other
    request passes validation unchanged. *)
Theorem ClaudeHelper_rejects_invalid (w : relay.World A P) :
  (match relay.ShouldBindJSON w with
   | inl _ => True
   | inr r => dto.Messages r = [] \/ dto.Model r = EmptyString
   end ->
   exists err,
     relay.ClaudeHelper w
     = (relay.Returned (Some (types.NewError err types.ErrorCodeInvalidRequest)),
        {| relay.info := relay.GenRelayInfoClaude w; relay.ctx := relay.context w;
           relay.events := [];
           relay.stream_history :=
             [relaycommon.IsStream (relay.GenRelayInfoClaude w)] |}))
  /\ (forall r, relay.ShouldBindJSON w = inr r ->
                dto.Messages r <> [] -> dto.Model r <> EmptyString ->
                relay.getAndValidateClaudeRequest (relay.ShouldBindJSON w) = inr r).
Proof.
  split.
  - intros Hbad. unfold relay.ClaudeHelper, relay.getAndValidateClaudeRequest.
    destruct (relay.ShouldBindJSON w) as [e|r]; [eexists; reflexivity|].
    destruct Hbad as [Hm|Hm]; rewrite Hm; simpl.
    + eexists; reflexivity.
    + destruct (length (dto.Messages r) =? 0)%nat; eexists; reflexivity.
  - intros r Hr Hm Hmodel. rewrite Hr. unfold relay.getAndValidateClaudeRequest.
    destruct (dto.Messages r) as [|x l]; [contradiction|]. simpl.
    apply String.eqb_neq in Hmodel. rewrite Hmodel. reflexivity.
Qed.

(** The calls of a run follow the pipeline: token count, price,
    reservation, conversion, upstream request, response handling, each at
    most once and none before the one in front of it; a terminal ledger
    action, if any, comes last and only after the reservation; and a nil
    return has gone through the whole pipeline. *)
Theorem ClaudeHelper_pipeline_order (w : relay.World A P) (o : relay.Outcome)
    (st : relay.State) :
  relay.ClaudeHelper w = (o, st) ->
  (exists n : nat,
     (n <= 6)%nat
     /\ (relay_order.stages st = List.seq 0 n
         \/ ((3 <= n)%nat /\ relay_order.stages st = (List.seq 0 n ++ [6%nat])%list)))
  /\ (o = relay.Returned None ->
      relay_order.stages st = [0; 1; 2; 3; 4; 5; 6]%nat).
Proof.
  intros Hrun. all_runs Hrun; unfold relay_order.stages; simpl;
    (split; [|first [discriminate | reflexivity]]);
    first [ exists 0%nat; split; [lia|]; left; reflexivity
          | exists 1%nat; split; [lia|]; left; reflexivity
          | exists 2%nat; split; [lia|]; left; reflexivity
          | exists 3%nat; split; [lia|]; left; reflexivity
          | exists 3%nat; split; [lia|]; right; split; [lia | reflexivity]
          | exists 4%nat; split; [lia|]; right; split; [lia | reflexivity]
          | exists 5%nat; split; [lia|]; right; split; [lia | reflexivity]
          | exists 6%nat; split; [lia|]; right; split; [lia | reflexivity]
          | exists 6%nat; split; [lia|]; left; reflexivity ].
Qed.

(** The refund and the settlement carry the amounts the reservation
    returned: a refund gives back the pre-consumed quota and the user quota
    of this run's successful [preConsumeQuota], and a settlement is made
    against them and against the price data the reservation was asked
    for. *)
Theorem ClaudeHelper_ledger_amounts (w : relay.World A P) (o : relay.Outcome)
    (st : relay.State) :
  relay.ClaudeHelper w = (o, st) ->
  (forall userQuota preConsumedQuota,
     In (relay.EvReturnPreConsumedQuota userQuota preConsumedQuota) (relay.events st) ->
     exists quota,
       In (relay.EvPreConsumeQuota quota (preConsumedQuota, userQuota, None))
         (relay.events st))
  /\ (forall usage preConsumedQuota userQuota priceData,
        In (relay.EvPostClaudeConsumeQuota usage preConsumedQuota userQuota priceData)
          (relay.events st) ->
        In (relay.EvPreConsumeQuota (helper.ShouldPreConsumedQuota priceData)
              (preConsumedQuota, userQuota, None))
          (relay.events st)).
Proof.
  intros Hrun. all_runs Hrun; split; intros; split_events; eauto 12.
Qed.

End runs.

(** ** The stream flag handed to the adaptor's response handler *)

(** A request that passes validation is the request that was bound. *)
Lemma getAndValidateClaudeRequest_inr (bound : error + dto.ClaudeRequest)
    (r : dto.ClaudeRequest) :
  relay.getAndValidateClaudeRequest bound = inr r -> bound = inr r.
Proof.
  unfold relay.getAndValidateClaudeRequest. destruct bound as [e|r']; [discriminate|].
  destruct (length (dto.Messages r') =? 0)%nat; [discriminate|].
  destruct (String.eqb (dto.Model r') EmptyString); [discriminate|].
  intros H. exact H.
Qed.

Section response_mode.

Context {A P : Type} {E : Externals} {Ad : channel.Adaptor A P}.

Variable w : relay.World A P.

(** From the equation of a call of [DoRequest], what is known of its
    response. *)
Ltac learn_response Hresp :=
  repeat match goal with
    | Heq : channel.DoRequest ?a ?c ?i ?b = _ |- _ =>
        let Hn := fresh "Hanswer" in
        pose proof (Hresp a c i b) as Hn; rewrite Heq in Hn; simpl in Hn; revert Heq
    end;
  intros.

(** When the upstream never answers 200 (and the adaptor never hands back
    a nil response), the handler never reports success and never panics,
    the adaptor's response handler is never called and nothing is settled;
    once the request has been sent, the error returned is either the
    transport error as a 500 [do_request_failed], or what
    [RelayErrorHandler] made of the response, with its status remapped by
    the mapping read from the context as the conversion left it. *)
Theorem ClaudeHelper_upstream_never_ok (o : relay.Outcome) (st : relay.State) :
  relay_order.responses_satisfy
    (fun resp => http.StatusCode resp <> http.StatusOK) ->
  relay.ClaudeHelper w = (o, st) ->
  (exists e, o = relay.Returned (Some e))
  /\ relay.count relay_order.is_do_response (relay.events st) = 0%nat
  /\ relay.count relay.is_settlement (relay.events st) = 0%nat
  /\ (forall body, In (relay.EvDoRequest body) (relay.events st) ->
        (exists err,
            o = relay.Returned
                  (Some (types.NewOpenAIError err types.ErrorCodeDoRequestFailed 500)))
        \/ (exists resp,
              http.StatusCode resp <> http.StatusOK
              /\ o = relay.Returned
                       (Some (service.ResetStatusCode
                                (service.RelayErrorHandler resp false)
                                (gin.GetString (relay.ctx st) "status_code_mapping"))))).
Proof.
  intros Hresp Hrun. all_runs Hrun; learn_response Hresp;
    try contradiction;
    try match goal with
        | Hbad : (if negb (?x =? ?y) then _ else _) = _ |- _ =>
            destruct (Z.eqb_spec x y); simpl in Hbad;
            [try contradiction; try discriminate Hbad | try discriminate Hbad]
        end;
    try match goal with
        | Hbad : Some _ = Some _ |- _ => injection Hbad as <-
        end;
    (split; [eexists; reflexivity|]);
    (split; [reflexivity|]); (split; [reflexivity|]);
    intros body Hin; split_events;
    first [ left; eexists; reflexivity
          | right; eexists; split; [eassumption | reflexivity] ].
Qed.

(** An upstream that answers with an event stream is handled as a stream,
    whatever the request asked for: every call of [DoResponse] sees
    [IsStream] true. *)
Theorem DoResponse_stream_of_content_type (o : relay.Outcome) (st : relay.State) :
  relay_order.responses_satisfy
    (fun resp =>
       GoStrings.HasPrefix (http.ContentType resp) "text/event-stream" = true) ->
  relay.ClaudeHelper w = (o, st) ->
  forall isStream, In (relay.EvDoResponse isStream) (relay.events st) ->
                   isStream = true.
Proof.
  intros Hresp Hrun isStream Hin. all_runs Hrun;
    unfold relay.run_deferred in Hin; simpl in Hin; split_events;
    learn_response Hresp; try contradiction;
    unfold relay.promote_stream; simpl;
    rewrite Hanswer; apply orb_true_r.
Qed.

Hypothesis Hkeep : relay.collaborators_keep_stream w.

Ltac learn_flags :=
  destruct Hkeep as (Hmap & Hprice & Hreserve & Hinit & Hconvert & Hrequest & Hresponse);
  repeat match goal with
    | Heq : relay.ModelMappedHelper w ?i ?r = _ |- _ =>
        let Hn := fresh "Hlow" in
        pose proof (Hmap i r) as Hn; rewrite Heq in Hn; simpl in Hn; revert Heq
    | Heq : relay.ModelPriceHelper w ?i ?p ?m = _ |- _ =>
        let Hn := fresh "Hlow" in
        pose proof (Hprice i p m) as Hn; rewrite Heq in Hn; simpl in Hn; revert Heq
    | Heq : relay.preConsumeQuota w ?q ?i = _ |- _ =>
        let Hn := fresh "Hlow" in
        pose proof (Hreserve q i) as Hn; rewrite Heq in Hn; simpl in Hn; revert Heq
    | Heq : channel.Init ?a ?i = _ |- _ =>
        let Hn := fresh "Hlow" in
        pose proof (Hinit a i) as Hn; rewrite Heq in Hn; simpl in Hn; revert Heq
    | Heq : channel.ConvertClaudeRequest ?a ?c ?i ?r = _ |- _ =>
        let Hn := fresh "Hlow" in
        pose proof (Hconvert a c i r) as Hn; rewrite Heq in Hn; simpl in Hn; revert Heq
    | Heq : channel.DoRequest ?a ?c ?i ?b = _ |- _ =>
        let Hn := fresh "Hlow" in
        pose proof (Hrequest a c i b) as Hn; rewrite Heq in Hn; simpl in Hn; revert Heq
    | Heq : relay.prepare_request ?i ?r = _ |- _ =>
        let Hn := fresh "Hlow" in
        pose proof (never_lowers_eq _ _ (prepare_request_IsStream i r)) as Hn;
        rewrite Heq in Hn; simpl in Hn; revert Heq
    end;
  intros.

(** A request that asks for a stream is handled as a stream, whatever the
    upstream's content type: when the callees outside the three files
    never lower [IsStream], every call of [DoResponse] sees it true. *)
Theorem DoResponse_stream_of_request (r : dto.ClaudeRequest) (o : relay.Outcome)
    (st : relay.State) :
  relay.ShouldBindJSON w = inr r ->
  dto.Stream r = true ->
  relay.ClaudeHelper w = (o, st) ->
  forall isStream, In (relay.EvDoResponse isStream) (relay.events st) ->
                   isStream = true.
Proof.
  intros Hbind Hstream Hrun isStream.
  unfold relay.ClaudeHelper in Hrun. rewrite Hbind in Hrun.
  run_cases Hrun;
    try match goal with
        | Hg : relay.ClaudeHelper_guarded _ _ _ _ _ _ = _ |- _ =>
            unfold relay.ClaudeHelper_guarded, relay.settle in Hg; run_cases Hg
        end;
    unfold relay.run_deferred; simpl; intros Hin; split_events;
    match goal with
    | Hv : relay.getAndValidateClaudeRequest (inr r) = inr _ |- _ =>
        apply getAndValidateClaudeRequest_inr in Hv; injection Hv as <-
    end;
    learn_flags;
    assert (Hfirst : relaycommon.IsStream
                       (relay.stream_from_request (relay.GenRelayInfoClaude w) r) = true)
      by (rewrite stream_from_request_IsStream, Hstream; apply orb_true_r);
    unfold relay.never_lowers in *; simpl in *;
    try (unfold relay.promote_stream; simpl; apply orb_true_iff; left);
    auto 20.
Qed.

End response_mode.

(** ** The thinking adapter outside its main case *)

Section thinking_adapter_other.

Context {E : Externals}.

(** A request for a [-thinking] model that brings its own thinking block
    keeps it: only the suffix is stripped from the model (and the
    context's [UpstreamModelName] set to the result); [MaxTokens] gets the
    default when zero but no floor of 1280, and the thinking block,
    [TopP] and [Temperature] are the client's. *)
Theorem thinking_adapter_keeps_client_thinking (i : relaycommon.RelayInfo)
    (r : dto.ClaudeRequest) (t : dto.Thinking) :
  ClaudeThinkingAdapterEnabled = true ->
  GoStrings.HasSuffix (dto.Model r) "-thinking" = true ->
  dto.Thinking_ r = Some t ->
  let i' := fst (relay.prepare_request i r) in
  let r' := snd (relay.prepare_request i r) in
  r' = relay.set_Model (relay.default_max_tokens r)
         (GoStrings.TrimSuffix (dto.Model r) "-thinking")
  /\ dto.Thinking_ r' = Some t
  /\ dto.TopP r' = dto.TopP r
  /\ dto.Temperature r' = dto.Temperature r
  /\ dto.MaxTokens r'
     = (if dto.MaxTokens r =? 0
        then uint_of_int (GetDefaultMaxTokens (dto.Model r))
        else dto.MaxTokens r)
  /\ i' = relaycommon.set_UpstreamModelName i
            (GoStrings.TrimSuffix (dto.Model r) "-thinking").
Proof.
  intros Hon Hsuffix Hblock. cbv zeta.
  unfold relay.prepare_request, relay.thinking_adapter.
  rewrite Hon, default_max_tokens_Model, Hsuffix, default_max_tokens_Thinking, Hblock.
  cbv zeta. cbn [andb fst snd]. rewrite default_max_tokens_Model.
  repeat split; cbn [relay.set_Model dto.Thinking_ dto.TopP dto.Temperature dto.MaxTokens].
  - rewrite default_max_tokens_Thinking. exact Hblock.
  - unfold relay.default_max_tokens. destruct (dto.MaxTokens r =? 0); reflexivity.
  - unfold relay.default_max_tokens. destruct (dto.MaxTokens r =? 0); reflexivity.
  - apply default_max_tokens_MaxTokens.
Qed.

(** With the adapter switched off, or for a model without the suffix, the
    context is not written and the request is changed in nothing but a
    zero [MaxTokens]; a request with a nonzero [MaxTokens] goes to the
    adaptor as it came. *)
Theorem prepare_request_passthrough (i : relaycommon.RelayInfo) (r : dto.ClaudeRequest) :
  ClaudeThinkingAdapterEnabled = false
  \/ GoStrings.HasSuffix (dto.Model r) "-thinking" = false ->
  relay.prepare_request i r = (i, relay.default_max_tokens r)
  /\ (dto.MaxTokens r <> 0 -> relay.prepare_request i r = (i, r)).
Proof.
  intros Hoff.
  assert (Hpass : relay.prepare_request i r = (i, relay.default_max_tokens r)).
  { unfold relay.prepare_request, relay.thinking_adapter.
    rewrite default_max_tokens_Model.
    destruct Hoff as [-> | ->]; [|rewrite andb_false_r]; reflexivity. }
  split; [exact Hpass|].
  intros Hmax. rewrite Hpass. unfold relay.default_max_tokens.
  apply Z.eqb_neq in Hmax. rewrite Hmax. reflexivity.
Qed.

End thinking_adapter_other.

(** ** The dispatch of [DoResponse] *)

(** [DoResponse] adds nothing of its own: in a supported request mode its
    result is the result of one handler on the same response and context,
    a streaming handler exactly when [info.IsStream] is set; in any other
    mode no handler runs and the named results keep their zero values, a
    nil usage with a nil error, which the end of [ClaudeHelper] cannot
    settle. *)
Theorem DoResponse_dispatch (h : vertex.Handlers) (a : vertex.Adaptor)
    (resp : option http.Response) (info : relaycommon.RelayInfo) :
  (vertex.supported_mode (vertex.RequestMode a) ->
   exists handler,
     vertex.DoResponse h a resp info = handler resp info
     /\ In handler
          (if relaycommon.IsStream info
           then [vertex.ClaudeStreamHandler h; vertex.GeminiTextGenerationStreamHandler h;
                 vertex.GeminiChatStreamHandler h; vertex.OaiStreamHandler h]
           else [vertex.ClaudeHandler h; vertex.GeminiTextGenerationHandler h;
                 vertex.GeminiChatHandler h; vertex.OpenaiHandler h]))
  /\ (~ vertex.supported_mode (vertex.RequestMode a) ->
      vertex.DoResponse h a resp info = ((channel.nil_interface, None), info)
      /\ forall st preConsumedQuota userQuota priceData,
           relay.settle st (fst (fst (vertex.DoResponse h a resp info)))
             preConsumedQuota userQuota priceData
           = (relay.ExitPanic None, st)).
Proof.
  unfold vertex.supported_mode, vertex.DoResponse.
  destruct (Z.eqb_spec (vertex.RequestMode a) vertex.RequestModeClaude) as [Hc|Hc];
    [|destruct (Z.eqb_spec (vertex.RequestMode a) vertex.RequestModeGemini) as [Hg|Hg];
      [|destruct (Z.eqb_spec (vertex.RequestMode a) vertex.RequestModeLlama) as [Hl|Hl]]];
    (split; [intros Hmode | intros Hmode; try (exfalso; apply Hmode; tauto)]).
  - destruct (relaycommon.IsStream info); eexists; (split; [reflexivity|]); simpl; tauto.
  - destruct (relaycommon.IsStream info);
      destruct (relaycommon.RelayMode info =? vertex.RelayModeGemini h);
      eexists; (split; [reflexivity|]); simpl; tauto.
  - destruct (relaycommon.IsStream info); eexists; (split; [reflexivity|]); simpl; tauto.
  - exfalso. tauto.
  - destruct (relaycommon.IsStream info); split; reflexivity.
Qed.

(** ** The properties above on the inputs of the scenarios *)

Lemma Atoi_Itoa_witness :
  GoStrconv.Atoi (GoStrconv.Itoa (-9223372036854775808))
  = (-9223372036854775808, None).
Proof.
  apply (proj1 (Atoi_Itoa (-9223372036854775808) 0
                  ltac:(unfold GoStrconv.MinInt64, GoStrconv.MaxInt64; lia)
                  ltac:(unfold GoStrconv.MinInt64, GoStrconv.MaxInt64; lia))).
Defined.

Lemma GetRequestURL_twice_witness :
  vertex.GetRequestURL (H := scenario.default_externals)
    (snd (fst (vertex.GetRequestURL (H := scenario.default_externals)
                 scenario.gemini_mode scenario.info_gemini_thinking)))
    (snd (vertex.GetRequestURL (H := scenario.default_externals)
            scenario.gemini_mode scenario.info_gemini_thinking))
  = vertex.GetRequestURL (H := scenario.default_externals)
      scenario.gemini_mode scenario.info_gemini_thinking.
Proof.
  apply (@GetRequestURL_twice scenario.default_externals
           scenario.gemini_mode scenario.info_gemini_thinking).
  right. right. vm_compute. reflexivity.
Defined.

(** Outside the proviso a second call does more: of a name with two
    suffixes the first call strips one and the second the other, and the
    two URLs differ. *)
Example GetRequestURL_twice_strips_again :
  relaycommon.UpstreamModelName
    (snd (vertex.GetRequestURL (H := scenario.default_externals)
            scenario.gemini_mode examples.info_gemini_two_suffixes))
  = "gemini-2.5-flash-nothinking"
  /\ relaycommon.UpstreamModelName
       (snd (vertex.GetRequestURL (H := scenario.default_externals)
               scenario.gemini_mode
               (snd (vertex.GetRequestURL (H := scenario.default_externals)
                       scenario.gemini_mode examples.info_gemini_two_suffixes))))
     = "gemini-2.5-flash".
Proof. split; vm_compute; reflexivity. Qed.

Lemma GetRequestURL_stream_suffix_witness :
  GoStrings.HasSuffix
    ("https://aiplatform.googleapis.com/v1/projects/p1/locations/global"
     ++ "/publishers/google/models/gemini-2.5-flash"
     ++ ":streamGenerateContent?alt=sse") "?alt=sse"
  = relaycommon.IsStream scenario.info_gemini_thinking.
Proof.
  apply (proj1 (@GetRequestURL_stream_suffix scenario.default_externals
                  scenario.gemini_mode scenario.info_gemini_thinking _
                  ltac:(vm_compute; reflexivity))).
  right. reflexivity.
Defined.

Lemma GetRequestURL_host_witness :
  GoStrings.HasPrefix
    ("https://us-east5-aiplatform.googleapis.com/v1/projects/p1"
     ++ "/locations/us-east5/publishers/anthropic/models/"
     ++ "claude-3-5-sonnet-v2@20241022:rawPredict")
    "https://us-east5-aiplatform.googleapis.com/" = true.
Proof.
  pose proof (@GetRequestURL_host scenario.default_externals
                scenario.claude_mode scenario.base_info _
                ltac:(vm_compute; reflexivity)) as H.
  cbv zeta in H. vm_compute in H. vm_compute. exact H.
Defined.

Lemma GetRequestURL_request_model_witness :
  exists front,
    "https://us-east5-aiplatform.googleapis.com/v1/projects/p1"
    ++ "/locations/us-east5/publishers/anthropic/models/"
    ++ "claude-3-5-sonnet-v2@20241022:rawPredict"
    = front ++ "claude-3-5-sonnet-v2@20241022" ++ ":" ++ "rawPredict".
Proof.
  pose proof (@GetRequestURL_request_model scenario.default_externals
                scenario.claude_mode ∅ scenario.base_info scenario.base_request _
                eq_refl eq_refl ltac:(vm_compute; reflexivity)) as H.
  exact H.
Defined.

Lemma ClaudeHelper_pipeline_order_witness :
  relay_order.stages (snd scenario.run_ok) = [0; 1; 2; 3; 4; 5; 6]%nat.
Proof.
  assert (Hrun : relay.ClaudeHelper (H := scenario.default_externals)
                   (H0 := scenario.adaptor_ok)
                   (scenario.world scenario.base_request EmptyString)
                 = (relay.Returned None, snd scenario.run_ok))
    by (vm_compute; reflexivity).
  apply (proj2 (@ClaudeHelper_pipeline_order _ _ scenario.default_externals
                  scenario.adaptor_ok _ _ _ Hrun)).
  reflexivity.
Defined.

Lemma ClaudeHelper_ledger_amounts_witness :
  exists quota,
    In (relay.EvPreConsumeQuota quota (7, 1000000, None))
      (relay.events (snd scenario.run_429)).
Proof.
  assert (Hrun : relay.ClaudeHelper (H := scenario.default_externals)
                   (H0 := scenario.adaptor_429)
                   (scenario.world scenario.base_request scenario.mapping_429_503)
                 = (fst scenario.run_429, snd scenario.run_429))
    by (vm_compute; reflexivity).
  apply (proj1 (@ClaudeHelper_ledger_amounts _ _ scenario.default_externals
                  scenario.adaptor_429 _ _ _ Hrun) 1000000 7).
  vm_compute. left. reflexivity.
Defined.

(** What the upstreams of the scenarios answer. *)
Lemma upstream_status_responses (status : Z) (body : string) :
  relay_order.responses_satisfy
    (H := scenario.vertex_adaptor (H := scenario.default_externals)
            (scenario.upstream_status status body))
    (fun resp => http.StatusCode resp = status).
Proof.
  intros a c i b. simpl. unfold scenario.DoApiRequest.
  destruct (vertex.GetRequestURL a i) as [[[e|url] a'] i']; simpl; [exact I | reflexivity].
Qed.

Lemma upstream_ok_responses (contentType : string) (usage : channel.any_usage) :
  relay_order.responses_satisfy
    (H := scenario.vertex_adaptor (H := scenario.default_externals)
            (scenario.upstream_ok contentType usage))
    (fun resp => http.ContentType resp = contentType).
Proof.
  intros a c i b. simpl. unfold scenario.DoApiRequest.
  destruct (vertex.GetRequestURL a i) as [[[e|url] a'] i']; simpl; [exact I | reflexivity].
Qed.

Lemma responses_satisfy_weaken {A P : Type} {Ad : channel.Adaptor A P}
    (ok ok' : http.Response -> Prop) :
  (forall resp, ok resp -> ok' resp) ->
  relay_order.responses_satisfy ok -> relay_order.responses_satisfy ok'.
Proof.
  intros Himp H a c i b. specialize (H a c i b).
  destruct (fst (fst (channel.DoRequest a c i b))) as [e|[resp|]]; auto.
Qed.

Lemma ClaudeHelper_upstream_never_ok_witness :
  relay.count relay_order.is_do_response (relay.events (snd scenario.run_429)) = 0%nat
  /\ relay.count relay.is_settlement (relay.events (snd scenario.run_429)) = 0%nat.
Proof.
  assert (Hrun : relay.ClaudeHelper (H := scenario.default_externals)
                   (H0 := scenario.adaptor_429)
                   (scenario.world scenario.base_request scenario.mapping_429_503)
                 = (fst scenario.run_429, snd scenario.run_429))
    by (vm_compute; reflexivity).
  assert (Hresp : relay_order.responses_satisfy (H := scenario.adaptor_429)
                    (fun resp => http.StatusCode resp <> http.StatusOK)).
  { apply (responses_satisfy_weaken (fun resp => http.StatusCode resp = 429)).
    - intros resp ->. discriminate.
    - apply upstream_status_responses. }
  destruct (@ClaudeHelper_upstream_never_ok _ _ scenario.default_externals
              scenario.adaptor_429 _ _ _ Hresp Hrun) as (_ & Hnone & Hsettled & _).
  split; assumption.
Defined.

Lemma DoResponse_stream_of_content_type_witness :
  relaycommon.IsStream scenario.base_info = false
  /\ dto.Stream scenario.base_request = false
  /\ relaycommon.IsStream (relay.info (snd scenario.run_nil_usage)) = true.
Proof.
  split; [reflexivity|]. split; [reflexivity|].
  assert (Hrun : relay.ClaudeHelper (H := scenario.default_externals)
                   (H0 := scenario.adaptor_nil_usage)
                   (scenario.world scenario.base_request EmptyString)
                 = (fst scenario.run_nil_usage, snd scenario.run_nil_usage))
    by (vm_compute; reflexivity).
  assert (Hresp : relay_order.responses_satisfy (H := scenario.adaptor_nil_usage)
                    (fun resp =>
                       GoStrings.HasPrefix (http.ContentType resp) "text/event-stream"
                       = true)).
  { apply (responses_satisfy_weaken
             (fun resp => http.ContentType resp = "text/event-stream")).
    - intros resp ->. reflexivity.
    - apply upstream_ok_responses. }
  apply (@DoResponse_stream_of_content_type _ _ scenario.default_externals
           scenario.adaptor_nil_usage _ _ _ Hresp Hrun).
  vm_compute. left. reflexivity.
Defined.

Lemma DoResponse_stream_of_request_witness :
  relaycommon.IsStream scenario.base_info = false
  /\ relaycommon.IsStream (relay.info (snd examples.run_stream)) = true.
Proof.
  split; [reflexivity|].
  assert (Hrun : relay.ClaudeHelper (H := scenario.default_externals)
                   (H0 := scenario.adaptor_ok)
                   (scenario.world examples.stream_request EmptyString)
                 = (fst examples.run_stream, snd examples.run_stream))
    by (vm_compute; reflexivity).
  apply (@DoResponse_stream_of_request _ _ scenario.default_externals
           scenario.adaptor_ok (scenario.world examples.stream_request EmptyString)
           (scenario_world_keeps_stream _ _ _ _)
           examples.stream_request _ _ eq_refl eq_refl Hrun).
  vm_compute. right. left. reflexivity.
Defined.

Lemma thinking_adapter_keeps_client_thinking_witness :
  dto.MaxTokens
    (snd (relay.prepare_request (H := scenario.default_externals)
            scenario.base_info examples.thinking_request_with_block)) = 500
  /\ dto.Thinking_
       (snd (relay.prepare_request (H := scenario.default_externals)
               scenario.base_info examples.thinking_request_with_block))
     = Some examples.client_thinking
  /\ dto.TopP
       (snd (relay.prepare_request (H := scenario.default_externals)
               scenario.base_info examples.thinking_request_with_block))
     = GoFloat.point8.
Proof.
  pose proof (@thinking_adapter_keeps_client_thinking scenario.default_externals
                scenario.base_info examples.thinking_request_with_block
                examples.client_thinking eq_refl eq_refl eq_refl) as H.
  cbv zeta in H. destruct H as (_ & Hblock & Htop & _ & Hmax & _).
  split; [|split].
  - rewrite Hmax. reflexivity.
  - exact Hblock.
  - rewrite Htop. reflexivity.
Defined.

Lemma prepare_request_passthrough_witness :
  relay.prepare_request (H := scenario.default_externals)
    scenario.base_info scenario.base_request
  = (scenario.base_info, relay.set_MaxTokens scenario.base_request 4096).
Proof.
  rewrite (proj1 (@prepare_request_passthrough scenario.default_externals
                    scenario.base_info scenario.base_request
                    (or_intror eq_refl))).
  reflexivity.
Defined.

Lemma ClaudeHelper_terminal_action_witness :
  relay.count relay.is_reservation (relay.events (snd scenario.run_429)) = 1%nat
  /\ relay.count relay.is_refund (relay.events (snd scenario.run_429)) = 1%nat
  /\ relay.count relay.is_settlement (relay.events (snd scenario.run_429)) = 0%nat.
Proof.
  assert (Hrun : relay.ClaudeHelper (H := scenario.default_externals)
                   (H0 := scenario.adaptor_429)
                   (scenario.world scenario.base_request scenario.mapping_429_503)
                 = (relay.Returned
                      (Some (service.ResetStatusCode (H := scenario.default_externals)
                               (service.RelayErrorHandler (H := scenario.default_externals)
                                  scenario.response_structured false)
                               scenario.mapping_429_503)),
                    snd scenario.run_429))
    by (vm_compute; reflexivity).
  destruct (@ClaudeHelper_terminal_action _ _ scenario.default_externals
              scenario.adaptor_429 _ _ _ Hrun) as [_ H].
  destruct H as (Hone & Hrefund & Hsettled).
  - vm_compute. discriminate.
  - split; [exact Hone|]. split; assumption.
Defined.
